(** * qctrlopencontrols.qiskit.quantum_circuit

    A shallow embedding of [_get_circuit_gate_list], [_get_rotations] and
    [convert_dds_to_quantum_circuit], and the properties of the conversion
    of a dynamic decoupling sequence into a gate-level circuit.

    Numbers.  Python floats are modelled by exact rationals ([Q]): sums,
    products and comparisons are the mathematical ones, without rounding.
    The number of delays that the builder inserts depends on the rounding
    of the loop test; for it the builder is embedded a second time, on
    binary64 numbers, in the module [Binary64].
    [np.isclose] follows the formula of the numpy documentation with its
    default tolerances.  [np.cos], [np.sin], [np.pi] and [qiskit.qasm.pi]
    are external; they are the fields of the class [Numerics], and every
    definition and theorem is generic in the instance.

    Effects.  Exceptions are the [Raised] outcome.  The [while] loop of the
    gate-list builder is run with fuel, [OutOfFuel] standing for a loop that
    has not finished yet.  The circuit under construction is the list of
    the instructions appended so far, threaded through the assembler, so
    that the instructions already emitted when an exception is raised can
    be observed. *)

From Stdlib Require Import QArith Qabs Qround ZArith String List Bool Lia Lqa.
From Stdlib Require Import SpecFloat.
Import ListNotations.

Open Scope string_scope.
Open Scope list_scope.
Open Scope Q_scope.

(** ** Numbers *)

Module Np.

(** The external numeric functions and constants. *)
Class Numerics := {
  cos : Q -> Q;
  sin : Q -> Q;
  pi : Q;          (* np.pi *)
  qasm_pi : Q      (* qiskit.qasm.pi *)
}.

Definition rtol : Q := 1e-05.
Definition atol : Q := 1e-08.

(** [np.isclose(a, b)]: [absolute(a - b) <= (atol + rtol * absolute(b))]. *)
Definition isclose (a b : Q) : bool :=
  Qle_bool (Qabs (a - b)) (atol + rtol * Qabs b).

(** [np.sum] of a one-dimensional array. *)
Definition sum (l : list Q) : Q := fold_left Qplus l 0.

(** [np.any]: some element is truthy, that is, not zero. *)
Definition any (l : list Z) : bool :=
  existsb (fun x => negb (x =? 0)%Z) l.

End Np.

(** [a < b] on rationals, as a boolean. *)
Definition Qlt_bool (a b : Q) : bool := negb (Qle_bool b a).

(** ** Outcomes of a call *)

(** The four kinds of error of the specification; in the source they are
    all raised as [ArgumentsValueError], told apart by the raising site. *)
Inductive error_kind :=
| InvalidSequenceError
| InvalidParameterError
| UnrealizableOffsetError
| MultiAxisRotationError.

(** The values an [ArgumentsValueError] carries. *)
Inductive argument :=
| arg_sequence_missing
| arg_sequence_type
| arg_pre_post_gate_params (l : list Q)
| arg_identity_gate_time (t : Q)
| arg_target_qubits (l : list Z)
| arg_algorithm (a : string)
| arg_registers (l : list Z) (size : Z) (max_target : Z)
| arg_sequence_operations (operations : list (list Q))
| arg_sequence_operations64 (operations : list (list spec_float))
| arg_instance_operation (instance_operation : list Q).

Inductive exn :=
| ArgumentsValueError (kind : error_kind) (description : string) (arguments : argument)
| ValueError (description : string)
| IndexError.

Inductive outcome (A : Type) :=
| Returned (a : A)
| Raised (e : exn)
| OutOfFuel.
Arguments Returned {A} a.
Arguments Raised {A} e.
Arguments OutOfFuel {A}.

Definition obind {A B} (m : outcome A) (k : A -> outcome B) : outcome B :=
  match m with
  | Returned a => k a
  | Raised e => Raised e
  | OutOfFuel => OutOfFuel
  end.

(** [array[i]] on a one-dimensional array, for [i >= 0]. *)
Definition getitem {A} (l : list A) (i : nat) : outcome A :=
  match nth_error l i with
  | Some x => Returned x
  | None => Raised IndexError
  end.

(** ** The sequence *)

(** Modelled from the spec: the class [DynamicDecouplingSequence] (module
    [qctrlopencontrols.dynamic_decoupling_sequences]) is not among the
    sources; section 3 gives its four one-dimensional arrays. *)
Record DynamicDecouplingSequence := {
  offsets : list Q;
  rabi_rotations : list Q;
  azimuthal_angles : list Q;
  detuning_rotations : list Q
}.

(** ** _get_circuit_gate_list *)

Section GateList.

Variable fuel : nat.
Variable dynamic_decoupling_sequence : DynamicDecouplingSequence.
Variables gate_time unitary_time : Q.

(** [np.vstack] of three one-dimensional arrays: they must have one
    length. *)
Definition vstack (a b c : list Q) : outcome (list (list Q)) :=
  if ((length a =? length b) && (length b =? length c))%nat
  then Returned [a; b; c]
  else Raised (ValueError "all the input array dimensions except for the concatenation axis must match exactly").

(** [operations[:, operation_idx]]; every row has the index, by [vstack]. *)
Definition column (operations : list (list Q)) (operation_idx : nat) : list Q :=
  map (fun row => nth operation_idx row 0) operations.

(** The [while] loop that appends the identity gates.  It returns the
    final [number_of_id_gates] and [circuit_operations]. *)
Fixpoint while_id (n : nat) (time_covered offset : Q)
         (number_of_id_gates : Z) (circuit_operations : list string)
  : outcome (Z * list string) :=
  match n with
  | O => OutOfFuel
  | S n' =>
      if Qle_bool (time_covered + inject_Z (number_of_id_gates + 1) * gate_time) offset
      then while_id n' time_covered offset
                    (number_of_id_gates + 1) (circuit_operations ++ ["id"])
      else Returned (number_of_id_gates, circuit_operations)
  end.

(** [offset_distance] after the [np.isclose] test. *)
Definition snap (offset_distance : Q) : Q :=
  if Np.isclose offset_distance 0 then 0 else offset_distance.

(** One iteration of the [for] loop; the state is
    [(time_covered, circuit_operations)]. *)
Definition gate_list_step (operations : list (list Q))
           (st : Q * list string) (operation_idx : nat)
  : outcome (Q * list string) :=
  let '(time_covered, circuit_operations) := st in
  obind (getitem (offsets dynamic_decoupling_sequence) operation_idx) (fun offset =>
  let offset_distance := snap (offset - time_covered) in
  if Qlt_bool offset_distance 0 then
    Raised (ArgumentsValueError UnrealizableOffsetError
              "Offsets cannot be placed properly"
              (arg_sequence_operations operations))
  else if Qeq_bool offset_distance 0 then
    let circuit_operations := circuit_operations ++ ["offset"] in
    if Np.isclose (Np.sum (column operations operation_idx)) 0
    then Returned (offset, circuit_operations)
    else Returned (offset + unitary_time, circuit_operations)
  else
    obind (while_id fuel time_covered offset 0 circuit_operations) (fun r =>
    let circuit_operations := snd r ++ ["offset"] in
    Returned (offset + unitary_time, circuit_operations))).

(** The [for] loop over the indices. *)
Fixpoint gate_list_loop (operations : list (list Q)) (indices : list nat)
         (st : Q * list string) : outcome (Q * list string) :=
  match indices with
  | [] => Returned st
  | operation_idx :: rest =>
      obind (gate_list_step operations st operation_idx)
            (gate_list_loop operations rest)
  end.

Definition _get_circuit_gate_list : outcome (list string) :=
  let rabi_rotations := rabi_rotations dynamic_decoupling_sequence in
  let azimuthal_angles := azimuthal_angles dynamic_decoupling_sequence in
  let detuning_rotations := detuning_rotations dynamic_decoupling_sequence in
  obind (vstack rabi_rotations azimuthal_angles detuning_rotations) (fun operations =>
  let time_covered := 0 in
  let circuit_operations := [] in
  obind (gate_list_loop operations (seq 0 (length rabi_rotations))
                        (time_covered, circuit_operations)) (fun st =>
  Returned (snd st))).

End GateList.

(** ** The circuit under construction *)

(** The instructions the assembler appends.  A qubit [quantum_registers[q]]
    is recorded by its index [q]; element access on a register belongs to
    the external circuit library and is not modelled further.  The library
    builds a register of a positive size and accepts the indices from zero
    to below the size; the statements that conclude that a circuit is
    returned, or that an error is raised during the walk, therefore take
    target qubits that are not negative. *)
Inductive instruction :=
| u3 (theta phi lam : Q) (qubit : Z)
| u1 (lam : Q) (qubit : Z)
| iden (qubit : Z)
| barrier (qubit : Z)
| barrier_all
| measure (qubit : Z) (clbit : nat).

Record QuantumRegister := { qr_size : Z }.
Record ClassicalRegister := { cr_size : nat }.

Record QuantumCircuit := {
  qregs : QuantumRegister;
  cregs : option ClassicalRegister;
  name : option string;
  data : list instruction
}.

(** The assembler: a computation that appends instructions to the circuit
    and may raise. *)
Definition Asm (A : Type) : Type :=
  list instruction -> outcome A * list instruction.

Definition ret {A} (a : A) : Asm A := fun c => (Returned a, c).

Definition bind {A B} (m : Asm A) (k : A -> Asm B) : Asm B :=
  fun c =>
    match m c with
    | (Returned a, c') => k a c'
    | (Raised e, c') => (Raised e, c')
    | (OutOfFuel, c') => (OutOfFuel, c')
    end.

Definition raise {A} (e : exn) : Asm A := fun c => (Raised e, c).

Definition lift {A} (o : outcome A) : Asm A := fun c => (o, c).

Definition emit (i : instruction) : Asm unit :=
  fun c => (Returned tt, c ++ [i]).

Declare Scope asm_scope.
Delimit Scope asm_scope with asm.
Notation "x <- m ;; k" := (bind m (fun x => k))
  (at level 61, m at next level, right associativity) : asm_scope.
Notation "m ;; k" := (bind m (fun _ => k))
  (at level 61, right associativity) : asm_scope.
Open Scope asm_scope.

(** [for x in l: body x]. *)
Fixpoint for_each {A} (l : list A) (body : A -> Asm unit) : Asm unit :=
  match l with
  | [] => ret tt
  | x :: rest => body x ;; for_each rest body
  end.

(** [enumerate(l)], counting from [start]. *)
Fixpoint enumerate {A} (start : nat) (l : list A) : list (nat * A) :=
  match l with
  | [] => []
  | x :: rest => (start, x) :: enumerate (S start) rest
  end.

(** The built-in [max] of a list. *)
Definition py_max (l : list Z) : outcome Z :=
  match l with
  | [] => Raised (ValueError "max() arg is an empty sequence")
  | x :: rest => Returned (fold_left Z.max rest x)
  end.

(** The first argument of the conversion as Python passes it: [None], an
    object of another class, or a sequence. *)
Inductive py_object :=
| PyNone
| PyOther
| PySequence (s : DynamicDecouplingSequence).

(** ** _get_rotations and convert_dds_to_quantum_circuit *)

Section Assembler.

Context `{Np.Numerics}.

(** The two constants of [qiskit/constants.py], which is not among the
    sources. *)
Variables FIX_DURATION_UNITARY INSTANT_UNITARY : string.

Definition _get_rotations (operation : list Q) : list Q :=
  let x_rotation := nth 0 operation 0 * Np.cos (nth 1 operation 0) in
  let y_rotation := nth 0 operation 0 * Np.sin (nth 1 operation 0) in
  let z_rotation := nth 2 operation 0 in
  let pulses := [x_rotation; y_rotation; z_rotation] in
  pulses.

(** The loop that counts the rotations that are not close to zero. *)
Definition count_nonzero (rotations : list Q) : nat :=
  fold_left (fun nonzero_pulse_counts rotation =>
               if negb (Np.isclose rotation 0)
               then (nonzero_pulse_counts + 1)%nat
               else nonzero_pulse_counts)
            rotations 0%nat.

(** The body of the loop over the target qubits at a pulse. *)
Definition emit_pulse (rotations : list Q) (nonzero_pulse_counts : nat)
           (qubit : Z) : Asm unit :=
  (if (nonzero_pulse_counts =? 0)%nat then
     emit (u3 0 0 0 qubit)
   else if negb (Np.isclose (nth 0 rotations 0) 0) then
     emit (u3 (nth 0 rotations 0) (- Np.qasm_pi / 2) (Np.qasm_pi / 2) qubit)
   else if negb (Np.isclose (nth 1 rotations 0) 0) then
     emit (u3 (nth 1 rotations 0) 0 0 qubit)
   else if negb (Np.isclose (nth 2 rotations 0) 0) then
     emit (u1 (nth 2 rotations 0) qubit)
   else ret tt) ;;
  emit (barrier qubit).

(** The body of the loop over the gate list for an entry that is not
    ['id']. *)
Definition pulse_slot (s : DynamicDecouplingSequence) (target_qubits : list Z)
           (offset_count : nat) : Asm unit :=
  rabi <- lift (getitem (rabi_rotations s) offset_count) ;;
  azimuthal <- lift (getitem (azimuthal_angles s) offset_count) ;;
  detuning <- lift (getitem (detuning_rotations s) offset_count) ;;
  let instance_operation := [rabi; azimuthal; detuning] in
  let rotations := _get_rotations instance_operation in
  let nonzero_pulse_counts := count_nonzero rotations in
  if (1 <? nonzero_pulse_counts)%nat then
    raise (ArgumentsValueError MultiAxisRotationError
             "Open Controls support a sequence with one valid pulse at any offset. Found sequence with multiple rotation operations at an offset."
             (arg_instance_operation instance_operation))
  else
    for_each target_qubits (emit_pulse rotations nonzero_pulse_counts).

(** The body for an ['id'] entry. *)
Definition id_slot (target_qubits : list Z) : Asm unit :=
  for_each target_qubits (fun qubit =>
    emit (iden qubit) ;; emit (barrier qubit)).

(** The loop over [circuit_gate_list]; it returns the final
    [offset_count]. *)
Fixpoint walk (s : DynamicDecouplingSequence) (target_qubits : list Z)
         (circuit_gate_list : list string) (offset_count : nat) : Asm nat :=
  match circuit_gate_list with
  | [] => ret offset_count
  | gate :: rest =>
      if String.eqb gate "id" then
        id_slot target_qubits ;;
        walk s target_qubits rest offset_count
      else
        pulse_slot s target_qubits offset_count ;;
        walk s target_qubits rest (offset_count + 1)
  end.

(** The pre- and post-calibration loops. *)
Definition calibration (pre_post_gate_parameters : list Q)
           (after : instruction) (qubit : Z) : Asm unit :=
  p0 <- lift (getitem pre_post_gate_parameters 0) ;;
  p1 <- lift (getitem pre_post_gate_parameters 1) ;;
  p2 <- lift (getitem pre_post_gate_parameters 2) ;;
  emit (u3 p0 p1 p2 qubit) ;;
  emit after.

Definition convert_dds_to_quantum_circuit
           (fuel : nat)
           (dynamic_decoupling_sequence : py_object)
           (target_qubits : option (list Z))
           (gate_time : Q)
           (pre_post_gate_parameters : option (list Q))
           (add_measurement : bool)
           (algorithm : string)
           (quantum_registers : option QuantumRegister)
           (circuit_name : option string)
  : Asm (QuantumRegister * option ClassicalRegister * option string) :=
  match dynamic_decoupling_sequence with
  | PyNone =>
      raise (ArgumentsValueError InvalidSequenceError
               "No dynamic decoupling sequence provided."
               arg_sequence_missing)
  | PyOther =>
      raise (ArgumentsValueError InvalidSequenceError
               "Dynamical decoupling sequence is not recognized.Expected DynamicDecouplingSequence instance"
               arg_sequence_type)
  | PySequence s =>
      let target_qubits :=
        match target_qubits with None => [0%Z] | Some l => l end in
      let pre_post_gate_parameters :=
        match pre_post_gate_parameters with
        | None => [Np.pi / 2; - Np.qasm_pi / 2; Np.qasm_pi / 2]
        | Some l => l
        end in
      if negb (length pre_post_gate_parameters =? 3)%nat then
        raise (ArgumentsValueError InvalidParameterError
                 "Pre-Post gate parameters must be a list of 3 floating point numbers."
                 (arg_pre_post_gate_params pre_post_gate_parameters))
      else if Qle_bool gate_time 0 then
        raise (ArgumentsValueError InvalidParameterError
                 "Time delay of identity gate must be greater than zero."
                 (arg_identity_gate_time gate_time))
      else if (Z.b2z (Np.any target_qubits) <? 0)%Z then
        raise (ArgumentsValueError InvalidParameterError
                 "Every target qubits index must be positive."
                 (arg_target_qubits target_qubits))
      else if negb (existsb (String.eqb algorithm)
                            [FIX_DURATION_UNITARY; INSTANT_UNITARY]) then
        raise (ArgumentsValueError InvalidParameterError
                 "Algorithm must be one of {} or {}"
                 (arg_algorithm algorithm))
      else
        quantum_registers <-
          match quantum_registers with
          | Some registers =>
              m <- lift (py_max target_qubits) ;;
              if (qr_size registers <? m + 1)%Z then
                m' <- lift (py_max target_qubits) ;;
                raise (ArgumentsValueError InvalidParameterError
                         "Target qubit is not present in quantum_registers"
                         (arg_registers target_qubits (qr_size registers) m'))
              else ret registers
          | None =>
              m <- lift (py_max target_qubits) ;;
              ret {| qr_size := m + 1 |}
          end ;;
        let classical_registers :=
          if add_measurement
          then Some {| cr_size := length target_qubits |}
          else None in
        let unitary_time :=
          if String.eqb algorithm FIX_DURATION_UNITARY then gate_time else 0 in
        circuit_gate_list <-
          lift (_get_circuit_gate_list fuel s gate_time unitary_time) ;;
        for_each target_qubits (fun qubit =>
          calibration pre_post_gate_parameters (barrier qubit) qubit) ;;
        _ <- walk s target_qubits circuit_gate_list 0 ;;
        for_each target_qubits (fun qubit =>
          calibration pre_post_gate_parameters barrier_all qubit) ;;
        (if add_measurement then
           for_each (enumerate 0 target_qubits) (fun '(q_index, qubit) =>
             emit (measure qubit q_index))
         else ret tt) ;;
        ret (quantum_registers, classical_registers, circuit_name)
  end.

(** A call: the body run on a circuit without instructions. *)
Definition call {A} (m : Asm A) : outcome A * list instruction := m [].

End Assembler.

(** [convert_dds_to_quantum_circuit] as its caller sees it: the circuit, or
    the exception. *)
Definition result_of (r : outcome (QuantumRegister * option ClassicalRegister * option string)
                           * list instruction) : outcome QuantumCircuit :=
  match r with
  | (Returned (q, c, n), instructions) =>
      Returned {| qregs := q; cregs := c; name := n; data := instructions |}
  | (Raised e, _) => Raised e
  | (OutOfFuel, _) => OutOfFuel
  end.

(** ** A computable instance of the numeric functions

    Truncated Taylor series on the rationals; they are exact at zero,
    [cos 0 = 1] and [sin 0 = 0], as [np.cos] and [np.sin] are. *)
Module Taylor.

Fixpoint series (n : nat) (x2 : Q) (k : Z) (term : Q) : Q :=
  match n with
  | O => 0
  | S n' =>
      term + series n' x2 (k + 2)
                    (Qred (- term * x2 / inject_Z ((k + 1) * (k + 2))))
  end.

Definition cos (x : Q) : Q := Qred (series 12 (x * x) 0 1).
Definition sin (x : Q) : Q := Qred (series 12 (x * x) 1 x).
Definition pi : Q := 3.141592653589793.

Definition numerics : Np.Numerics :=
  {| Np.cos := cos; Np.sin := sin; Np.pi := pi; Np.qasm_pi := pi |}.

End Taylor.

(** The values of the two constants, as the docstring of the conversion
    spells them. *)
Definition FIX_DURATION_UNITARY : string := "Fixed duration unitary".
Definition INSTANT_UNITARY : string := "Instant unitary".

(** The conversion with the concrete numerics and constants, and the
    defaults of the optional parameters. *)
Definition convert (fuel : nat) (s : py_object) (target_qubits : option (list Z))
           (gate_time : Q) (algorithm : string) :=
  call (@convert_dds_to_quantum_circuit Taylor.numerics
          FIX_DURATION_UNITARY INSTANT_UNITARY
          fuel s target_qubits gate_time None true algorithm None None).

(** ** Definitions used by the statements *)

(** The gate list of a sequence whose [i]-th pulse is preceded by [ks[i]]
    identity gates. *)
Definition slots (ks : list nat) : list string :=
  flat_map (fun k => repeat "id" k ++ ["offset"]) ks.

(** The number of identity gates the documentation of the conversion
    announces for a distance: [np.int(np.floor(offset_distance / gate_time))]. *)
Definition documented_id_gates (offset_distance gate_time : Q) : nat :=
  Z.to_nat (Qfloor (offset_distance / gate_time)).

(** In the words of the specification (scenario B: "amplitude=0
    (zero-strength pulse)"): the pulse [(amplitude, phase, detuning)] has
    zero strength. *)
Definition zero_strength (operation : list Q) : bool :=
  Np.isclose (nth 0 operation 0) 0.

(** The instructions of one identity slot and of one pulse for a qubit. *)
Definition id_instructions (target_qubits : list Z) : list instruction :=
  flat_map (fun qubit => [iden qubit; barrier qubit]) target_qubits.

(** A documented error that is raised by the validation or by the
    gate-list builder. *)
Definition early_kind (k : error_kind) : bool :=
  match k with
  | MultiAxisRotationError => false
  | _ => true
  end.

Section Pulses.

Context `{Np.Numerics}.

(** The walk over the gate list [slots ks], written as a loop over the
    pulses: the identity slots of a pulse, then the pulse itself, at the
    indices [offset_count], [offset_count + 1], ... in turn. *)
Fixpoint walk_pulses (s : DynamicDecouplingSequence) (target_qubits : list Z)
         (ks : list nat) (offset_count : nat) : Asm nat :=
  match ks with
  | [] => ret offset_count
  | k :: rest =>
      for_each (repeat tt k) (fun _ => id_slot target_qubits) ;;
      pulse_slot s target_qubits offset_count ;;
      walk_pulses s target_qubits rest (offset_count + 1)
  end.

(** The pulse at an index, when the three arrays have it. *)
Definition pulse_at (s : DynamicDecouplingSequence) (i : nat)
  : option (list Q) :=
  match nth_error (rabi_rotations s) i,
        nth_error (azimuthal_angles s) i,
        nth_error (detuning_rotations s) i with
  | Some r, Some a, Some d => Some [r; a; d]
  | _, _, _ => None
  end.

End Pulses.

(** [m] returns and appends the instructions [l], whatever the circuit. *)
Definition appends (m : Asm unit) (l : list instruction) : Prop :=
  forall c, m c = (Returned tt, c ++ l).

(** The target qubits and the calibration parameters after the defaults. *)
Definition targets (target_qubits : option (list Z)) : list Z :=
  match target_qubits with None => [0%Z] | Some l => l end.

Definition parameters `{Np.Numerics} (pre_post_gate_parameters : option (list Q))
  : list Q :=
  match pre_post_gate_parameters with
  | None => [Np.pi / 2; - Np.qasm_pi / 2; Np.qasm_pi / 2]
  | Some l => l
  end.

(** The instructions of the calibration loops and of the measurement. *)
Definition pre_instructions (p0 p1 p2 : Q) (target_qubits : list Z)
  : list instruction :=
  flat_map (fun qubit => [u3 p0 p1 p2 qubit; barrier qubit]) target_qubits.

Definition post_instructions (p0 p1 p2 : Q) (target_qubits : list Z)
  : list instruction :=
  flat_map (fun qubit => [u3 p0 p1 p2 qubit; barrier_all]) target_qubits.

Definition measure_instructions (add_measurement : bool) (target_qubits : list Z)
  : list instruction :=
  if add_measurement
  then map (fun '(q_index, qubit) => measure qubit q_index)
           (enumerate 0 target_qubits)
  else [].

(** ** Concrete sequences *)

(** Scenario B of the specification: one pulse of amplitude zero at
    [t = 0.25]. *)
Definition scenario_b : DynamicDecouplingSequence :=
  {| offsets := [0.25]; rabi_rotations := [0];
     azimuthal_angles := [0]; detuning_rotations := [0] |}.

(** Scenario A: one pi-pulse about X at [t = 0]. *)
Definition scenario_a : DynamicDecouplingSequence :=
  {| offsets := [0]; rabi_rotations := [Taylor.pi];
     azimuthal_angles := [0]; detuning_rotations := [0] |}.

(** A gate time of [2^-30] (about a nanosecond) and one offset at four times
    the gate time; both are binary fractions. *)
Definition tiny_gate_time : Q := 1 # 1073741824.
Definition tiny_gap : DynamicDecouplingSequence :=
  {| offsets := [4 # 1073741824]; rabi_rotations := [0];
     azimuthal_angles := [0]; detuning_rotations := [0] |}.

(** A pulse of amplitude zero whose phase is not zero. *)
Definition phase_only : DynamicDecouplingSequence :=
  {| offsets := [0]; rabi_rotations := [0];
     azimuthal_angles := [1]; detuning_rotations := [0] |}.

(** Two pulses one gate time apart, the first of amplitude zero: with a
    phase, and with all three parameters zero. *)
Definition phase_then_pulse : DynamicDecouplingSequence :=
  {| offsets := [0; 0.1]; rabi_rotations := [0; Taylor.pi];
     azimuthal_angles := [1; 0]; detuning_rotations := [0; 0] |}.
Definition zero_then_pulse : DynamicDecouplingSequence :=
  {| offsets := [0; 0.1]; rabi_rotations := [0; Taylor.pi];
     azimuthal_angles := [0; 0]; detuning_rotations := [0; 0] |}.

(** One offset that differs from a time covered of 0.1 by less than the
    tolerance. *)
Definition nearly_on_time : DynamicDecouplingSequence :=
  {| offsets := [0.1000000001]; rabi_rotations := [0];
     azimuthal_angles := [0]; detuning_rotations := [0] |}.

(** The pulse of the multi-axis test of the specification:
    amplitude 1, phase 0, detuning 1. *)
Definition two_axes : DynamicDecouplingSequence :=
  {| offsets := [0]; rabi_rotations := [1];
     azimuthal_angles := [0]; detuning_rotations := [1] |}.

(** Two pulses, the second one second after the first. *)
Definition two_pulses : DynamicDecouplingSequence :=
  {| offsets := [0; 1]; rabi_rotations := [Taylor.pi; 0];
     azimuthal_angles := [0; 0]; detuning_rotations := [0; Taylor.pi] |}.

(** An offset that lies before the time already covered: the first pulse
    occupies one gate time, the second comes half a gate time after it. *)
Definition overlapping : DynamicDecouplingSequence :=
  {| offsets := [0; 0.05]; rabi_rotations := [Taylor.pi; Taylor.pi];
     azimuthal_angles := [0; 0]; detuning_rotations := [0; 0] |}.

(** ** Definitions used by the further properties *)

(** The gate of a pulse for one qubit, as the chain of tests of the
    assembler selects it. *)
Definition rotation_gate `{Np.Numerics} (rotations : list Q) (count : nat)
           (qubit : Z) : instruction :=
  if (count =? 0)%nat then u3 0 0 0 qubit
  else if negb (Np.isclose (nth 0 rotations 0) 0) then
    u3 (nth 0 rotations 0) (- Np.qasm_pi / 2) (Np.qasm_pi / 2) qubit
  else if negb (Np.isclose (nth 1 rotations 0) 0) then
    u3 (nth 1 rotations 0) 0 0 qubit
  else u1 (nth 2 rotations 0) qubit.

(** The instructions of one entry of the gate list: for every target qubit
    a gate and its barrier; the gate is the identity for ['id'] and the gate
    of some pulse otherwise. *)
Definition block_of `{Np.Numerics} (target_qubits : list Z) (gate : string)
           (block : list instruction) : Prop :=
  if String.eqb gate "id" then block = id_instructions target_qubits
  else exists rotations count,
      block = flat_map (fun qubit =>
                          [rotation_gate rotations count qubit; barrier qubit])
                       target_qubits.

(** The instruction addresses a target qubit (or the whole register). *)
Definition on_targets (target_qubits : list Z) (i : instruction) : Prop :=
  match i with
  | u3 _ _ _ q | u1 _ q | iden q | barrier q | measure q _ => In q target_qubits
  | barrier_all => True
  end.

Definition is_measure (i : instruction) : bool :=
  match i with measure _ _ => true | _ => false end.

(** The part of the conversion after the validation and the register
    sizing: the builder, then the walk between the calibration gates, then
    the measurement. *)
Definition construction `{Np.Numerics} (fuel : nat)
           (s : DynamicDecouplingSequence) (target_qubits : list Z)
           (gate_time unitary_time p0 p1 p2 : Q) (add_measurement : bool)
           (registers : QuantumRegister) (circuit_name : option string)
  : outcome (QuantumRegister * option ClassicalRegister * option string)
    * list instruction :=
  match _get_circuit_gate_list fuel s gate_time unitary_time with
  | Returned circuit_gate_list =>
      match walk s target_qubits circuit_gate_list 0
                 (pre_instructions p0 p1 p2 target_qubits) with
      | (Returned _, c) =>
          (Returned (registers,
                     if add_measurement
                     then Some {| cr_size := length target_qubits |}
                     else None,
                     circuit_name),
           c ++ post_instructions p0 p1 p2 target_qubits
             ++ measure_instructions add_measurement target_qubits)
      | (Raised e, c) => (Raised e, c)
      | (OutOfFuel, c) => (OutOfFuel, c)
      end
  | Raised e => (Raised e, [])
  | OutOfFuel => (OutOfFuel, [])
  end.

(** The largest target qubit, for a list that is not empty, and the
    register of the circuit: the one supplied, or a fresh one that reaches
    the largest target qubit. *)
Definition max_target (target_qubits : list Z) : Z :=
  fold_left Z.max (tl target_qubits) (hd 0%Z target_qubits).

Definition sized_register (quantum_registers : option QuantumRegister)
           (target_qubits : list Z) : QuantumRegister :=
  match quantum_registers with
  | Some registers => registers
  | None => {| qr_size := max_target target_qubits + 1 |}
  end.

(** The parameters of a call that pass the validation and the register
    sizing. *)
Definition accepted_parameters `{Np.Numerics}
           (FIX_DURATION_UNITARY INSTANT_UNITARY : string)
           (target_qubits : option (list Z)) (gate_time : Q)
           (pre_post_gate_parameters : option (list Q)) (algorithm : string)
           (quantum_registers : option QuantumRegister) : Prop :=
  length (parameters pre_post_gate_parameters) = 3%nat /\
  0 < gate_time /\
  (algorithm = FIX_DURATION_UNITARY \/ algorithm = INSTANT_UNITARY) /\
  targets target_qubits <> [] /\
  (forall registers, quantum_registers = Some registers ->
                     (max_target (targets target_qubits) < qr_size registers)%Z).

(** A sequence with three pulses and offsets one second apart, and one
    without pulses. *)
Definition three_pulses : DynamicDecouplingSequence :=
  {| offsets := [0; 1; 2]; rabi_rotations := [Taylor.pi; 0; Taylor.pi];
     azimuthal_angles := [0; 0; 0]; detuning_rotations := [0; Taylor.pi; 0] |}.
Definition no_pulse : DynamicDecouplingSequence :=
  {| offsets := []; rabi_rotations := [];
     azimuthal_angles := []; detuning_rotations := [] |}.

(** A sequence with fewer offsets than pulses, and one whose arrays differ
    in length. *)
Definition short_offsets : DynamicDecouplingSequence :=
  {| offsets := [0]; rabi_rotations := [0; 0];
     azimuthal_angles := [0; 0]; detuning_rotations := [0; 0] |}.
Definition ragged : DynamicDecouplingSequence :=
  {| offsets := [0]; rabi_rotations := [0];
     azimuthal_angles := [0; 0]; detuning_rotations := [0] |}.

(** ** The builder on binary64 numbers

    [_get_circuit_gate_list] once more, with the numbers and the operations
    of binary64 (IEEE 754, rounding to nearest even), as Python floats and
    numpy's [float64] have them. *)
Module Binary64.

Definition float : Type := spec_float.
Definition prec : Z := 53.
Definition emax : Z := 1024.

Definition add : float -> float -> float := SFadd prec emax.
Definition sub : float -> float -> float := SFsub prec emax.
Definition mul : float -> float -> float := SFmul prec emax.
Definition div : float -> float -> float := SFdiv prec emax.
Definition abs : float -> float := SFabs.
Definition leb : float -> float -> bool := SFleb.
Definition ltb : float -> float -> bool := SFltb.
Definition eqb : float -> float -> bool := SFeqb.

(** The float of a Python integer. *)
Definition of_Z (n : Z) : float := binary_normalize prec emax n 0 false.

Definition zero : float := of_Z 0.

(** The float that a decimal literal denotes: the binary64 number nearest
    to it.  The quotient of two integers below [2^53] is rounded once. *)
Definition of_Q (q : Q) : float :=
  div (of_Z (Qnum q)) (of_Z (Zpos (Qden q))).

Definition rtol : float := of_Q 1e-05.
Definition atol : float := of_Q 1e-08.

(** [np.isclose(a, b)]: [absolute(a - b) <= (atol + rtol * absolute(b))]. *)
Definition isclose (a b : float) : bool :=
  leb (abs (sub a b)) (add atol (mul rtol (abs b))).

(** [np.sum] of a one-dimensional array. *)
Definition sum (l : list float) : float := fold_left add l zero.

Record DynamicDecouplingSequence := {
  offsets : list float;
  rabi_rotations : list float;
  azimuthal_angles : list float;
  detuning_rotations : list float
}.

Section GateList.

Variable fuel : nat.
Variable dynamic_decoupling_sequence : DynamicDecouplingSequence.
Variables gate_time unitary_time : float.

Definition vstack (a b c : list float) : outcome (list (list float)) :=
  if ((length a =? length b) && (length b =? length c))%nat
  then Returned [a; b; c]
  else Raised (ValueError "all the input array dimensions except for the concatenation axis must match exactly").

Definition column (operations : list (list float)) (operation_idx : nat)
  : list float :=
  map (fun row => nth operation_idx row zero) operations.

(** The test of the [while] loop:
    [(time_covered + (number_of_id_gates+1) * gate_time) <= offsets[operation_idx]]. *)
Definition while_test (time_covered offset : float) (number_of_id_gates : Z)
  : bool :=
  leb (add time_covered (mul (of_Z (number_of_id_gates + 1)) gate_time)) offset.

Fixpoint while_id (n : nat) (time_covered offset : float)
         (number_of_id_gates : Z) (circuit_operations : list string)
  : outcome (Z * list string) :=
  match n with
  | O => OutOfFuel
  | S n' =>
      if while_test time_covered offset number_of_id_gates
      then while_id n' time_covered offset
                    (number_of_id_gates + 1) (circuit_operations ++ ["id"])
      else Returned (number_of_id_gates, circuit_operations)
  end.

Definition snap (offset_distance : float) : float :=
  if isclose offset_distance zero then zero else offset_distance.

Definition gate_list_step (operations : list (list float))
           (st : float * list string) (operation_idx : nat)
  : outcome (float * list string) :=
  let '(time_covered, circuit_operations) := st in
  obind (getitem (offsets dynamic_decoupling_sequence) operation_idx) (fun offset =>
  let offset_distance := snap (sub offset time_covered) in
  if ltb offset_distance zero then
    Raised (ArgumentsValueError UnrealizableOffsetError
              "Offsets cannot be placed properly"
              (arg_sequence_operations64 operations))
  else if eqb offset_distance zero then
    let circuit_operations := circuit_operations ++ ["offset"] in
    if isclose (sum (column operations operation_idx)) zero
    then Returned (offset, circuit_operations)
    else Returned (add offset unitary_time, circuit_operations)
  else
    obind (while_id fuel time_covered offset 0 circuit_operations) (fun r =>
    let circuit_operations := snd r ++ ["offset"] in
    Returned (add offset unitary_time, circuit_operations))).

Fixpoint gate_list_loop (operations : list (list float)) (indices : list nat)
         (st : float * list string) : outcome (float * list string) :=
  match indices with
  | [] => Returned st
  | operation_idx :: rest =>
      obind (gate_list_step operations st operation_idx)
            (gate_list_loop operations rest)
  end.

Definition _get_circuit_gate_list : outcome (list string) :=
  let rabi_rotations := rabi_rotations dynamic_decoupling_sequence in
  let azimuthal_angles := azimuthal_angles dynamic_decoupling_sequence in
  let detuning_rotations := detuning_rotations dynamic_decoupling_sequence in
  obind (vstack rabi_rotations azimuthal_angles detuning_rotations) (fun operations =>
  let time_covered := zero in
  let circuit_operations := [] in
  obind (gate_list_loop operations (seq 0 (length rabi_rotations))
                        (time_covered, circuit_operations)) (fun st =>
  Returned (snd st))).

End GateList.


End Binary64.

(** ** Definitions for the multi-axis error and the layout *)

(** In the words of the specification (section 4.2): the number of the
    axes x, y, z of the pulse [(amplitude, phase, detuning)] whose magnitude
    is not within tolerance of zero, with x = amplitude * cos(phase),
    y = amplitude * sin(phase), z = detuning. *)
Definition active_axes `{Np.Numerics} (amplitude phase detuning : Q) : nat :=
  let x := amplitude * Np.cos phase in
  let y := amplitude * Np.sin phase in
  let z := detuning in
  ((if Np.isclose x 0 then 0 else 1)
   + (if Np.isclose y 0 then 0 else 1)
   + (if Np.isclose z 0 then 0 else 1))%nat.

(** The error of a pulse with more than one axis. *)
Definition multi_axis_error_of (instance_operation : list Q) : exn :=
  ArgumentsValueError MultiAxisRotationError
    "Open Controls support a sequence with one valid pulse at any offset. Found sequence with multiple rotation operations at an offset."
    (arg_instance_operation instance_operation).

(** In the words of the specification (section 4.2): the gate of the pulse
    [(amplitude, phase, detuning)] with at most one active axis, on a
    qubit. *)
Definition pulse_gate `{Np.Numerics} (amplitude phase detuning : Q)
           (qubit : Z) : instruction :=
  let x := amplitude * Np.cos phase in
  let y := amplitude * Np.sin phase in
  let z := detuning in
  if negb (Np.isclose x 0) then
    u3 x (- Np.qasm_pi / 2) (Np.qasm_pi / 2) qubit
  else if negb (Np.isclose y 0) then u3 y 0 0 qubit
  else if negb (Np.isclose z 0) then u1 z qubit
  else u3 0 0 0 qubit.

(** The instructions of the pulse at an index: its gate and a barrier for
    every target qubit. *)
Definition pulse_instructions `{Np.Numerics} (s : DynamicDecouplingSequence)
           (target_qubits : list Z) (i : nat) : list instruction :=
  flat_map (fun qubit =>
              [pulse_gate (nth i (rabi_rotations s) 0)
                          (nth i (azimuthal_angles s) 0)
                          (nth i (detuning_rotations s) 0) qubit;
               barrier qubit])
           target_qubits.

(** The instructions between the calibration gates, for the pulses from an
    index on, the pulse [i] being preceded by [ks[i]] delays: for every
    pulse its delays, an identity gate and a barrier per target qubit each,
    and then the pulse. *)
Fixpoint body_instructions `{Np.Numerics} (s : DynamicDecouplingSequence)
         (target_qubits : list Z) (ks : list nat) (i : nat)
  : list instruction :=
  match ks with
  | [] => []
  | k :: rest =>
      concat (repeat (id_instructions target_qubits) k)
      ++ pulse_instructions s target_qubits i
      ++ body_instructions s target_qubits rest (S i)
  end.

(** ** Properties of the numeric layer *)

Lemma isclose_zero (x : Q) :
  Np.isclose x 0 = true <-> Qabs x <= Np.atol.
Proof.
  unfold Np.isclose. rewrite Qle_bool_iff.
  assert (E1 : x - 0 == x) by ring.
  assert (E2 : Np.atol + Np.rtol * Qabs 0 == Np.atol) by reflexivity.
  rewrite E1, E2. reflexivity.
Qed.

Lemma isclose_zero_false (x : Q) :
  Np.isclose x 0 = false <-> Np.atol < Qabs x.
Proof.
  rewrite <- not_true_iff_false, isclose_zero. split.
  - apply Qnot_le_lt.
  - apply Qlt_not_le.
Qed.

Lemma Qlt_bool_iff (a b : Q) : Qlt_bool a b = true <-> a < b.
Proof.
  unfold Qlt_bool. rewrite negb_true_iff, <- not_true_iff_false, Qle_bool_iff.
  split; [apply Qnot_le_lt | apply Qlt_not_le].
Qed.

Lemma Qlt_bool_false_iff (a b : Q) : Qlt_bool a b = false <-> b <= a.
Proof.
  unfold Qlt_bool. rewrite negb_false_iff. apply Qle_bool_iff.
Qed.

Lemma atol_pos : 0 < Np.atol.
Proof. reflexivity. Qed.

(** The snapped distance is negative exactly when the distance is below
    the tolerance. *)
Lemma snap_negative (d : Q) :
  Qlt_bool (snap d) 0 = true <-> d < - Np.atol.
Proof.
  unfold snap. destruct (Np.isclose d 0) eqn:E.
  - apply isclose_zero in E. apply Qabs_Qle_condition in E.
    destruct E as [E1 E2]. split.
    + intros C. discriminate C.
    + intros C. exfalso. apply (Qlt_not_le _ _ C E1).
  - apply isclose_zero_false in E. rewrite Qlt_bool_iff.
    pose proof atol_pos as P. split.
    + intros C. rewrite Qabs_neg in E by (apply Qlt_le_weak, C). lra.
    + intros C. lra.
Qed.

Lemma snap_zero (d : Q) :
  Qeq_bool (snap d) 0 = true <-> Np.isclose d 0 = true.
Proof.
  unfold snap. destruct (Np.isclose d 0) eqn:E.
  - split; reflexivity.
  - split; [| discriminate]. intros C. apply Qeq_bool_iff in C.
    apply isclose_zero_false in E. rewrite C in E.
    exfalso. revert E. apply Qle_not_lt. discriminate.
Qed.

Lemma snap_positive (d : Q) :
  Qlt_bool (snap d) 0 = false -> Qeq_bool (snap d) 0 = false ->
  Np.atol < d /\ snap d = d.
Proof.
  intros N Z. unfold snap in *. destruct (Np.isclose d 0) eqn:E.
  - discriminate Z.
  - split; [| reflexivity]. apply isclose_zero_false in E.
    apply Qlt_bool_false_iff in N. rewrite Qabs_pos in E; assumption.
Qed.

(** ** The loop of the identity gates *)

Section WhileId.

Variable gate_time : Q.

(** The test of the loop, for a positive gate time, in terms of the
    floor of the quotient. *)
Lemma while_test (time_covered offset : Q) (k : Z) :
  0 < gate_time ->
  Qle_bool (time_covered + inject_Z (k + 1) * gate_time) offset = true <->
  (k + 1 <= Qfloor ((offset - time_covered) / gate_time))%Z.
Proof.
  intros G. rewrite Qle_bool_iff.
  set (x := (offset - time_covered) / gate_time).
  assert (X : x * gate_time == offset - time_covered).
  { unfold x. field. intros C. rewrite C in G. discriminate G. }
  assert (S : time_covered + inject_Z (k + 1) * gate_time <= offset <->
              inject_Z (k + 1) <= x).
  { pose proof (Qmult_le_r (inject_Z (k + 1)) x gate_time G) as M.
    split; intros L.
    - apply M. rewrite X. lra.
    - apply M in L. rewrite X in L. lra. }
  rewrite S. split.
  - intros L. pose proof (Qlt_floor x) as F.
    assert (I : inject_Z (k + 1) < inject_Z (Qfloor x + 1))
      by (eapply Qle_lt_trans; eassumption).
    rewrite <- Zlt_Qlt in I. lia.
  - intros L. apply Qle_trans with (inject_Z (Qfloor x)).
    + rewrite <- Zle_Qle. exact L.
    + apply Qfloor_le.
Qed.

(** With enough fuel the loop stops at the floor of the quotient. *)
Lemma while_id_run (time_covered offset : Q) :
  0 < gate_time ->
  forall (n : nat) (k : Z) (ops : list string),
    let m := Qfloor ((offset - time_covered) / gate_time) in
    (k <= m)%Z -> (Z.to_nat (m - k) < n)%nat ->
    while_id gate_time n time_covered offset k ops
    = Returned (m, ops ++ repeat "id" (Z.to_nat (m - k))).
Proof.
  intros G n. induction n as [| n IH]; intros k ops m K N.
  - lia.
  - simpl. destruct (Qle_bool _ offset) eqn:T.
    + apply (while_test _ _ _ G) in T. fold m in T.
      rewrite IH by (fold m; lia). fold m.
      replace (Z.to_nat (m - k)) with (S (Z.to_nat (m - (k + 1)))) by lia.
      simpl. rewrite <- app_assoc. reflexivity.
    + assert (E : k = m).
      { destruct (Z.eq_dec k m) as [E | E]; [exact E |].
        assert (T' : (k + 1 <= m)%Z) by lia.
        apply (while_test time_covered offset k G) in T'. congruence. }
      subst k. rewrite Z.sub_diag. simpl. rewrite app_nil_r. reflexivity.
Qed.

(** Whatever the gate time and the fuel, a loop that returns has only
    appended identity gates, as many as it counted. *)
Lemma while_id_shape (time_covered offset : Q) :
  forall (n : nat) (k k' : Z) (ops ops' : list string),
    while_id gate_time n time_covered offset k ops = Returned (k', ops') ->
    (k <= k')%Z /\ ops' = ops ++ repeat "id" (Z.to_nat (k' - k)).
Proof.
  induction n as [| n IH]; intros k k' ops ops' R; simpl in R.
  - discriminate R.
  - destruct (Qle_bool _ offset).
    + apply IH in R. destruct R as [L ->]. split; [lia |].
      replace (Z.to_nat (k' - k)) with (S (Z.to_nat (k' - (k + 1)))) by lia.
      simpl. rewrite <- app_assoc. reflexivity.
    + injection R as <- <-. split; [lia |].
      rewrite Z.sub_diag. simpl. rewrite app_nil_r. reflexivity.
Qed.

(** The loop raises nothing. *)
Lemma while_id_no_raise (time_covered offset : Q) :
  forall (n : nat) (k : Z) (ops : list string) (e : exn),
    while_id gate_time n time_covered offset k ops <> Raised e.
Proof.
  induction n as [| n IH]; intros k ops e; simpl.
  - discriminate.
  - destruct (Qle_bool _ offset); [apply IH | discriminate].
Qed.

End WhileId.

(** ** One offset of the gate-list builder *)

Section Step.

Variable s : DynamicDecouplingSequence.
Variables gate_time unitary_time : Q.
Variable operations : list (list Q).

Local Abbreviation step fuel := (gate_list_step fuel s gate_time unitary_time operations).
Local Abbreviation loop fuel := (gate_list_loop fuel s gate_time unitary_time operations).

Local Abbreviation unrealizable :=
  (ArgumentsValueError UnrealizableOffsetError
     "Offsets cannot be placed properly" (arg_sequence_operations operations)).

Lemma step_unfold (fuel : nat) (tc : Q) (l : list string) (i : nat) (o : Q) :
  nth_error (offsets s) i = Some o ->
  step fuel (tc, l) i =
  if Qlt_bool (snap (o - tc)) 0 then Raised unrealizable
  else if Qeq_bool (snap (o - tc)) 0 then
    if Np.isclose (Np.sum (column operations i)) 0
    then Returned (o, l ++ ["offset"])
    else Returned (o + unitary_time, l ++ ["offset"])
  else
    obind (while_id gate_time fuel tc o 0 l) (fun r =>
    Returned (o + unitary_time, snd r ++ ["offset"])).
Proof.
  intros E. unfold gate_list_step, getitem. rewrite E. reflexivity.
Qed.

Lemma step_no_offset (fuel : nat) (st : Q * list string) (i : nat) :
  nth_error (offsets s) i = None ->
  step fuel st i = Raised IndexError.
Proof.
  intros E. destruct st as [tc l].
  unfold gate_list_step, getitem. rewrite E. reflexivity.
Qed.

(** The step raises the offset error exactly when the snapped distance
    is negative. *)
Lemma step_raises (fuel : nat) (tc : Q) (l : list string) (i : nat)
      (d : string) (a : argument) :
  step fuel (tc, l) i = Raised (ArgumentsValueError UnrealizableOffsetError d a)
  <-> exists o, nth_error (offsets s) i = Some o /\
                Qlt_bool (snap (o - tc)) 0 = true /\
                d = "Offsets cannot be placed properly" /\
                a = arg_sequence_operations operations.
Proof.
  destruct (nth_error (offsets s) i) as [o |] eqn:E.
  - rewrite (step_unfold _ _ _ _ _ E). split.
    + intros R. exists o. destruct (Qlt_bool (snap (o - tc)) 0).
      * injection R as <- <-. auto.
      * exfalso. destruct (Qeq_bool (snap (o - tc)) 0).
        -- destruct (Np.isclose (Np.sum (column operations i)) 0);
             discriminate R.
        -- destruct (while_id gate_time fuel tc o 0 l) eqn:W; simpl in R;
             try discriminate R.
           exact (while_id_no_raise _ _ _ _ _ _ _ W).
    + intros (o' & E' & N & -> & ->). injection E' as <-. rewrite N.
      reflexivity.
  - rewrite (step_no_offset _ _ _ E). split.
    + intros R. discriminate R.
    + intros (o & E' & _). discriminate E'.
Qed.

(** A distance within the tolerance: a pulse slot and nothing else. *)
Lemma step_close (fuel : nat) (tc : Q) (l : list string) (i : nat) (o : Q) :
  nth_error (offsets s) i = Some o ->
  Np.isclose (o - tc) 0 = true ->
  step fuel (tc, l) i =
  Returned (if Np.isclose (Np.sum (column operations i)) 0
            then o else o + unitary_time,
            l ++ ["offset"]).
Proof.
  intros E C. rewrite (step_unfold _ _ _ _ _ E).
  assert (Z : Qeq_bool (snap (o - tc)) 0 = true) by (apply snap_zero, C).
  assert (N : Qlt_bool (snap (o - tc)) 0 = false).
  { apply Qeq_bool_iff in Z. apply Qlt_bool_false_iff. rewrite Z.
    apply Qle_refl. }
  rewrite N, Z.
  destruct (Np.isclose (Np.sum (column operations i)) 0); reflexivity.
Qed.

Lemma floor_nonneg (x : Q) : 0 <= x -> (0 <= Qfloor x)%Z.
Proof. intros P. apply (Qfloor_resp_le 0 x P). Qed.

Lemma quotient_pos (d : Q) : 0 < gate_time -> 0 < d -> 0 < d / gate_time.
Proof.
  intros G D. apply Qlt_shift_div_l; [exact G |]. lra.
Qed.

(** A distance above the tolerance: the identity gates that fit, then the
    pulse slot. *)
Lemma step_gap (fuel : nat) (tc : Q) (l : list string) (i : nat) (o : Q) :
  0 < gate_time ->
  nth_error (offsets s) i = Some o ->
  Np.atol < o - tc ->
  (documented_id_gates (o - tc) gate_time < fuel)%nat ->
  step fuel (tc, l) i =
  Returned (o + unitary_time,
            l ++ repeat "id" (documented_id_gates (o - tc) gate_time)
              ++ ["offset"]).
Proof.
  intros G E D F. rewrite (step_unfold _ _ _ _ _ E).
  pose proof atol_pos as P.
  assert (C : Np.isclose (o - tc) 0 = false).
  { apply isclose_zero_false. rewrite Qabs_pos; lra. }
  assert (S : snap (o - tc) = o - tc) by (unfold snap; rewrite C; reflexivity).
  rewrite S.
  assert (N : Qlt_bool (o - tc) 0 = false) by (apply Qlt_bool_false_iff; lra).
  assert (Z : Qeq_bool (o - tc) 0 = false).
  { apply not_true_iff_false. intros Z. apply Qeq_bool_iff in Z. lra. }
  rewrite N, Z. unfold documented_id_gates in *.
  assert (M : (0 <= Qfloor ((o - tc) / gate_time))%Z).
  { apply floor_nonneg, Qlt_le_weak, quotient_pos; [exact G | lra]. }
  rewrite (while_id_run gate_time tc o G fuel 0 l) by (rewrite ?Z.sub_0_r; lia).
  simpl. rewrite Z.sub_0_r, <- app_assoc. reflexivity.
Qed.

(** A step that returns has appended identity gates and one pulse slot. *)
Lemma step_shape (fuel : nat) (st st' : Q * list string) (i : nat) :
  step fuel st i = Returned st' ->
  exists k, snd st' = snd st ++ repeat "id" k ++ ["offset"].
Proof.
  destruct st as [tc l]. intros R.
  destruct (nth_error (offsets s) i) as [o |] eqn:E.
  - rewrite (step_unfold _ _ _ _ _ E) in R.
    destruct (Qlt_bool (snap (o - tc)) 0); [discriminate R |].
    destruct (Qeq_bool (snap (o - tc)) 0).
    + exists 0%nat.
      destruct (Np.isclose (Np.sum (column operations i)) 0);
        injection R as <-; reflexivity.
    + destruct (while_id gate_time fuel tc o 0 l) as [[k' l'] | e |] eqn:W;
        try discriminate R.
      apply while_id_shape in W. destruct W as [_ ->].
      injection R as <-. exists (Z.to_nat (k' - 0)). simpl.
      rewrite <- app_assoc. reflexivity.
  - rewrite (step_no_offset _ _ _ E) in R. discriminate R.
Qed.

(** With enough fuel the step does not depend on the fuel and has an
    outcome. *)
Lemma step_fuel (st : Q * list string) (i : nat) :
  0 < gate_time ->
  exists n0, forall n, (n0 <= n)%nat ->
    step n st i = step n0 st i /\ step n0 st i <> OutOfFuel.
Proof.
  intros G. destruct st as [tc l].
  destruct (nth_error (offsets s) i) as [o |] eqn:E.
  - exists (S (documented_id_gates (o - tc) gate_time)). intros n L.
    destruct (Qlt_bool (snap (o - tc)) 0) eqn:N;
      [| destruct (Qeq_bool (snap (o - tc)) 0) eqn:Z].
    + rewrite !(step_unfold _ _ _ _ _ E), N. split; [reflexivity | discriminate].
    + rewrite !(step_unfold _ _ _ _ _ E), N, Z.
      split; [reflexivity |].
      destruct (Np.isclose (Np.sum (column operations i)) 0); discriminate.
    + destruct (snap_positive _ N Z) as [D _].
      rewrite !(step_gap _ _ _ _ _ G E D) by lia.
      split; [reflexivity | discriminate].
  - exists 0%nat. intros n _. rewrite !(step_no_offset _ _ _ E).
    split; [reflexivity | discriminate].
Qed.

(** *** The loop over the offsets *)

Lemma loop_app (fuel : nat) (a b : list nat) (st : Q * list string) :
  loop fuel (a ++ b) st = obind (loop fuel a st) (loop fuel b).
Proof.
  revert st. induction a as [| i a IH]; intros st; simpl.
  - reflexivity.
  - destruct (step fuel st i); simpl; auto.
Qed.

Lemma loop_shape (fuel : nat) (indices : list nat) :
  forall st st', loop fuel indices st = Returned st' ->
  exists ks, length ks = length indices /\ snd st' = snd st ++ slots ks.
Proof.
  induction indices as [| i rest IH]; intros st st' R; simpl in R.
  - injection R as <-. exists []. simpl. rewrite app_nil_r. auto.
  - destruct (step fuel st i) as [st1 | e |] eqn:S; try discriminate R.
    simpl in R. apply step_shape in S. destruct S as [k S].
    apply IH in R. destruct R as (ks & L & R).
    exists (k :: ks). simpl. split; [congruence |].
    rewrite R, S, <- !app_assoc. reflexivity.
Qed.

Lemma loop_fuel (indices : list nat) :
  0 < gate_time ->
  forall st, exists n0, forall n, (n0 <= n)%nat ->
    loop n indices st = loop n0 indices st /\ loop n0 indices st <> OutOfFuel.
Proof.
  intros G. induction indices as [| i rest IH]; intros st.
  - exists 0%nat. intros n _. simpl. split; [reflexivity | discriminate].
  - destruct (step_fuel st i G) as [n1 S1].
    destruct (step n1 st i) as [st1 | e |] eqn:R1.
    + destruct (IH st1) as [n2 S2]. exists (Nat.max n1 n2). intros n L.
      simpl.
      destruct (S1 n) as [-> _]; [lia |].
      destruct (S1 (Nat.max n1 n2)) as [-> _]; [lia |].
      simpl.
      destruct (S2 n) as [-> X]; [lia |].
      destruct (S2 (Nat.max n1 n2)) as [-> _]; [lia |].
      split; [reflexivity | exact X].
    + exists n1. intros n L. simpl.
      destruct (S1 n L) as [-> _]. rewrite R1. simpl.
      split; [reflexivity | discriminate].
    + destruct (S1 n1 (Nat.le_refl _)) as [_ X]. contradiction.
Qed.

End Step.

(** ** The gate list of a sequence *)

Section Builder.

Variable s : DynamicDecouplingSequence.
Variables gate_time unitary_time : Q.

Local Abbreviation operations :=
  [rabi_rotations s; azimuthal_angles s; detuning_rotations s].
Local Abbreviation pulses := (length (rabi_rotations s)).

Lemma vstack_returned (a b c : list Q) (ops : list (list Q)) :
  vstack a b c = Returned ops ->
  length b = length a /\ length c = length a /\ ops = [a; b; c].
Proof.
  unfold vstack. destruct (_ && _)%bool eqn:E; [| discriminate].
  apply andb_true_iff in E. destruct E as [E1 E2].
  apply Nat.eqb_eq in E1, E2. intros R. injection R as <-.
  repeat split; congruence.
Qed.

Lemma vstack_same_length (a b c : list Q) :
  length b = length a -> length c = length a ->
  vstack a b c = Returned [a; b; c].
Proof.
  intros E1 E2. unfold vstack. rewrite E1, E2, Nat.eqb_refl. reflexivity.
Qed.

Lemma vstack_raised (a b c : list Q) (e : exn) :
  vstack a b c = Raised e -> exists d, e = ValueError d.
Proof.
  unfold vstack. destruct (_ && _)%bool; [discriminate |].
  intros R. injection R as <-. eauto.
Qed.

(** The builder is its loop, when the three arrays have one length. *)
Lemma gate_list_unfold (fuel : nat) :
  length (azimuthal_angles s) = pulses ->
  length (detuning_rotations s) = pulses ->
  _get_circuit_gate_list fuel s gate_time unitary_time =
  obind (gate_list_loop fuel s gate_time unitary_time operations
                        (seq 0 pulses) (0, []))
        (fun st => Returned (snd st)).
Proof.
  intros E1 E2. unfold _get_circuit_gate_list.
  rewrite (vstack_same_length _ _ _ E1 E2). reflexivity.
Qed.

Lemma gate_list_returned (fuel : nat) (l : list string) :
  _get_circuit_gate_list fuel s gate_time unitary_time = Returned l ->
  length (azimuthal_angles s) = pulses /\
  length (detuning_rotations s) = pulses /\
  exists ks, length ks = pulses /\ l = slots ks.
Proof.
  unfold _get_circuit_gate_list.
  destruct (vstack _ _ _) as [ops | e |] eqn:V; simpl; try discriminate.
  apply vstack_returned in V. destruct V as (E1 & E2 & ->).
  destruct (gate_list_loop _ _ _ _ _ _ _) as [st | e |] eqn:L; simpl;
    try discriminate.
  intros R. injection R as <-. apply loop_shape in L.
  destruct L as (ks & K & L). rewrite length_seq in K.
  repeat split; try assumption. exists ks. split; [exact K | exact L].
Qed.

Lemma seq_split (pre post : list nat) (i : nat) :
  forall a n, seq a n = pre ++ i :: post ->
              pre = seq a (length pre) /\ i = (a + length pre)%nat /\
              (length pre < n)%nat.
Proof.
  induction pre as [| x pre IH]; intros a n E.
  - destruct n as [| n]; simpl in E; [discriminate E |].
    injection E as <- _. simpl. repeat split; lia.
  - destruct n as [| n]; simpl in E; [discriminate E |].
    injection E as <- E. apply IH in E. destruct E as (E1 & E2 & E3).
    simpl. repeat split; [f_equal; exact E1 | lia | lia].
Qed.

Lemma seq_cut (i n : nat) :
  (i < n)%nat -> seq 0 n = seq 0 i ++ i :: seq (S i) (n - S i).
Proof.
  intros L. replace n with (i + S (n - S i))%nat at 1 by lia.
  rewrite seq_app. reflexivity.
Qed.

(** The loop raises the offset error exactly when it reaches an index
    at which the step raises it. *)
Lemma loop_raises (fuel : nat) (ops : list (list Q))
      (d : string) (a : argument) (indices : list nat) :
  forall st,
    gate_list_loop fuel s gate_time unitary_time ops indices st
    = Raised (ArgumentsValueError UnrealizableOffsetError d a) <->
    exists pre i post st',
      indices = pre ++ i :: post /\
      gate_list_loop fuel s gate_time unitary_time ops pre st = Returned st' /\
      gate_list_step fuel s gate_time unitary_time ops st' i
      = Raised (ArgumentsValueError UnrealizableOffsetError d a).
Proof.
  induction indices as [| i rest IH]; intros st.
  - simpl. split; [discriminate |].
    intros (pre & j & post & st' & E & _). destruct pre; discriminate E.
  - simpl. split.
    + destruct (gate_list_step fuel s gate_time unitary_time ops st i)
        as [st1 | e |] eqn:S; simpl; try discriminate.
      * intros R. apply IH in R.
        destruct R as (pre & j & post & st' & -> & R1 & R2).
        exists (i :: pre), j, post, st'. simpl. rewrite S. simpl. auto.
      * intros R. injection R as ->. exists [], i, rest, st. auto.
    + intros (pre & j & post & st' & E & R1 & R2).
      destruct pre as [| x pre]; simpl in E; injection E as <- ->.
      * simpl in R1. injection R1 as <-. rewrite R2. reflexivity.
      * simpl in R1.
        destruct (gate_list_step fuel s gate_time unitary_time ops st i)
          as [st1 | e |]; simpl in *; try discriminate R1.
        apply IH. exists pre, j, post, st'. auto.
Qed.

End Builder.

(** ** The gate-list builder: time covered, delays, errors, termination *)

(** C3, as the specification words it, fails: the pulse of [phase_only] has
    amplitude zero and no rotation about any axis, and it still occupies a
    unitary time, because its phase makes the sum of its three parameters
    differ from zero.  The gate list shows it: no delay fits before a
    second pulse one gate time later, while one does when the first pulse
    has all its parameters zero. *)
Lemma zero_strength_pulse_occupies_time :
  zero_strength [0; 1; 0] = true /\
  count_nonzero (@_get_rotations Taylor.numerics [0; 1; 0]) = 0%nat /\
  gate_list_step 1 phase_only 0.1 0.1 [[0]; [1]; [0]] (0, []) 0
  = Returned (0 + 0.1, ["offset"]) /\
  ~ 0 + 0.1 == 0 /\
  _get_circuit_gate_list 5 phase_then_pulse 0.1 0.1
  = Returned ["offset"; "offset"] /\
  _get_circuit_gate_list 5 zero_then_pulse 0.1 0.1
  = Returned ["offset"; "id"; "offset"].
Proof.
  repeat split; try reflexivity. intros C. discriminate C.
Qed.

(** C3, amended.  At an offset whose snapped distance from the time
    covered is zero, a pulse slot is appended, and the time covered becomes
    the offset exactly when the sum of the three parameters of the pulse
    (rabi rotation, azimuthal angle and detuning rotation) is within the
    tolerance of zero, and the offset plus the unitary time otherwise. *)
Theorem zero_distance_time_covered
        (fuel : nat) (s : DynamicDecouplingSequence)
        (gate_time unitary_time time_covered o : Q)
        (circuit_operations : list string) (i : nat) :
  nth_error (offsets s) i = Some o ->
  Qeq_bool (snap (o - time_covered)) 0 = true ->
  gate_list_step fuel s gate_time unitary_time
    [rabi_rotations s; azimuthal_angles s; detuning_rotations s]
    (time_covered, circuit_operations) i
  = Returned
      (if Np.isclose (0 + nth i (rabi_rotations s) 0
                        + nth i (azimuthal_angles s) 0
                        + nth i (detuning_rotations s) 0) 0
       then o else o + unitary_time,
       circuit_operations ++ ["offset"]).
Proof.
  intros E Z. apply snap_zero in Z.
  rewrite (step_close _ _ _ _ fuel _ _ _ _ E Z). reflexivity.
Qed.

Lemma zero_distance_time_covered_witness :
  gate_list_step 1 scenario_a 0.1 0.1
    [rabi_rotations scenario_a; azimuthal_angles scenario_a;
     detuning_rotations scenario_a] (0, []) 0
  = Returned (0 + 0.1, ["offset"]).
Proof.
  apply (zero_distance_time_covered 1 scenario_a 0.1 0.1 0 0 [] 0);
    reflexivity.
Defined.

(** In exact arithmetic as well the count of C4 fails at a small gap: the
    offset of [tiny_gap] is four gate times after time zero, the distance is
    within the tolerance of [np.isclose] and is snapped to zero, and no
    delay is inserted. *)
Lemma snapped_gap_has_no_delay :
  nth 0 (offsets tiny_gap) 0 == inject_Z 4 * tiny_gate_time /\
  _get_circuit_gate_list 10 tiny_gap tiny_gate_time 0 = Returned ["offset"] /\
  count_occ string_dec ["offset"] "id"
  <> documented_id_gates (nth 0 (offsets tiny_gap) 0 - 0) tiny_gate_time.
Proof.
  repeat split. intros C. discriminate C.
Qed.

(** The delays in exact arithmetic.  On the rationals, for a positive gate
    time and an offset that is not rejected, the number of ['id'] entries
    inserted before the pulse slot is the floor of the snapped distance
    over the gate time (zero when the distance is within the tolerance of
    zero).  Rounding is absent here; the delays on binary64 numbers are
    treated with the module [Binary64]. *)
Theorem delays_before_offset
        (s : DynamicDecouplingSequence) (gate_time unitary_time : Q)
        (operations : list (list Q))
        (time_covered o : Q) (circuit_operations : list string) (i : nat) :
  0 < gate_time ->
  nth_error (offsets s) i = Some o ->
  Qlt_bool (snap (o - time_covered)) 0 = false ->
  (exists n0, forall fuel, (n0 <= fuel)%nat ->
     exists time_covered',
       gate_list_step fuel s gate_time unitary_time operations
                      (time_covered, circuit_operations) i
       = Returned (time_covered',
                   circuit_operations
                     ++ repeat "id" (documented_id_gates
                                       (snap (o - time_covered)) gate_time)
                     ++ ["offset"]))
  /\ (forall n, _get_circuit_gate_list (3 + n) scenario_b 0.1 unitary_time
                = Returned ["id"; "id"; "offset"]).
Proof.
  intros G E N. split.
  - destruct (Qeq_bool (snap (o - time_covered)) 0) eqn:Z.
    + exists 0%nat. intros fuel _. apply snap_zero in Z.
      rewrite (step_close _ _ _ _ fuel _ _ _ _ E Z).
      unfold snap. rewrite Z. unfold documented_id_gates.
      assert (Q0 : 0 / gate_time == 0) by (unfold Qdiv; ring).
      rewrite (Qfloor_comp _ _ Q0). simpl. eauto.
    + destruct (snap_positive _ N Z) as [D ->].
      exists (S (documented_id_gates (o - time_covered) gate_time)).
      intros fuel F. rewrite (step_gap _ _ _ _ _ _ _ _ _ G E D) by lia.
      eauto.
  - intros n. reflexivity.
Qed.

Lemma delays_before_offset_witness :
  0 < 0.1 /\
  exists n0, forall fuel, (n0 <= fuel)%nat ->
    exists time_covered',
      gate_list_step fuel scenario_b 0.1 0.1 [[0]; [0]; [0]] (0, []) 0
      = Returned (time_covered', [] ++ repeat "id" 2 ++ ["offset"]).
Proof.
  split; [reflexivity |].
  apply (delays_before_offset scenario_b 0.1 0.1 [[0]; [0]; [0]] 0 0.25 [] 0);
    reflexivity.
Defined.

(** C7.  The builder raises the offset error if and only if it reaches an
    offset whose distance from the time covered is negative after snapping,
    that is, below minus the tolerance; a distance within the tolerance is
    treated as zero: the step appends the pulse slot alone, with no delay
    and no error. *)
Theorem unrealizable_offset_iff
        (fuel : nat) (s : DynamicDecouplingSequence)
        (gate_time unitary_time : Q) (d : string) (a : argument) :
  let operations :=
    [rabi_rotations s; azimuthal_angles s; detuning_rotations s] in
  (_get_circuit_gate_list fuel s gate_time unitary_time
   = Raised (ArgumentsValueError UnrealizableOffsetError d a)
   <->
   length (azimuthal_angles s) = length (rabi_rotations s) /\
   length (detuning_rotations s) = length (rabi_rotations s) /\
   exists (i : nat) (time_covered : Q) (circuit_operations : list string) (o : Q),
     (i < length (rabi_rotations s))%nat /\
     gate_list_loop fuel s gate_time unitary_time operations (seq 0 i) (0, [])
     = Returned (time_covered, circuit_operations) /\
     nth_error (offsets s) i = Some o /\
     Qlt_bool (snap (o - time_covered)) 0 = true /\
     d = "Offsets cannot be placed properly" /\
     a = arg_sequence_operations operations)
  /\ (forall x : Q, Qlt_bool (snap x) 0 = true <-> x < - Np.atol)
  /\ (forall (ops : list (list Q)) (time_covered o : Q)
             (circuit_operations : list string) (i : nat),
         nth_error (offsets s) i = Some o ->
         Qabs (o - time_covered) <= Np.atol ->
         snap (o - time_covered) = 0 /\
         exists time_covered',
           gate_list_step fuel s gate_time unitary_time ops
                          (time_covered, circuit_operations) i
           = Returned (time_covered', circuit_operations ++ ["offset"])).
Proof.
  intros operations. split; [| split].
  - split.
    + intros R. unfold _get_circuit_gate_list in R.
      destruct (vstack _ _ _) as [ops | e |] eqn:V; simpl in R;
        try discriminate R.
      * apply vstack_returned in V. destruct V as (E1 & E2 & ->).
        fold operations in R.
        destruct (gate_list_loop _ _ _ _ _ _ _) as [st | e |] eqn:L;
          simpl in R; try discriminate R.
        injection R as ->. apply loop_raises in L.
        destruct L as (pre & i & post & [tc l] & S & L & R).
        apply seq_split in S. destruct S as (S1 & S2 & S3). simpl in S2.
        apply step_raises in R. destruct R as (o & O & N & -> & ->).
        repeat split; try assumption.
        exists i, tc, l, o. subst i. rewrite <- S1. auto 10.
      * apply vstack_raised in V. destruct V as [d' ->]. discriminate R.
    + intros (E1 & E2 & i & tc & l & o & I & L & O & N & -> & ->).
      rewrite (gate_list_unfold _ _ _ _ E1 E2). fold operations.
      assert (R : gate_list_loop fuel s gate_time unitary_time operations
                    (seq 0 (length (rabi_rotations s))) (0, [])
                  = Raised (ArgumentsValueError UnrealizableOffsetError
                              "Offsets cannot be placed properly"
                              (arg_sequence_operations operations))).
      { apply loop_raises.
        exists (seq 0 i), i, (seq (S i) (length (rabi_rotations s) - S i)), (tc, l).
        split; [apply seq_cut, I | split; [exact L |]].
        apply step_raises. exists o. auto 10. }
      rewrite R. reflexivity.
  - apply snap_negative.
  - intros ops tc o l i O C. apply isclose_zero in C. split.
    + unfold snap. rewrite C. reflexivity.
    + rewrite (step_close _ _ _ _ fuel _ _ _ _ O C). eauto.
Qed.

Lemma unrealizable_offset_iff_witness :
  _get_circuit_gate_list 5 overlapping 0.1 0.1
  = Raised (ArgumentsValueError UnrealizableOffsetError
              "Offsets cannot be placed properly"
              (arg_sequence_operations
                 [rabi_rotations overlapping; azimuthal_angles overlapping;
                  detuning_rotations overlapping]))
  /\ (snap (0.1000000001 - 0.1) = 0 /\
      exists time_covered',
        gate_list_step 5 nearly_on_time 0.1 0.1 [[0]; [0]; [0]]
                       (0.1, ["offset"]) 0
        = Returned (time_covered', ["offset"] ++ ["offset"])).
Proof.
  split.
  - apply (proj1 (unrealizable_offset_iff 5 overlapping 0.1 0.1 _ _)).
    split; [reflexivity | split; [reflexivity |]].
    exists 1%nat, (0 + 0.1), ["offset"], 0.05.
    repeat split. simpl. lia.
  - apply (proj2 (proj2 (unrealizable_offset_iff
                           5 nearly_on_time 0.1 0.1 "" arg_sequence_missing))
             [[0]; [0]; [0]] 0.1 0.1000000001 ["offset"] 0%nat).
    + reflexivity.
    + unfold Qle. simpl. lia.
Defined.

(** C9.  For a positive gate time the builder terminates on every
    sequence: from some amount of fuel on it has an outcome, which no
    longer depends on the fuel.  The loop of the identity gates, entered
    with the time covered before the offset, runs its body at most
    [ceil((o - time_covered) / gate_time)] times. *)
Theorem gate_list_terminates
        (s : DynamicDecouplingSequence) (gate_time unitary_time : Q) :
  0 < gate_time ->
  (exists n0, forall n, (n0 <= n)%nat ->
     _get_circuit_gate_list n s gate_time unitary_time <> OutOfFuel /\
     _get_circuit_gate_list n s gate_time unitary_time
     = _get_circuit_gate_list n0 s gate_time unitary_time)
  /\ (forall (time_covered o : Q) (circuit_operations : list string),
         time_covered < o ->
         let bound := Z.to_nat (Qceiling ((o - time_covered) / gate_time)) in
         exists iterations : nat,
           (iterations <= bound)%nat /\
           forall n, (bound < n)%nat ->
             while_id gate_time n time_covered o 0 circuit_operations
             = Returned (Z.of_nat iterations,
                         circuit_operations ++ repeat "id" iterations)).
Proof.
  intros G. split.
  - unfold _get_circuit_gate_list.
    destruct (vstack _ _ _) as [ops | e |] eqn:V; simpl.
    + destruct (loop_fuel s gate_time unitary_time ops
                  (seq 0 (length (rabi_rotations s))) G (0, [])) as [n0 L].
      exists n0. intros n N. destruct (L n N) as [-> X].
      split; [| reflexivity].
      destruct (gate_list_loop n0 _ _ _ _ _ _); simpl;
        [discriminate | discriminate | contradiction].
    + exists 0%nat. intros n _. split; [discriminate | reflexivity].
    + exists 0%nat. intros n _. unfold vstack in V.
      destruct (_ && _)%bool; discriminate V.
  - intros tc o l D bound.
    set (x := (o - tc) / gate_time) in *.
    assert (X : 0 < x) by (apply quotient_pos; [exact G | lra]).
    assert (F : (0 <= Qfloor x)%Z) by (apply floor_nonneg, Qlt_le_weak, X).
    assert (C : (Qfloor x <= Qceiling x)%Z).
    { rewrite Zle_Qle. apply Qle_trans with x;
        [apply Qfloor_le | apply Qle_ceiling]. }
    exists (Z.to_nat (Qfloor x)). split; [unfold bound; lia |].
    intros n N.
    rewrite (while_id_run gate_time tc o G n 0 l) by (fold x; unfold bound in N; lia).
    fold x. rewrite Z.sub_0_r, Z2Nat.id by exact F. reflexivity.
Qed.

Lemma gate_list_terminates_witness :
  0 < 0.1 /\
  (exists n0, forall n, (n0 <= n)%nat ->
     _get_circuit_gate_list n two_pulses 0.1 0.1 <> OutOfFuel /\
     _get_circuit_gate_list n two_pulses 0.1 0.1
     = _get_circuit_gate_list n0 two_pulses 0.1 0.1)
  /\ (exists iterations : nat,
         (iterations <= Z.to_nat (Qceiling ((0.25 - 0) / 0.1)))%nat /\
         forall n, (Z.to_nat (Qceiling ((0.25 - 0) / 0.1)) < n)%nat ->
           while_id 0.1 n 0 0.25 0 []
           = Returned (Z.of_nat iterations, [] ++ repeat "id" iterations)).
Proof.
  split; [reflexivity |]. split.
  - apply (gate_list_terminates two_pulses 0.1 0.1). reflexivity.
  - apply (proj2 (gate_list_terminates two_pulses 0.1 0.1 eq_refl) 0 0.25 []).
    reflexivity.
Defined.

(** ** Computations that only append *)

Lemma appends_emit (i : instruction) : appends (emit i) [i].
Proof. intros c. reflexivity. Qed.

Lemma appends_ret : appends (ret tt) [].
Proof. intros c. unfold ret. rewrite app_nil_r. reflexivity. Qed.

Lemma appends_seq (m m' : Asm unit) (l l' : list instruction) :
  appends m l -> appends m' l' -> appends (m ;; m') (l ++ l').
Proof.
  intros A A' c. unfold bind. rewrite A, A', app_assoc. reflexivity.
Qed.

Lemma appends_for_each {A} (body : A -> Asm unit)
      (f : A -> list instruction) (l : list A) :
  (forall x, appends (body x) (f x)) ->
  appends (for_each l body) (flat_map f l).
Proof.
  intros B. induction l as [| x l IH]; simpl.
  - apply appends_ret.
  - apply appends_seq; [apply B | exact IH].
Qed.

Lemma appends_id_slot (target_qubits : list Z) :
  appends (id_slot target_qubits) (id_instructions target_qubits).
Proof.
  apply appends_for_each. intros q.
  apply (appends_seq _ _ [_] [_]); apply appends_emit.
Qed.

Lemma appends_calibration (p0 p1 p2 : Q) (after : instruction) (qubit : Z) :
  appends (calibration [p0; p1; p2] after qubit) [u3 p0 p1 p2 qubit; after].
Proof. intros c. unfold calibration, bind, lift. simpl. unfold emit.
       rewrite <- app_assoc. reflexivity. Qed.

Lemma appends_measure (l : list Z) (start : nat) :
  appends (for_each (enumerate start l)
                    (fun '(q_index, qubit) => emit (measure qubit q_index)))
          (map (fun '(q_index, qubit) => measure qubit q_index)
               (enumerate start l)).
Proof.
  revert start. induction l as [| q l IH]; intros start; simpl.
  - apply appends_ret.
  - apply (appends_seq _ _ [_]); [apply appends_emit | apply IH].
Qed.

(** ** The pulse slot *)

Section Slot.

Context `{Np.Numerics}.

Variable s : DynamicDecouplingSequence.
Variable target_qubits : list Z.

Local Abbreviation multi_axis op :=
  (ArgumentsValueError MultiAxisRotationError
     "Open Controls support a sequence with one valid pulse at any offset. Found sequence with multiple rotation operations at an offset."
     (arg_instance_operation op)).

(** The instructions of a pulse for one qubit: the selected gate, if any,
    then the barrier. *)
Lemma appends_emit_pulse (rotations : list Q) (count : nat) (qubit : Z) :
  appends (emit_pulse rotations count qubit)
          (snd (emit_pulse rotations count qubit [])).
Proof.
  intros c. unfold emit_pulse.
  destruct (count =? 0)%nat;
    [| destruct (negb (Np.isclose (nth 0 rotations 0) 0));
       [| destruct (negb (Np.isclose (nth 1 rotations 0) 0));
          [| destruct (negb (Np.isclose (nth 2 rotations 0) 0))]]];
    unfold bind, emit, ret; simpl; rewrite <- ?app_assoc; reflexivity.
Qed.

Lemma pulse_slot_unfold (i : nat) (op : list Q) (c : list instruction) :
  pulse_at s i = Some op ->
  pulse_slot s target_qubits i c =
  if (1 <? count_nonzero (_get_rotations op))%nat
  then (Raised (multi_axis op), c)
  else for_each target_qubits
                (emit_pulse (_get_rotations op)
                            (count_nonzero (_get_rotations op))) c.
Proof.
  unfold pulse_at, pulse_slot, bind, lift, getitem.
  destruct (nth_error (rabi_rotations s) i) as [r |]; [| discriminate].
  destruct (nth_error (azimuthal_angles s) i) as [a |]; [| discriminate].
  destruct (nth_error (detuning_rotations s) i) as [d |]; [| discriminate].
  intros P. injection P as <-.
  destruct (1 <? _)%nat; reflexivity.
Qed.

Lemma pulse_slot_no_pulse (i : nat) (c : list instruction) :
  pulse_at s i = None ->
  pulse_slot s target_qubits i c = (Raised IndexError, c).
Proof.
  unfold pulse_at, pulse_slot, bind, lift, getitem.
  destruct (nth_error (rabi_rotations s) i) as [r |]; [| reflexivity].
  destruct (nth_error (azimuthal_angles s) i) as [a |]; [| reflexivity].
  destruct (nth_error (detuning_rotations s) i) as [d |]; [| reflexivity].
  discriminate.
Qed.

(** More than one axis: the error, and nothing appended. *)
Lemma pulse_slot_multi (i : nat) (op : list Q) (c : list instruction) :
  pulse_at s i = Some op ->
  (1 < count_nonzero (_get_rotations op))%nat ->
  pulse_slot s target_qubits i c = (Raised (multi_axis op), c).
Proof.
  intros P C. rewrite (pulse_slot_unfold _ _ _ P).
  apply Nat.ltb_lt in C. rewrite C. reflexivity.
Qed.

(** At most one axis: the gates of the pulse, for every target qubit. *)
Lemma pulse_slot_single (i : nat) (op : list Q) :
  pulse_at s i = Some op ->
  (count_nonzero (_get_rotations op) <= 1)%nat ->
  appends (pulse_slot s target_qubits i)
          (flat_map (fun qubit =>
                       snd (emit_pulse (_get_rotations op)
                              (count_nonzero (_get_rotations op)) qubit []))
                    target_qubits).
Proof.
  intros P C c. rewrite (pulse_slot_unfold _ _ _ P).
  assert (L : (1 <? count_nonzero (_get_rotations op))%nat = false)
    by (apply Nat.ltb_ge, C).
  rewrite L. apply appends_for_each. intros q. apply appends_emit_pulse.
Qed.

(** The three outcomes of a pulse slot. *)
Lemma pulse_slot_cases (i : nat) (c : list instruction) :
  (pulse_at s i = None /\
   pulse_slot s target_qubits i c = (Raised IndexError, c))
  \/ (exists op, pulse_at s i = Some op /\
                 (1 < count_nonzero (_get_rotations op))%nat /\
                 pulse_slot s target_qubits i c = (Raised (multi_axis op), c))
  \/ (exists op l, pulse_at s i = Some op /\
                   (count_nonzero (_get_rotations op) <= 1)%nat /\
                   pulse_slot s target_qubits i c = (Returned tt, c ++ l)).
Proof.
  destruct (pulse_at s i) as [op |] eqn:P.
  - right. destruct (Nat.lt_ge_cases 1 (count_nonzero (_get_rotations op)))
      as [C | C].
    + left. exists op. auto using pulse_slot_multi.
    + right. exists op. eexists. repeat split; [exact C |].
      apply (pulse_slot_single _ _ P C).
  - left. auto using pulse_slot_no_pulse.
Qed.

(** The pulse at an index below the common length of the arrays. *)
Lemma pulse_at_some (i : nat) :
  length (azimuthal_angles s) = length (rabi_rotations s) ->
  length (detuning_rotations s) = length (rabi_rotations s) ->
  (i < length (rabi_rotations s))%nat ->
  exists op, pulse_at s i = Some op.
Proof.
  intros E1 E2 L. unfold pulse_at.
  destruct (nth_error (rabi_rotations s) i) eqn:R;
    [| apply nth_error_None in R; lia].
  destruct (nth_error (azimuthal_angles s) i) eqn:A;
    [| apply nth_error_None in A; lia].
  destruct (nth_error (detuning_rotations s) i) eqn:D;
    [| apply nth_error_None in D; lia].
  eauto.
Qed.

End Slot.

(** ** The walk over the gate list *)

Section Walk.

Context `{Np.Numerics}.

Variable s : DynamicDecouplingSequence.
Variable target_qubits : list Z.

Local Abbreviation multi_axis op :=
  (ArgumentsValueError MultiAxisRotationError
     "Open Controls support a sequence with one valid pulse at any offset. Found sequence with multiple rotation operations at an offset."
     (arg_instance_operation op)).

Lemma appends_id_slots (k : nat) :
  appends (for_each (repeat tt k) (fun _ => id_slot target_qubits))
          (flat_map (fun _ => id_instructions target_qubits) (repeat tt k)).
Proof.
  apply appends_for_each. intros _. apply appends_id_slot.
Qed.

(** The walk over the gate list of a sequence is the loop over its
    pulses. *)
Lemma walk_slots (ks : list nat) :
  forall offset_count c,
    walk s target_qubits (slots ks) offset_count c
    = walk_pulses s target_qubits ks offset_count c.
Proof.
  induction ks as [| k ks IH]; intros oc c.
  - reflexivity.
  - change (slots (k :: ks)) with ((repeat "id" k ++ ["offset"]) ++ slots ks).
    rewrite <- app_assoc. simpl walk_pulses. revert c.
    induction k as [| k IHk]; intros c.
    + simpl. unfold bind at 1 2 3. simpl.
      destruct (pulse_slot s target_qubits oc c) as [[[] | e |] c'];
        [apply IH | reflexivity | reflexivity].
    + simpl repeat. simpl app. simpl walk. simpl for_each.
      unfold bind at 1. rewrite appends_id_slot.
      rewrite IHk. unfold bind at 3 4. rewrite appends_id_slot.
      reflexivity.
Qed.

(** An exception of the walk is an index error or the multi-axis error
    of a pulse of the sequence; the walk only appends. *)
Lemma walk_outcome (circuit_gate_list : list string) :
  forall offset_count c r c',
    walk s target_qubits circuit_gate_list offset_count c = (r, c') ->
    (exists l, c' = c ++ l) /\
    ((exists n, r = Returned n)
     \/ r = Raised IndexError
     \/ exists i op, pulse_at s i = Some op /\
                     (1 < count_nonzero (_get_rotations op))%nat /\
                     r = Raised (multi_axis op)).
Proof.
  induction circuit_gate_list as [| gate rest IH]; intros oc c r c' W;
    simpl in W.
  - injection W as <- <-. split; [exists []; symmetry; apply app_nil_r |].
    left. eauto.
  - destruct (String.eqb gate "id").
    + unfold bind in W. rewrite appends_id_slot in W. apply IH in W.
      destruct W as [[l ->] W]. split; [| exact W].
      rewrite <- app_assoc. eauto.
    + unfold bind in W.
      destruct (pulse_slot_cases s target_qubits oc c)
        as [[P S] | [(op & P & C & S) | (op & l & P & C & S)]];
        rewrite S in W.
      * injection W as <- <-. split; [exists []; symmetry; apply app_nil_r |].
        auto.
      * injection W as <- <-. split; [exists []; symmetry; apply app_nil_r |].
        right. right. eauto.
      * apply IH in W. destruct W as [[l' ->] W]. split; [| exact W].
        rewrite <- app_assoc. eauto.
Qed.

Lemma walk_pulses_step (k : nat) (ks : list nat) (offset_count : nat)
      (c : list instruction) :
  walk_pulses s target_qubits (k :: ks) offset_count c =
  match pulse_slot s target_qubits offset_count
          (c ++ flat_map (fun _ => id_instructions target_qubits)
                         (repeat tt k)) with
  | (Returned _, c') =>
      walk_pulses s target_qubits ks (offset_count + 1) c'
  | (Raised e, c') => (Raised e, c')
  | (OutOfFuel, c') => (OutOfFuel, c')
  end.
Proof.
  simpl walk_pulses. unfold bind. rewrite appends_id_slots. reflexivity.
Qed.

(** Over the gate list of a sequence whose arrays hold the pulses that
    the list counts, the walk either visits every pulse in turn and
    returns the number of pulses, or stops at the first pulse with more
    than one axis. *)
Lemma walk_pulses_cases (ks : list nat) :
  length (azimuthal_angles s) = length (rabi_rotations s) ->
  length (detuning_rotations s) = length (rabi_rotations s) ->
  forall offset_count c,
    (offset_count + length ks <= length (rabi_rotations s))%nat ->
    (exists c',
        walk_pulses s target_qubits ks offset_count c
        = (Returned (offset_count + length ks)%nat, c') /\
        forall j, (offset_count <= j < offset_count + length ks)%nat ->
                  exists op, pulse_at s j = Some op /\
                             (count_nonzero (_get_rotations op) <= 1)%nat)
    \/ (exists j op c',
           (offset_count <= j < offset_count + length ks)%nat /\
           pulse_at s j = Some op /\
           (1 < count_nonzero (_get_rotations op))%nat /\
           walk_pulses s target_qubits ks offset_count c
           = (Raised (multi_axis op), c') /\
           forall j', (offset_count <= j' < j)%nat ->
                      exists op', pulse_at s j' = Some op' /\
                                  (count_nonzero (_get_rotations op') <= 1)%nat).
Proof.
  intros E1 E2. induction ks as [| k ks IH]; intros oc c L; simpl in L.
  - left. exists c. simpl. rewrite Nat.add_0_r. split; [reflexivity |].
    intros j J. lia.
  - rewrite walk_pulses_step. simpl length.
    set (c1 := c ++ _).
    destruct (pulse_at_some s oc E1 E2) as [op P]; [lia |].
    destruct (Nat.lt_ge_cases 1 (count_nonzero (_get_rotations op)))
      as [C | C].
    + right. exists oc, op, c1.
      rewrite (pulse_slot_multi s target_qubits oc op c1 P C).
      repeat split; try assumption; lia.
    + rewrite (pulse_slot_single s target_qubits oc op P C).
      set (c2 := c1 ++ _).
      destruct (IH (oc + 1)%nat c2) as
          [(c' & W & A) | (j & op' & c' & J & P' & C' & W & A)]; [lia | |].
      * left. exists c'. rewrite W. split; [f_equal; f_equal; lia |].
        intros j J. destruct (Nat.eq_dec j oc) as [-> | N].
        -- eauto.
        -- apply A. lia.
      * right. exists j, op', c'. rewrite W.
        repeat split; try assumption; try lia.
        intros j' J'. destruct (Nat.eq_dec j' oc) as [-> | N].
        -- eauto.
        -- apply A. lia.
Qed.

End Walk.

(** ** The exceptions of the builder *)

Lemma builder_raises (fuel : nat) (s : DynamicDecouplingSequence)
      (gate_time unitary_time : Q) (e : exn) :
  _get_circuit_gate_list fuel s gate_time unitary_time = Raised e ->
  (exists d, e = ValueError d) \/ e = IndexError
  \/ exists d a, e = ArgumentsValueError UnrealizableOffsetError d a.
Proof.
  unfold _get_circuit_gate_list.
  destruct (vstack _ _ _) as [ops | e' |] eqn:V; simpl; try discriminate.
  - assert (L : forall indices st,
               gate_list_loop fuel s gate_time unitary_time ops indices st
               = Raised e ->
               e = IndexError
               \/ exists d a, e = ArgumentsValueError UnrealizableOffsetError d a).
    { induction indices as [| i rest IH]; intros st R; simpl in R.
      - discriminate R.
      - destruct (gate_list_step fuel s gate_time unitary_time ops st i)
          as [st1 | e1 |] eqn:S; simpl in R; try discriminate R.
        + apply (IH _ R).
        + injection R as ->. destruct st as [tc l].
          destruct (nth_error (offsets s) i) as [o |] eqn:O.
          * rewrite (step_unfold _ _ _ _ _ _ _ _ _ O) in S.
            destruct (Qlt_bool _ 0).
            -- injection S as <-. right. eauto.
            -- destruct (Qeq_bool _ 0).
               ++ destruct (Np.isclose (Np.sum (column ops i)) 0);
                    discriminate S.
               ++ destruct (while_id gate_time fuel tc o 0 l) eqn:W;
                    simpl in S; try discriminate S.
                  injection S as <-.
                  exfalso. exact (while_id_no_raise _ _ _ _ _ _ _ W).
          * rewrite (step_no_offset _ _ _ _ _ _ _ O) in S.
            injection S as <-. auto. }
    destruct (gate_list_loop _ _ _ _ _ _ _) as [st | e1 |] eqn:R; simpl;
      try discriminate.
    intros X. injection X as ->. right. apply (L _ _ R).
  - intros X. injection X as ->. left. apply (vstack_raised _ _ _ _ V).
Qed.

(** ** The phases of the conversion *)

Section Conversion.

Context `{Np.Numerics}.
Variables FIX_DURATION_UNITARY INSTANT_UNITARY : string.

Local Abbreviation conversion :=
  (convert_dds_to_quantum_circuit FIX_DURATION_UNITARY INSTANT_UNITARY).

(** A call either stops in the validation, the register sizing or the
    builder, with nothing emitted, or it has a gate list and walks it
    after the pre-calibration gates. *)
Lemma convert_phases
      (fuel : nat) (obj : py_object) (target_qubits : option (list Z))
      (gate_time : Q) (pre_post_gate_parameters : option (list Q))
      (add_measurement : bool) (algorithm : string)
      (quantum_registers : option QuantumRegister)
      (circuit_name : option string) :
  let r := call (conversion fuel obj target_qubits gate_time
                   pre_post_gate_parameters add_measurement algorithm
                   quantum_registers circuit_name) in
  (snd r = [] /\
   (fst r = OutOfFuel
    \/ exists e, fst r = Raised e /\
                 forall d a, e <> ArgumentsValueError MultiAxisRotationError d a))
  \/ (exists s p0 p1 p2 registers circuit_gate_list,
         obj = PySequence s /\
         parameters pre_post_gate_parameters = [p0; p1; p2] /\
         0 < gate_time /\
         _get_circuit_gate_list fuel s gate_time
           (if String.eqb algorithm FIX_DURATION_UNITARY
            then gate_time else 0)
         = Returned circuit_gate_list /\
         r = match walk s (targets target_qubits) circuit_gate_list 0
                     (pre_instructions p0 p1 p2 (targets target_qubits)) with
             | (Returned _, c) =>
                 (Returned (registers,
                            if add_measurement
                            then Some {| cr_size := length (targets target_qubits) |}
                            else None,
                            circuit_name),
                  c ++ post_instructions p0 p1 p2 (targets target_qubits)
                    ++ measure_instructions add_measurement
                         (targets target_qubits))
             | (Raised e, c) => (Raised e, c)
             | (OutOfFuel, c) => (OutOfFuel, c)
             end).
Proof.
  intros r.
  assert (R : r = call (conversion fuel obj target_qubits gate_time
                          pre_post_gate_parameters add_measurement algorithm
                          quantum_registers circuit_name)) by reflexivity.
  clearbody r. unfold call, convert_dds_to_quantum_circuit in R.
  destruct obj as [| | s].
  1, 2: subst r; left; split; [reflexivity |]; right; eexists;
    split; [reflexivity | discriminate].
  fold (targets target_qubits) in R.
  fold (parameters pre_post_gate_parameters) in R.
  set (tq := targets target_qubits) in *.
  remember (parameters pre_post_gate_parameters) as pp eqn:PP.
  destruct (negb (length pp =? 3)%nat) eqn:P.
  { subst r; left; split; [reflexivity |]; right; eexists;
      split; [reflexivity | discriminate]. }
  destruct (Qle_bool gate_time 0) eqn:G.
  { subst r; left; split; [reflexivity |]; right; eexists;
      split; [reflexivity | discriminate]. }
  destruct (Z.b2z (Np.any tq) <? 0)%Z.
  { subst r; left; split; [reflexivity |]; right; eexists;
      split; [reflexivity | discriminate]. }
  destruct (negb (existsb _ _)).
  { subst r; left; split; [reflexivity |]; right; eexists;
      split; [reflexivity | discriminate]. }
  apply negb_false_iff, Nat.eqb_eq in P.
  destruct pp as [| p0 [| p1 [| p2 [| p3 rest]]]]; try discriminate P.
  assert (G' : 0 < gate_time).
  { apply Qnot_le_lt. intros C. apply Qle_bool_iff in C. congruence. }
  set (sizing := match quantum_registers with
                 | Some registers => _
                 | None => _
                 end) in R.
  assert (S : (exists registers, sizing [] = (Returned registers, []))
              \/ (exists e, sizing [] = (Raised e, []) /\
                            forall d a, e <> ArgumentsValueError
                                               MultiAxisRotationError d a)).
  { unfold sizing. destruct quantum_registers as [registers |];
      unfold bind, lift, py_max; destruct tq as [| q tq'].
    - right. eexists. split; [reflexivity | discriminate].
    - destruct (qr_size registers <? _)%Z.
      + right. eexists. split; [reflexivity | discriminate].
      + left. eexists. reflexivity.
    - right. eexists. split; [reflexivity | discriminate].
    - left. eexists. reflexivity. }
  clearbody sizing. unfold bind at 1 in R.
  destruct S as [[registers S] | (e & S & D)]; rewrite S in R.
  2: { subst r. left. split; [reflexivity |]. right. exists e. auto. }
  unfold bind at 1 in R. unfold lift at 1 in R.
  destruct (_get_circuit_gate_list _ _ _ _) as [gl | e |] eqn:B.
  - right. exists s, p0, p1, p2, registers, gl.
    repeat split; try assumption.
    unfold bind at 1 in R.
    rewrite (appends_for_each _
               (fun qubit => [u3 p0 p1 p2 qubit; barrier qubit]) tq) in R
      by (intros q; apply appends_calibration).
    simpl app in R. fold (pre_instructions p0 p1 p2 tq) in R.
    unfold bind at 1 in R.
    destruct (walk s tq gl 0 (pre_instructions p0 p1 p2 tq))
      as [[n | e |] c]; try exact R.
    unfold bind at 1 in R.
    rewrite (appends_for_each _
               (fun qubit => [u3 p0 p1 p2 qubit; barrier_all]) tq) in R
      by (intros q; apply appends_calibration).
    fold (post_instructions p0 p1 p2 tq) in R.
    unfold bind at 1 in R. unfold measure_instructions.
    destruct add_measurement.
    + rewrite appends_measure in R. unfold ret in R.
      rewrite <- app_assoc in R. exact R.
    + unfold ret in R. rewrite app_nil_r. exact R.
  - subst r. left. split; [reflexivity |]. right. exists e.
    split; [reflexivity |].
    intros d a ->. apply builder_raises in B.
    destruct B as [[d' B] | [B | (d' & a' & B)]]; discriminate B.
  - subst r. left. split; [reflexivity |]. left. reflexivity.
Qed.

End Conversion.

(** ** The conversion: when the errors are raised *)

(** C1, as stated, fails: the multi-axis error is raised while the gate
    list is walked, after the pre-calibration gate and its barrier have
    been appended to the circuit. *)
Lemma multi_axis_raised_after_emission :
  convert 10 (PySequence two_axes) None 0.1 FIX_DURATION_UNITARY
  = (Raised (ArgumentsValueError MultiAxisRotationError
               "Open Controls support a sequence with one valid pulse at any offset. Found sequence with multiple rotation operations at an offset."
               (arg_instance_operation [1; 0; 1])),
     [u3 (Taylor.pi / 2) (- Taylor.pi / 2) (Taylor.pi / 2) 0; barrier 0]).
Proof. reflexivity. Qed.

(** C1, amended.  When the conversion raises [InvalidSequenceError],
    [InvalidParameterError] or [UnrealizableOffsetError], no instruction has
    been appended to the circuit: the validation and the gate-list builder
    run before any emission.  [MultiAxisRotationError] is raised during the
    walk, after the pre-calibration gates of all target qubits.  In both
    cases the caller gets the exception and no circuit. *)
Theorem early_errors_emit_nothing
        `{Np.Numerics} (FIX_DURATION_UNITARY INSTANT_UNITARY : string)
        (fuel : nat) (obj : py_object) (target_qubits : option (list Z))
        (gate_time : Q) (pre_post_gate_parameters : option (list Q))
        (add_measurement : bool) (algorithm : string)
        (quantum_registers : option QuantumRegister)
        (circuit_name : option string)
        (k : error_kind) (d : string) (a : argument) (c : list instruction) :
  let r := call (convert_dds_to_quantum_circuit
                   FIX_DURATION_UNITARY INSTANT_UNITARY
                   fuel obj target_qubits gate_time pre_post_gate_parameters
                   add_measurement algorithm quantum_registers circuit_name) in
  r = (Raised (ArgumentsValueError k d a), c) ->
  (early_kind k = true -> c = [])
  /\ (k = MultiAxisRotationError ->
      exists p0 p1 p2 l,
        parameters pre_post_gate_parameters = [p0; p1; p2] /\
        c = pre_instructions p0 p1 p2 (targets target_qubits) ++ l)
  /\ result_of r = Raised (ArgumentsValueError k d a).
Proof.
  intros r R.
  pose proof (convert_phases FIX_DURATION_UNITARY INSTANT_UNITARY
                fuel obj target_qubits gate_time pre_post_gate_parameters
                add_measurement algorithm quantum_registers circuit_name) as P.
  cbv zeta in P. fold r in P. rewrite R in *. simpl fst in P. simpl snd in P.
  split; [| split]; [| | reflexivity].
  - intros K. destruct P as [[E _] | P]; [exact E |].
    destruct P as (s & p0 & p1 & p2 & regs & gl & _ & _ & _ & _ & W).
    destruct (walk s (targets target_qubits) gl 0 _) as [[n | e |] c'] eqn:X;
      try discriminate W.
    injection W as <- <-. apply walk_outcome in X.
    destruct X as [_ [[n X] | [X | (i & op & _ & _ & X)]]];
      try discriminate X.
    injection X as -> _ _. discriminate K.
  - intros ->. destruct P as [[_ [P | (e & P & N)]] | P].
    + discriminate P.
    + injection P as <-. exfalso. apply (N d a). reflexivity.
    + destruct P as (s & p0 & p1 & p2 & regs & gl & _ & PP & _ & _ & W).
      destruct (walk s (targets target_qubits) gl 0 _) as [[n | e |] c'] eqn:X;
        try discriminate W.
      injection W as <- <-. apply walk_outcome in X.
      destruct X as [[l ->] _]. exists p0, p1, p2, l. auto.
Qed.

Lemma early_errors_emit_nothing_witness :
  (early_kind UnrealizableOffsetError = true -> @nil instruction = [])
  /\ (UnrealizableOffsetError = MultiAxisRotationError ->
      exists p0 p1 p2 l,
        @parameters Taylor.numerics None = [p0; p1; p2] /\
        [] = pre_instructions p0 p1 p2 (targets None) ++ l)
  /\ result_of (convert 5 (PySequence overlapping) None 0.1 FIX_DURATION_UNITARY)
     = Raised (ArgumentsValueError UnrealizableOffsetError
                 "Offsets cannot be placed properly"
                 (arg_sequence_operations
                    [[Taylor.pi; Taylor.pi]; [0; 0]; [0; 0]])).
Proof.
  apply (@early_errors_emit_nothing Taylor.numerics
           FIX_DURATION_UNITARY INSTANT_UNITARY
           5 (PySequence overlapping) None 0.1 None true FIX_DURATION_UNITARY
           None None).
  reflexivity.
Defined.

(** C2: the code does not do what the claim says.  The test
    [np.any(target_qubits) < 0] compares a boolean with zero and is false
    for every list, so a negative index is not rejected: with the target
    qubits [[-1, 2]] the conversion sizes the register and emits gates
    addressed to the index [-1]. *)
Theorem negative_target_qubit_not_rejected :
  (forall target_qubits : list Z,
      (Z.b2z (Np.any target_qubits) <? 0)%Z = false)
  /\ fst (convert 10 (PySequence scenario_a) (Some [(-1)%Z; 2%Z]) 0.1
                  FIX_DURATION_UNITARY)
     = Returned ({| qr_size := 3 |}, Some {| cr_size := 2 |}, None)
  /\ In (u3 (Taylor.pi / 2) (- Taylor.pi / 2) (Taylor.pi / 2) (-1))
        (snd (convert 10 (PySequence scenario_a) (Some [(-1)%Z; 2%Z]) 0.1
                      FIX_DURATION_UNITARY)).
Proof.
  split; [| split].
  - intros l. destruct (Np.any l); reflexivity.
  - reflexivity.
  - left. reflexivity.
Qed.

(** C10.  With an empty list of target qubits and the other parameters
    valid, the non-negativity test does not reject the call and none of the
    documented errors is raised: the call fails with the built-in
    [ValueError] of [max(target_qubits)] when the quantum register is
    sized, before anything is emitted. *)
Theorem empty_target_qubits
        `{Np.Numerics} (FIX_DURATION_UNITARY INSTANT_UNITARY : string)
        (fuel : nat) (s : DynamicDecouplingSequence)
        (gate_time : Q) (pre_post_gate_parameters : option (list Q))
        (add_measurement : bool) (algorithm : string)
        (quantum_registers : option QuantumRegister)
        (circuit_name : option string) :
  length (parameters pre_post_gate_parameters) = 3%nat ->
  0 < gate_time ->
  algorithm = FIX_DURATION_UNITARY \/ algorithm = INSTANT_UNITARY ->
  (Z.b2z (Np.any []) <? 0)%Z = false
  /\ call (convert_dds_to_quantum_circuit
             FIX_DURATION_UNITARY INSTANT_UNITARY
             fuel (PySequence s) (Some []) gate_time pre_post_gate_parameters
             add_measurement algorithm quantum_registers circuit_name)
     = (Raised (ValueError "max() arg is an empty sequence"), []).
Proof.
  intros P G A. split; [reflexivity |].
  unfold call, convert_dds_to_quantum_circuit.
  fold (parameters pre_post_gate_parameters). rewrite P. simpl negb.
  assert (G' : Qle_bool gate_time 0 = false).
  { apply not_true_iff_false. intros C. apply Qle_bool_iff in C.
    apply (Qlt_not_le _ _ G C). }
  rewrite G'. simpl Np.any. simpl Z.ltb.
  assert (A' : existsb (String.eqb algorithm)
                       [FIX_DURATION_UNITARY; INSTANT_UNITARY] = true).
  { simpl. destruct A as [-> | ->]; rewrite String.eqb_refl;
      [reflexivity | apply orb_true_r]. }
  rewrite A'. simpl negb. cbv iota.
  destruct quantum_registers; reflexivity.
Qed.

Lemma empty_target_qubits_witness :
  (Z.b2z (Np.any []) <? 0)%Z = false
  /\ convert 10 (PySequence scenario_a) (Some []) 0.1 INSTANT_UNITARY
     = (Raised (ValueError "max() arg is an empty sequence"), []).
Proof.
  apply (@empty_target_qubits Taylor.numerics
           FIX_DURATION_UNITARY INSTANT_UNITARY
           10 scenario_a 0.1 None true INSTANT_UNITARY None None).
  - reflexivity.
  - reflexivity.
  - right. reflexivity.
Defined.

(** ** One pulse slot per pulse *)

Lemma count_occ_ids (k : nat) : count_occ string_dec (repeat "id" k) "offset" = 0%nat.
Proof. induction k as [| k IH]; [reflexivity | exact IH]. Qed.

Lemma count_occ_slots (ks : list nat) :
  count_occ string_dec (slots ks) "offset" = length ks.
Proof.
  induction ks as [| k ks IH]; [reflexivity |].
  change (slots (k :: ks)) with ((repeat "id" k ++ ["offset"]) ++ slots ks).
  rewrite !count_occ_app, count_occ_ids, IH. reflexivity.
Qed.

(** C8.  When the builder returns, its list has exactly one ['offset']
    entry per pulse, in the order of the pulses: it is the list
    [slots ks] of the pulses with their delays.  The walk of the assembler
    over it is the loop over the pulses: it reads the rotation arrays at
    the indices 0, 1, ... in turn, never out of range, and when it
    completes the pulse pointer is the number of pulses; it can only be cut
    short by the multi-axis error. *)
Theorem one_slot_per_pulse
        `{Np.Numerics} (fuel : nat) (s : DynamicDecouplingSequence)
        (gate_time unitary_time : Q) (circuit_gate_list : list string) :
  _get_circuit_gate_list fuel s gate_time unitary_time
  = Returned circuit_gate_list ->
  let n := length (rabi_rotations s) in
  count_occ string_dec circuit_gate_list "offset" = n
  /\ (exists ks,
         length ks = n /\ circuit_gate_list = slots ks /\
         forall target_qubits c,
           walk s target_qubits circuit_gate_list 0 c
           = walk_pulses s target_qubits ks 0 c)
  /\ (forall target_qubits c r c',
         walk s target_qubits circuit_gate_list 0 c = (r, c') ->
         r <> Raised IndexError /\
         (r = Returned n \/
          exists d op, r = Raised (ArgumentsValueError MultiAxisRotationError
                                     d (arg_instance_operation op)))).
Proof.
  intros B n. apply gate_list_returned in B.
  destruct B as (E1 & E2 & ks & K & ->). fold n in K.
  split; [| split].
  - rewrite count_occ_slots. exact K.
  - exists ks. repeat split; try assumption.
    intros tq c. apply walk_slots.
  - intros tq c r c' W. rewrite walk_slots in W.
    destruct (walk_pulses_cases s tq ks E1 E2 0 c) as
        [(c1 & W1 & _) | (j & op & c1 & _ & _ & _ & W1 & _)];
      [fold n; lia | |]; rewrite W1 in W; injection W as <- <-.
    + split; [discriminate |]. left. simpl. rewrite K. reflexivity.
    + split; [discriminate |]. right. eauto.
Qed.

Lemma one_slot_per_pulse_witness :
  count_occ string_dec ["offset"; "id"; "id"; "id"; "id"; "id"; "id"; "id";
                        "id"; "id"; "offset"] "offset" = 2%nat
  /\ (exists ks,
         length ks = 2%nat /\
         ["offset"; "id"; "id"; "id"; "id"; "id"; "id"; "id"; "id"; "id";
          "offset"] = slots ks /\
         forall target_qubits c,
           @walk Taylor.numerics two_pulses target_qubits
                 ["offset"; "id"; "id"; "id"; "id"; "id"; "id"; "id"; "id";
                  "id"; "offset"] 0 c
           = @walk_pulses Taylor.numerics two_pulses target_qubits ks 0 c)
  /\ (forall target_qubits c r c',
         @walk Taylor.numerics two_pulses target_qubits
               ["offset"; "id"; "id"; "id"; "id"; "id"; "id"; "id"; "id";
                "id"; "offset"] 0 c = (r, c') ->
         r <> Raised IndexError /\
         (r = Returned 2%nat \/
          exists d op, r = Raised (ArgumentsValueError MultiAxisRotationError
                                     d (arg_instance_operation op)))).
Proof.
  apply (@one_slot_per_pulse Taylor.numerics 20 two_pulses 0.1 0.1).
  reflexivity.
Defined.

(** ** The decomposition of a pulse *)

Section Decomposition.

Context `{Np.Numerics}.

Lemma count_nonzero_triple (x y z : Q) :
  count_nonzero [x; y; z]
  = ((if Np.isclose x 0 then 0 else 1)
     + (if Np.isclose y 0 then 0 else 1)
     + (if Np.isclose z 0 then 0 else 1))%nat.
Proof.
  unfold count_nonzero. simpl.
  destruct (Np.isclose x 0), (Np.isclose y 0), (Np.isclose z 0); reflexivity.
Qed.

Lemma appends_pulses (rotations : list Q) (count : nat)
      (gate : Z -> instruction) (target_qubits : list Z) :
  (forall qubit c, emit_pulse rotations count qubit c
                   = (Returned tt, c ++ [gate qubit; barrier qubit])) ->
  appends (for_each target_qubits (emit_pulse rotations count))
          (flat_map (fun qubit => [gate qubit; barrier qubit]) target_qubits).
Proof.
  intros E. apply appends_for_each. intros q c. apply E.
Qed.

End Decomposition.

(** C6.  The rotations of a pulse [(amplitude, phase, detuning)] are
    [(amplitude * cos phase, amplitude * sin phase, detuning)].  At its
    pulse slot the assembler emits, for every target qubit and followed by
    a barrier: [u3(x, -pi/2, pi/2)] when x alone is not close to zero,
    [u3(y, 0, 0)] when y alone is, [u1(z)] when z alone is, and
    [u3(0, 0, 0)] when none is. *)
Theorem pulse_decomposition
        `{Np.Numerics} (s : DynamicDecouplingSequence) (target_qubits : list Z)
        (i : nat) (amplitude phase detuning : Q) (c : list instruction) :
  let x := amplitude * Np.cos phase in
  let y := amplitude * Np.sin phase in
  let z := detuning in
  let emitted (gate : Z -> instruction) :=
    (Returned tt,
     c ++ flat_map (fun qubit => [gate qubit; barrier qubit]) target_qubits) in
  _get_rotations [amplitude; phase; detuning] = [x; y; z]
  /\ (pulse_at s i = Some [amplitude; phase; detuning] ->
      (Np.isclose x 0 = false -> Np.isclose y 0 = true ->
       Np.isclose z 0 = true ->
       pulse_slot s target_qubits i c
       = emitted (u3 x (- Np.qasm_pi / 2) (Np.qasm_pi / 2)))
      /\ (Np.isclose x 0 = true -> Np.isclose y 0 = false ->
          Np.isclose z 0 = true ->
          pulse_slot s target_qubits i c = emitted (u3 y 0 0))
      /\ (Np.isclose x 0 = true -> Np.isclose y 0 = true ->
          Np.isclose z 0 = false ->
          pulse_slot s target_qubits i c = emitted (u1 z))
      /\ (Np.isclose x 0 = true -> Np.isclose y 0 = true ->
          Np.isclose z 0 = true ->
          pulse_slot s target_qubits i c = emitted (u3 0 0 0))).
Proof.
  intros x y z emitted. split; [reflexivity |]. intros P.
  assert (R : _get_rotations [amplitude; phase; detuning] = [x; y; z])
    by reflexivity.
  repeat split; intros X Y Z; rewrite (pulse_slot_unfold _ _ _ _ _ P), R,
    count_nonzero_triple, X, Y, Z; simpl Nat.ltb; cbv iota;
    apply appends_pulses; intros q c'; unfold emit_pulse; simpl;
    rewrite ?X, ?Y, ?Z; simpl; unfold bind, emit;
    rewrite <- app_assoc; reflexivity.
Qed.

Lemma pulse_decomposition_witness :
  @pulse_slot Taylor.numerics scenario_a [0%Z] 0 []
  = (Returned tt,
     [] ++ flat_map (fun qubit =>
                       [u3 (Taylor.pi * Taylor.cos 0)
                           (- Taylor.pi / 2) (Taylor.pi / 2) qubit;
                        barrier qubit]) [0%Z])
  /\ @pulse_slot Taylor.numerics two_pulses [0%Z; 1%Z] 1 []
     = (Returned tt,
        [] ++ flat_map (fun qubit => [u1 Taylor.pi qubit; barrier qubit])
                       [0%Z; 1%Z])
  /\ @pulse_slot Taylor.numerics scenario_b [0%Z] 0 []
     = (Returned tt,
        [] ++ flat_map (fun qubit => [u3 0 0 0 qubit; barrier qubit]) [0%Z]).
Proof.
  split; [| split].
  - apply (@pulse_decomposition Taylor.numerics scenario_a [0%Z] 0
                                Taylor.pi 0 0 []); reflexivity.
  - apply (@pulse_decomposition Taylor.numerics two_pulses [0%Z; 1%Z] 1
                                0 0 Taylor.pi []); reflexivity.
  - apply (@pulse_decomposition Taylor.numerics scenario_b [0%Z] 0
                                0 0 0 []); reflexivity.
Defined.

(** * Further properties of the builder *)

Section BuilderTrace.

Variable s : DynamicDecouplingSequence.
Variables gate_time unitary_time : Q.
Variable operations : list (list Q).

Local Abbreviation step fuel := (gate_list_step fuel s gate_time unitary_time operations).
Local Abbreviation loop fuel := (gate_list_loop fuel s gate_time unitary_time operations).

(** A step that returns had an offset not below the time covered by more
    than the tolerance, and leaves the time covered at the offset, plus the
    unitary time unless the sum of the pulse is close to zero. *)
Lemma step_returned (fuel : nat) (tc tc' : Q) (l l' : list string) (i : nat) :
  step fuel (tc, l) i = Returned (tc', l') ->
  exists o, nth_error (offsets s) i = Some o /\
            - Np.atol <= o - tc /\
            (tc' = o + unitary_time
             \/ (tc' = o /\ Np.isclose (Np.sum (column operations i)) 0 = true)).
Proof.
  intros R. destruct (nth_error (offsets s) i) as [o |] eqn:O.
  - exists o. split; [reflexivity |].
    rewrite (step_unfold _ _ _ _ _ _ _ _ _ O) in R.
    destruct (Qlt_bool (snap (o - tc)) 0) eqn:N; [discriminate R |].
    split.
    + apply Qnot_lt_le. intros C. apply snap_negative in C. congruence.
    + destruct (Qeq_bool (snap (o - tc)) 0).
      * destruct (Np.isclose (Np.sum (column operations i)) 0);
          injection R as <- _; auto.
      * destruct (while_id gate_time fuel tc o 0 l); simpl in R;
          try discriminate R.
        injection R as <- _. auto.
  - rewrite (step_no_offset _ _ _ _ _ _ _ O) in R. discriminate R.
Qed.

Lemma loop_split (fuel : nat) (a b : list nat) (st st' : Q * list string) :
  loop fuel (a ++ b) st = Returned st' ->
  exists st1, loop fuel a st = Returned st1 /\ loop fuel b st1 = Returned st'.
Proof.
  rewrite loop_app. destruct (loop fuel a st) as [st1 | e |]; simpl;
    try discriminate.
  intros R. eauto.
Qed.

Lemma loop_cons_returned (fuel : nat) (i : nat) (rest : list nat)
      (st st' : Q * list string) :
  loop fuel (i :: rest) st = Returned st' ->
  exists st1, step fuel st i = Returned st1.
Proof.
  cbn [gate_list_loop]. destruct (step fuel st i) as [st1 | e |];
    cbn [obind]; try discriminate.
  eauto.
Qed.

(** The time covered after the pulse [i]. *)
Lemma state_after (fuel : nat) (i : nat) (tc : Q) (l : list string) :
  loop fuel (seq 0 (S i)) (0, []) = Returned (tc, l) ->
  exists o, nth_error (offsets s) i = Some o /\
            (tc = o + unitary_time
             \/ (tc = o /\ Np.isclose (Np.sum (column operations i)) 0 = true)).
Proof.
  rewrite seq_S. simpl. intros R. apply loop_split in R.
  destruct R as ([tc1 l1] & _ & R). cbn [gate_list_loop] in R.
  destruct (step fuel (tc1, l1) i) as [[tc2 l2] | e |] eqn:S;
    cbn [obind] in R; try discriminate R.
  injection R as -> ->. apply step_returned in S.
  destruct S as (o & O & _ & T). eauto.
Qed.

(** A loop that raises, raises the index error or the offset error. *)
Lemma loop_raised (fuel : nat) (e : exn) (indices : list nat) :
  forall st, loop fuel indices st = Raised e ->
             e = IndexError
             \/ exists d a, e = ArgumentsValueError UnrealizableOffsetError d a.
Proof.
  induction indices as [| i rest IH]; intros st R; cbn [gate_list_loop] in R.
  - discriminate R.
  - destruct (step fuel st i) as [st1 | e1 |] eqn:S; cbn [obind] in R;
      try discriminate R.
    + apply (IH _ R).
    + injection R as ->. destruct st as [tc l].
      destruct (nth_error (offsets s) i) as [o |] eqn:O.
      * rewrite (step_unfold _ _ _ _ _ _ _ _ _ O) in S.
        destruct (Qlt_bool _ 0).
        -- injection S as <-. right. eauto.
        -- destruct (Qeq_bool _ 0).
           ++ destruct (Np.isclose (Np.sum (column operations i)) 0);
                discriminate S.
           ++ destruct (while_id gate_time fuel tc o 0 l) eqn:W;
                simpl in S; try discriminate S.
              injection S as <-.
              exfalso. exact (while_id_no_raise _ _ _ _ _ _ _ W).
      * rewrite (step_no_offset _ _ _ _ _ _ _ O) in S.
        injection S as <-. auto.
Qed.

(** Offsets that keep their distance are accepted: when every offset is
    not below the time covered by more than the tolerance, the loop returns
    with enough fuel. *)
Lemma loop_accepts :
  0 < gate_time -> 0 <= unitary_time ->
  (forall i o o', nth_error (offsets s) i = Some o ->
                  nth_error (offsets s) (S i) = Some o' ->
                  o + unitary_time - Np.atol <= o') ->
  forall k a tc l,
    (a + k <= length (offsets s))%nat ->
    (forall o, nth_error (offsets s) a = Some o -> - Np.atol <= o - tc) ->
    exists n0, forall fuel, (n0 <= fuel)%nat ->
      exists st', loop fuel (seq a k) (tc, l) = Returned st'.
Proof.
  intros G U D. induction k as [| k IH]; intros a tc l L I.
  - exists 0%nat. intros fuel _. simpl. eauto.
  - destruct (nth_error (offsets s) a) as [o |] eqn:O;
      [| apply nth_error_None in O; lia].
    specialize (I o eq_refl).
    assert (N : Qlt_bool (snap (o - tc)) 0 = false).
    { apply not_true_iff_false. intros C. apply snap_negative in C.
      apply (Qlt_not_le _ _ C I). }
    assert (S : exists n1 tc' l',
               tc' <= o + unitary_time /\
               forall fuel, (n1 <= fuel)%nat ->
                            step fuel (tc, l) a = Returned (tc', l')).
    { destruct (Qeq_bool (snap (o - tc)) 0) eqn:Z.
      - apply snap_zero in Z. exists 0%nat. do 2 eexists. split.
        2: { intros fuel _. apply (step_close _ _ _ _ fuel _ _ _ _ O Z). }
        simpl. destruct (Np.isclose (Np.sum (column operations a)) 0); lra.
      - destruct (snap_positive _ N Z) as [P _].
        exists (S (documented_id_gates (o - tc) gate_time)).
        do 2 eexists. split.
        2: { intros fuel F.
             apply (step_gap _ _ _ _ _ _ _ _ _ G O P). lia. }
        lra. }
    destruct S as (n1 & tc1 & l1 & T1 & S1).
    destruct (IH (Datatypes.S a) tc1 l1) as [n2 R]; [lia | |].
    { intros o' O'. specialize (D a o o' O O'). lra. }
    exists (Nat.max n1 n2). intros fuel F. cbn [seq gate_list_loop].
    rewrite S1 by lia. cbn [obind]. apply R. lia.
Qed.

End BuilderTrace.

Lemma builder_loop (fuel : nat) (s : DynamicDecouplingSequence)
      (gate_time unitary_time : Q) (gl : list string) :
  _get_circuit_gate_list fuel s gate_time unitary_time = Returned gl ->
  exists st,
    gate_list_loop fuel s gate_time unitary_time
      [rabi_rotations s; azimuthal_angles s; detuning_rotations s]
      (seq 0 (length (rabi_rotations s))) (0, []) = Returned st.
Proof.
  unfold _get_circuit_gate_list.
  destruct (vstack _ _ _) as [ops | e |] eqn:V; cbn [obind]; try discriminate.
  apply vstack_returned in V. destruct V as (_ & _ & ->).
  destruct (gate_list_loop _ _ _ _ _ _ _) as [st | e |]; cbn [obind];
    try discriminate.
  eauto.
Qed.

(** X1.  A sequence that the builder accepts has its offsets in order, up
    to the tolerance: the first is not below [-atol], each one is not
    below the previous one by more than [atol] (for a unitary time that is
    not negative), and after a pulse whose parameters do not sum to zero the
    next offset is at least the unitary time later, up to [atol]. *)
Theorem accepted_offsets_spaced
        (fuel : nat) (s : DynamicDecouplingSequence)
        (gate_time unitary_time : Q) (gl : list string) :
  _get_circuit_gate_list fuel s gate_time unitary_time = Returned gl ->
  let operations :=
    [rabi_rotations s; azimuthal_angles s; detuning_rotations s] in
  (forall o, (0 < length (rabi_rotations s))%nat ->
             nth_error (offsets s) 0 = Some o -> - Np.atol <= o)
  /\ (forall i o o',
         (S i < length (rabi_rotations s))%nat ->
         nth_error (offsets s) i = Some o ->
         nth_error (offsets s) (S i) = Some o' ->
         (0 <= unitary_time -> o - Np.atol <= o')
         /\ (Np.isclose (Np.sum (column operations i)) 0 = false ->
             o + unitary_time - Np.atol <= o')).
Proof.
  intros B operations. apply builder_loop in B. destruct B as [st L].
  fold operations in L. split.
  - intros o N O. destruct (length (rabi_rotations s)) as [| n]; [lia |].
    cbn [seq] in L. apply loop_cons_returned in L. destruct L as [[tc l] S].
    apply step_returned in S. destruct S as (o1 & O1 & D & _).
    rewrite O in O1. injection O1 as <-. lra.
  - intros i o o' N O O'. rewrite (seq_cut (S i) _ N) in L.
    apply loop_split in L. destruct L as ([tc l] & L1 & L2).
    apply state_after in L1. destruct L1 as (o1 & O1 & T).
    rewrite O in O1. injection O1 as <-.
    apply loop_cons_returned in L2. destruct L2 as [[tc2 l2] S].
    apply step_returned in S. destruct S as (o2 & O2 & D & _).
    rewrite O' in O2. injection O2 as <-. split.
    + intros U. destruct T as [-> | [-> _]]; lra.
    + intros C. destruct T as [-> | [_ C']]; [lra | congruence].
Qed.

Lemma accepted_offsets_spaced_witness :
  0 + 0.1 - Np.atol <= 1.
Proof.
  apply (proj2 (accepted_offsets_spaced 20 three_pulses 0.1 0.1 _ eq_refl)
               0%nat 0 1); try reflexivity.
  simpl. lia.
Defined.

(** X2.  Offsets that keep their distance are accepted.  For a positive
    gate time and a unitary time that is not negative, a sequence with
    arrays of one length, an offset for every pulse, a first offset not
    below [-atol] and consecutive offsets at least the unitary time apart
    (up to [atol]) makes the builder return a gate list, given enough fuel:
    it raises no error. *)
Theorem spaced_offsets_accepted
        (s : DynamicDecouplingSequence) (gate_time unitary_time : Q) :
  0 < gate_time -> 0 <= unitary_time ->
  length (azimuthal_angles s) = length (rabi_rotations s) ->
  length (detuning_rotations s) = length (rabi_rotations s) ->
  (length (rabi_rotations s) <= length (offsets s))%nat ->
  (forall o, nth_error (offsets s) 0 = Some o -> - Np.atol <= o) ->
  (forall i o o', nth_error (offsets s) i = Some o ->
                  nth_error (offsets s) (S i) = Some o' ->
                  o + unitary_time - Np.atol <= o') ->
  exists n0, forall fuel, (n0 <= fuel)%nat ->
    exists gl, _get_circuit_gate_list fuel s gate_time unitary_time
               = Returned gl.
Proof.
  intros G U E1 E2 L F D.
  destruct (loop_accepts s gate_time unitary_time
              [rabi_rotations s; azimuthal_angles s; detuning_rotations s]
              G U D (length (rabi_rotations s)) 0%nat 0 [])
    as [n0 R]; [lia | |].
  { intros o O. specialize (F o O). lra. }
  exists n0. intros fuel N. destruct (R fuel N) as [st X].
  rewrite (gate_list_unfold _ _ _ _ E1 E2), X. cbn [obind]. eauto.
Qed.

Lemma spaced_offsets_accepted_witness :
  exists n0, forall fuel, (n0 <= fuel)%nat ->
    exists gl, _get_circuit_gate_list fuel three_pulses 0.1 0.1 = Returned gl.
Proof.
  apply (spaced_offsets_accepted three_pulses 0.1 0.1).
  - reflexivity.
  - apply Qle_bool_imp_le. reflexivity.
  - reflexivity.
  - reflexivity.
  - simpl. lia.
  - intros o O. injection O as <-. apply Qle_bool_imp_le. reflexivity.
  - intros [| [| [| i]]] o o' O O'; simpl in O, O';
      try discriminate O'; injection O as <-; injection O' as <-;
      apply Qle_bool_imp_le; reflexivity.
Defined.

Lemma slots_alphabet (ks : list nat) :
  Forall (fun g => g = "id" \/ g = "offset") (slots ks).
Proof.
  induction ks as [| k ks IH]; [constructor |].
  change (slots (k :: ks)) with ((repeat "id" k ++ ["offset"]) ++ slots ks).
  apply Forall_app. split; [| exact IH].
  apply Forall_app. split.
  - apply Forall_forall. intros g I. apply repeat_spec in I. auto.
  - constructor; [auto | constructor].
Qed.

Lemma count_occ_repeat_id (k : nat) :
  count_occ string_dec (repeat "id" k) "id" = k.
Proof. induction k as [| k IH]; [reflexivity | simpl; rewrite IH; reflexivity]. Qed.

Lemma slots_length (ks : list nat) :
  length (slots ks) = (count_occ string_dec (slots ks) "id" + length ks)%nat.
Proof.
  induction ks as [| k ks IH]; [reflexivity |].
  change (slots (k :: ks)) with ((repeat "id" k ++ ["offset"]) ++ slots ks).
  rewrite !length_app, !count_occ_app, IH, repeat_length, count_occ_repeat_id.
  simpl. lia.
Qed.

Lemma slots_last (ks : list nat) :
  ks <> [] -> last (slots ks) "id" = "offset".
Proof.
  intros N.
  assert (E : exists l, slots ks = l ++ ["offset"]).
  { induction ks as [| k ks IH]; [congruence |].
    change (slots (k :: ks)) with ((repeat "id" k ++ ["offset"]) ++ slots ks).
    destruct ks as [| k' ks].
    - exists (repeat "id" k). simpl slots. apply app_nil_r.
    - destruct IH as [l E]; [discriminate |]. rewrite E.
      exists ((repeat "id" k ++ ["offset"]) ++ l). apply app_assoc. }
  destruct E as [l ->]. apply last_last.
Qed.

(** X3.  The gate list that the builder returns holds only ['id'] and
    ['offset'] entries, as many as there are delays and pulses; it is empty
    for a sequence without pulses and otherwise ends with the slot of the
    last pulse: no delay follows the last pulse. *)
Theorem gate_list_alphabet
        (fuel : nat) (s : DynamicDecouplingSequence)
        (gate_time unitary_time : Q) (gl : list string) :
  _get_circuit_gate_list fuel s gate_time unitary_time = Returned gl ->
  Forall (fun g => g = "id" \/ g = "offset") gl
  /\ length gl
     = (count_occ string_dec gl "id" + length (rabi_rotations s))%nat
  /\ (length (rabi_rotations s) = 0%nat -> gl = [])
  /\ ((0 < length (rabi_rotations s))%nat -> last gl "id" = "offset").
Proof.
  intros B. apply gate_list_returned in B.
  destruct B as (_ & _ & ks & K & ->). rewrite <- K.
  split; [apply slots_alphabet |]. split; [apply slots_length |]. split.
  - intros Z. destruct ks; [reflexivity | discriminate Z].
  - intros P. apply slots_last. intros ->. simpl in P. lia.
Qed.

Lemma gate_list_alphabet_witness :
  Forall (fun g => g = "id" \/ g = "offset") ["id"; "id"; "offset"]
  /\ length ["id"; "id"; "offset"]
     = (count_occ string_dec ["id"; "id"; "offset"] "id"
        + length (rabi_rotations scenario_b))%nat
  /\ (length (rabi_rotations scenario_b) = 0%nat -> ["id"; "id"; "offset"] = [])
  /\ ((0 < length (rabi_rotations scenario_b))%nat ->
      last ["id"; "id"; "offset"] "id" = "offset").
Proof.
  apply (gate_list_alphabet 5 scenario_b 0.1 0.1). reflexivity.
Defined.

Lemma loop_index_error (fuel : nat) (s : DynamicDecouplingSequence)
      (gate_time unitary_time : Q) (operations : list (list Q))
      (indices : list nat) :
  forall st,
    gate_list_loop fuel s gate_time unitary_time operations indices st
    = Raised IndexError ->
    exists i, In i indices /\ nth_error (offsets s) i = None.
Proof.
  induction indices as [| i rest IH]; intros st R; cbn [gate_list_loop] in R.
  - discriminate R.
  - destruct (gate_list_step fuel s gate_time unitary_time operations st i)
      as [st1 | e1 |] eqn:S; cbn [obind] in R; try discriminate R.
    + destruct (IH _ R) as (j & J & O). exists j. split; [right; exact J | exact O].
    + injection R as ->. exists i. split; [left; reflexivity |].
      destruct st as [tc l].
      destruct (nth_error (offsets s) i) as [o |] eqn:O; [| reflexivity].
      exfalso. rewrite (step_unfold _ _ _ _ _ _ _ _ _ O) in S.
      destruct (Qlt_bool _ 0); [discriminate S |].
      destruct (Qeq_bool _ 0).
      * destruct (Np.isclose (Np.sum (column operations i)) 0); discriminate S.
      * destruct (while_id gate_time fuel tc o 0 l) eqn:W; simpl in S;
          try discriminate S.
        exact (while_id_no_raise _ _ _ _ _ _ _ W).
Qed.

(** X4.  Malformed sequences.  The builder raises [ValueError] exactly when
    the three rotation arrays differ in length; it raises [IndexError] only
    when there are fewer offsets than pulses, and it never returns a gate
    list for such a sequence. *)
Theorem malformed_sequence
        (fuel : nat) (s : DynamicDecouplingSequence)
        (gate_time unitary_time : Q) :
  let r := _get_circuit_gate_list fuel s gate_time unitary_time in
  let n := length (rabi_rotations s) in
  ((exists d, r = Raised (ValueError d))
   <-> ~ (length (azimuthal_angles s) = n /\ length (detuning_rotations s) = n))
  /\ (r = Raised IndexError -> (length (offsets s) < n)%nat)
  /\ (forall gl, r = Returned gl -> (n <= length (offsets s))%nat).
Proof.
  intros r n. split; [| split].
  - split.
    + intros [d R] [E1 E2]. unfold r in R.
      rewrite (gate_list_unfold _ _ _ _ E1 E2) in R.
      destruct (gate_list_loop _ _ _ _ _ _ _) as [st | e |] eqn:L;
        cbn [obind] in R; try discriminate R.
      injection R as ->. apply loop_raised in L.
      destruct L as [L | (d' & a & L)]; discriminate L.
    + intros N. unfold r, _get_circuit_gate_list.
      destruct (vstack _ _ _) as [ops | e |] eqn:V; cbn [obind].
      * exfalso. apply N. apply vstack_returned in V. tauto.
      * apply vstack_raised in V. destruct V as [d ->]. eauto.
      * unfold vstack in V. destruct (_ && _)%bool; discriminate V.
  - intros R. unfold r, _get_circuit_gate_list in R.
    destruct (vstack _ _ _) as [ops | e |] eqn:V; cbn [obind] in R;
      try discriminate R.
    + destruct (gate_list_loop _ _ _ _ _ _ _) as [st | e |] eqn:L;
        cbn [obind] in R; try discriminate R.
      injection R as ->. apply loop_index_error in L.
      destruct L as (i & I & O). apply in_seq in I.
      apply nth_error_None in O. unfold n. lia.
    + injection R as ->. apply vstack_raised in V. destruct V as [d V].
      discriminate V.
  - intros gl R. apply builder_loop in R. destruct R as [st L].
    destruct (Nat.le_gt_cases n (length (offsets s))) as [X | X]; [exact X |].
    exfalso. fold n in L.
    rewrite (seq_cut (length (offsets s)) n X) in L. apply loop_split in L.
    destruct L as ([tc l] & _ & L). apply loop_cons_returned in L.
    destruct L as [[tc' l'] S]. apply step_returned in S.
    destruct S as (o & O & _).
    assert (Y : nth_error (offsets s) (length (offsets s)) = None)
      by (apply nth_error_None; lia).
    congruence.
Qed.

Lemma malformed_sequence_witness :
  (exists d, _get_circuit_gate_list 5 ragged 0.1 0.1 = Raised (ValueError d))
  /\ (length (offsets short_offsets) < length (rabi_rotations short_offsets))%nat.
Proof.
  split.
  - apply (proj1 (malformed_sequence 5 ragged 0.1 0.1)).
    intros [C _]. discriminate C.
  - apply (proj1 (proj2 (malformed_sequence 5 short_offsets 0.1 0.1))).
    reflexivity.
Defined.

(** * Further properties of the conversion *)

Section Unfolding.

Context `{Np.Numerics}.
Variables FIX_DURATION_UNITARY INSTANT_UNITARY : string.

Local Abbreviation conversion :=
  (convert_dds_to_quantum_circuit FIX_DURATION_UNITARY INSTANT_UNITARY).

Local Abbreviation invalid d a :=
  (Raised (ArgumentsValueError InvalidParameterError d a), @nil instruction).

(** The conversion of a sequence, test by test. *)
Lemma convert_unfold
      (fuel : nat) (s : DynamicDecouplingSequence)
      (target_qubits : option (list Z))
      (gate_time : Q) (pre_post_gate_parameters : option (list Q))
      (add_measurement : bool) (algorithm : string)
      (quantum_registers : option QuantumRegister)
      (circuit_name : option string) :
  let tq := targets target_qubits in
  let pp := parameters pre_post_gate_parameters in
  call (conversion fuel (PySequence s) target_qubits gate_time
          pre_post_gate_parameters add_measurement algorithm
          quantum_registers circuit_name)
  = if negb (length pp =? 3)%nat then
      invalid "Pre-Post gate parameters must be a list of 3 floating point numbers."
              (arg_pre_post_gate_params pp)
    else if Qle_bool gate_time 0 then
      invalid "Time delay of identity gate must be greater than zero."
              (arg_identity_gate_time gate_time)
    else if negb (existsb (String.eqb algorithm)
                          [FIX_DURATION_UNITARY; INSTANT_UNITARY]) then
      invalid "Algorithm must be one of {} or {}" (arg_algorithm algorithm)
    else
      match tq with
      | [] => (Raised (ValueError "max() arg is an empty sequence"), [])
      | _ :: _ =>
          if match quantum_registers with
             | Some registers => (qr_size registers <? max_target tq + 1)%Z
             | None => false
             end
          then invalid "Target qubit is not present in quantum_registers"
                       (arg_registers tq
                          (qr_size (sized_register quantum_registers tq))
                          (max_target tq))
          else construction fuel s tq gate_time
                 (if String.eqb algorithm FIX_DURATION_UNITARY
                  then gate_time else 0)
                 (nth 0 pp 0) (nth 1 pp 0) (nth 2 pp 0)
                 add_measurement (sized_register quantum_registers tq)
                 circuit_name
      end.
Proof.
  intros tq pp. unfold call, convert_dds_to_quantum_circuit.
  fold (targets target_qubits). fold (parameters pre_post_gate_parameters).
  fold tq. fold pp.
  destruct (negb (length pp =? 3)%nat) eqn:P; [reflexivity |].
  destruct (Qle_bool gate_time 0); [reflexivity |].
  assert (A : (Z.b2z (Np.any tq) <? 0)%Z = false)
    by (destruct (Np.any tq); reflexivity).
  rewrite A.
  destruct (negb (existsb _ _)); [reflexivity |].
  apply negb_false_iff, Nat.eqb_eq in P.
  destruct pp as [| p0 [| p1 [| p2 [| p3 rest]]]]; try discriminate P.
  assert (K : forall t registers,
             bind (lift (_get_circuit_gate_list fuel s gate_time
                           (if String.eqb algorithm FIX_DURATION_UNITARY
                            then gate_time else 0)))
               (fun circuit_gate_list =>
                  for_each t (fun qubit =>
                    calibration [p0; p1; p2] (barrier qubit) qubit) ;;
                  _ <- walk s t circuit_gate_list 0 ;;
                  for_each t (fun qubit =>
                    calibration [p0; p1; p2] barrier_all qubit) ;;
                  (if add_measurement then
                     for_each (enumerate 0 t) (fun '(q_index, qubit) =>
                       emit (measure qubit q_index))
                   else ret tt) ;;
                  ret (registers,
                       if add_measurement
                       then Some {| cr_size := length t |} else None,
                       circuit_name)) []
             = construction fuel s t gate_time
                 (if String.eqb algorithm FIX_DURATION_UNITARY
                  then gate_time else 0)
                 p0 p1 p2 add_measurement registers circuit_name).
  { intros t registers. unfold construction, bind at 1, lift at 1.
    destruct (_get_circuit_gate_list _ _ _ _) as [gl | e |]; try reflexivity.
    unfold bind at 1.
    rewrite (appends_for_each _
               (fun qubit => [u3 p0 p1 p2 qubit; barrier qubit]) t)
      by (intros x; apply appends_calibration).
    simpl app. fold (pre_instructions p0 p1 p2 t).
    unfold bind at 1.
    destruct (walk s t gl 0 (pre_instructions p0 p1 p2 t))
      as [[n | e |] c]; try reflexivity.
    unfold bind at 1.
    rewrite (appends_for_each _
               (fun qubit => [u3 p0 p1 p2 qubit; barrier_all]) t)
      by (intros x; apply appends_calibration).
    fold (post_instructions p0 p1 p2 t).
    unfold bind at 1. unfold measure_instructions.
    destruct add_measurement.
    - rewrite appends_measure. unfold ret. rewrite <- app_assoc. reflexivity.
    - unfold ret. rewrite app_nil_r. reflexivity. }
  clearbody tq. destruct tq as [| q tq'].
  { destruct quantum_registers; reflexivity. }
  destruct quantum_registers as [registers |]; unfold bind at 1.
  - unfold bind at 1, lift at 1, py_max.
    change (fold_left Z.max tq' q) with (max_target (q :: tq')).
    destruct (qr_size registers <? max_target (q :: tq') + 1)%Z.
    + reflexivity.
    + unfold ret at 1. apply K.
  - unfold bind at 1, lift at 1, py_max, ret at 1.
    change (fold_left Z.max tq' q) with (max_target (q :: tq')). apply K.
Qed.

End Unfolding.

Lemma builder_fuel (s : DynamicDecouplingSequence) (gate_time unitary_time : Q) :
  0 < gate_time ->
  exists n0, forall n, (n0 <= n)%nat ->
    _get_circuit_gate_list n s gate_time unitary_time <> OutOfFuel.
Proof.
  intros G. unfold _get_circuit_gate_list.
  destruct (vstack _ _ _) as [ops | e |] eqn:V; cbn [obind].
  - destruct (loop_fuel s gate_time unitary_time ops
                (seq 0 (length (rabi_rotations s))) G (0, [])) as [n0 L].
    exists n0. intros n N. destruct (L n N) as [-> X].
    destruct (gate_list_loop n0 _ _ _ _ _ _); cbn [obind];
      [discriminate | discriminate | contradiction].
  - exists 0%nat. intros n _. discriminate.
  - exfalso. unfold vstack in V. destruct (_ && _)%bool; discriminate V.
Qed.

Section Construction.

Context `{Np.Numerics}.

Variable s : DynamicDecouplingSequence.
Variable target_qubits : list Z.
Variables gate_time unitary_time p0 p1 p2 : Q.
Variable add_measurement : bool.
Variable registers : QuantumRegister.
Variable circuit_name : option string.

Local Abbreviation build fuel :=
  (construction fuel s target_qubits gate_time unitary_time p0 p1 p2
                add_measurement registers circuit_name).

(** The exceptions of the construction. *)
Lemma construction_raises (fuel : nat) (e : exn) (c : list instruction) :
  build fuel = (Raised e, c) ->
  (exists d, e = ValueError d) \/ e = IndexError
  \/ (exists d a, e = ArgumentsValueError UnrealizableOffsetError d a)
  \/ (exists d a, e = ArgumentsValueError MultiAxisRotationError d a).
Proof.
  unfold construction.
  destruct (_get_circuit_gate_list _ _ _ _) as [gl | e' |] eqn:B.
  - destruct (walk s target_qubits gl 0 _) as [[n | e' |] c'] eqn:W;
      try discriminate.
    intros R. injection R as -> ->. apply walk_outcome in W.
    destruct W as [_ [[n W] | [W | (i & op & _ & _ & W)]]].
    + discriminate W.
    + injection W as ->. auto.
    + injection W as ->. right. right. right. eauto.
  - intros R. injection R as -> _. apply builder_raises in B.
    destruct B as [B | [B | B]]; auto.
  - discriminate.
Qed.

(** With a positive gate time the construction runs out of fuel only for
    lack of fuel. *)
Lemma construction_fuel :
  0 < gate_time ->
  exists n0, forall fuel, (n0 <= fuel)%nat -> fst (build fuel) <> OutOfFuel.
Proof.
  intros G. destruct (builder_fuel s gate_time unitary_time G) as [n0 B].
  exists n0. intros fuel F. specialize (B fuel F). unfold construction.
  destruct (_get_circuit_gate_list _ _ _ _) as [gl | e' |];
    [| discriminate | contradiction].
  destruct (walk s target_qubits gl 0 _) as [[n | e' |] c'] eqn:W;
    try discriminate.
  apply walk_outcome in W.
  destruct W as [_ [[n W] | [W | (i & op & _ & _ & W)]]]; discriminate W.
Qed.

(** A construction that returns: the gate list, the walk, the layout. *)
Lemma construction_returned (fuel : nat)
      (h : QuantumRegister * option ClassicalRegister * option string)
      (data : list instruction) :
  build fuel = (Returned h, data) ->
  exists gl n c,
    _get_circuit_gate_list fuel s gate_time unitary_time = Returned gl /\
    walk s target_qubits gl 0 (pre_instructions p0 p1 p2 target_qubits)
    = (Returned n, c) /\
    h = (registers,
         if add_measurement
         then Some {| cr_size := length target_qubits |} else None,
         circuit_name) /\
    data = c ++ post_instructions p0 p1 p2 target_qubits
             ++ measure_instructions add_measurement target_qubits.
Proof.
  unfold construction.
  destruct (_get_circuit_gate_list _ _ _ _) as [gl | e' |]; try discriminate.
  destruct (walk s target_qubits gl 0 _) as [[n | e' |] c'] eqn:W;
    try discriminate.
  intros R. injection R as <- <-. exists gl, n, c'.
  repeat split; [exact W].
Qed.

End Construction.

Section Validation.

Context `{Np.Numerics}.
Variables FIX_DURATION_UNITARY INSTANT_UNITARY : string.

Variable fuel : nat.
Variable obj : py_object.
Variable target_qubits : option (list Z).
Variable gate_time : Q.
Variable pre_post_gate_parameters : option (list Q).
Variable add_measurement : bool.
Variable algorithm : string.
Variable quantum_registers : option QuantumRegister.
Variable circuit_name : option string.

Local Abbreviation the_call :=
  (call (convert_dds_to_quantum_circuit FIX_DURATION_UNITARY INSTANT_UNITARY
           fuel obj target_qubits gate_time pre_post_gate_parameters
           add_measurement algorithm quantum_registers circuit_name)).

Lemma algorithm_unknown :
  existsb (String.eqb algorithm) [FIX_DURATION_UNITARY; INSTANT_UNITARY] = false
  <-> algorithm <> FIX_DURATION_UNITARY /\ algorithm <> INSTANT_UNITARY.
Proof.
  simpl. rewrite orb_false_r, orb_false_iff, !String.eqb_neq. reflexivity.
Qed.

(** The documented errors of a call on a sequence. *)
Lemma sequence_call_raises (s : DynamicDecouplingSequence)
      (k : error_kind) (d : string) (a : argument) (c : list instruction) :
  obj = PySequence s ->
  the_call = (Raised (ArgumentsValueError k d a), c) ->
  (k = InvalidParameterError /\ c = [] /\
   (length (parameters pre_post_gate_parameters) <> 3%nat
    \/ gate_time <= 0
    \/ (algorithm <> FIX_DURATION_UNITARY /\ algorithm <> INSTANT_UNITARY)
    \/ (targets target_qubits <> [] /\
        exists registers,
          quantum_registers = Some registers /\
          (qr_size registers <= max_target (targets target_qubits))%Z)))
  \/ k = UnrealizableOffsetError \/ k = MultiAxisRotationError.
Proof.
  intros -> R. rewrite convert_unfold in R. cbv zeta in R.
  destruct (negb (length _ =? 3)%nat) eqn:P.
  { injection R as <- _ _ <-. left. repeat split. left.
    apply negb_true_iff, Nat.eqb_neq in P. exact P. }
  destruct (Qle_bool gate_time 0) eqn:G.
  { injection R as <- _ _ <-. left. repeat split. right. left.
    apply Qle_bool_iff, G. }
  destruct (negb (existsb _ _)) eqn:A.
  { injection R as <- _ _ <-. left. repeat split. right. right. left.
    apply algorithm_unknown, negb_true_iff, A. }
  destruct (targets target_qubits) as [| q tq'] eqn:T; [discriminate R |].
  destruct quantum_registers as [registers |].
  - destruct (qr_size registers <? _)%Z eqn:S.
    + injection R as <- _ _ <-. left. repeat split. right. right. right.
      split; [discriminate |]. exists registers. split; [reflexivity |].
      apply Z.ltb_lt in S. lia.
    + apply construction_raises in R.
      destruct R as [[d' R] | [R | [(d' & a' & R) | (d' & a' & R)]]];
        try discriminate R; injection R as -> _ _; auto.
  - apply construction_raises in R.
    destruct R as [[d' R] | [R | [(d' & a' & R) | (d' & a' & R)]]];
      try discriminate R; injection R as -> _ _; auto.
Qed.

End Validation.

(** X5.  [InvalidSequenceError] is raised exactly when the first argument is
    [None] or is not a sequence, whatever the other parameters are, and then
    nothing has been emitted. *)
Theorem invalid_sequence_iff
        `{Np.Numerics} (FIX_DURATION_UNITARY INSTANT_UNITARY : string)
        (fuel : nat) (obj : py_object) (target_qubits : option (list Z))
        (gate_time : Q) (pre_post_gate_parameters : option (list Q))
        (add_measurement : bool) (algorithm : string)
        (quantum_registers : option QuantumRegister)
        (circuit_name : option string) :
  let r := call (convert_dds_to_quantum_circuit
                   FIX_DURATION_UNITARY INSTANT_UNITARY
                   fuel obj target_qubits gate_time pre_post_gate_parameters
                   add_measurement algorithm quantum_registers circuit_name) in
  ((exists d a, r = (Raised (ArgumentsValueError InvalidSequenceError d a), []))
   <-> obj = PyNone \/ obj = PyOther)
  /\ (forall d a c,
         r = (Raised (ArgumentsValueError InvalidSequenceError d a), c) ->
         c = [] /\ (obj = PyNone \/ obj = PyOther)).
Proof.
  intros r.
  assert (X : forall d a c,
             r = (Raised (ArgumentsValueError InvalidSequenceError d a), c) ->
             c = [] /\ (obj = PyNone \/ obj = PyOther)).
  { intros d a c R. destruct obj as [| | s].
    - injection R as _ _ <-. auto.
    - injection R as _ _ <-. auto.
    - exfalso.
      destruct (sequence_call_raises _ _ _ _ _ _ _ _ _ _ _ s _ _ _ _ eq_refl R)
        as [[K _] | [K | K]]; discriminate K. }
  split; [| exact X]. split.
  - intros (d & a & R). apply (X _ _ _ R).
  - intros [-> | ->]; do 2 eexists; reflexivity.
Qed.

(** X6.  [InvalidParameterError] is raised exactly when the first argument
    is a sequence and the calibration parameters are not three, or the gate
    time is not positive, or the algorithm is neither of the two constants,
    or a supplied register does not reach the largest of the target qubits
    (of a list that is not empty); nothing has been emitted then.  A
    negative target qubit is none of these conditions. *)
Theorem invalid_parameter_iff
        `{Np.Numerics} (FIX_DURATION_UNITARY INSTANT_UNITARY : string)
        (fuel : nat) (obj : py_object) (target_qubits : option (list Z))
        (gate_time : Q) (pre_post_gate_parameters : option (list Q))
        (add_measurement : bool) (algorithm : string)
        (quantum_registers : option QuantumRegister)
        (circuit_name : option string) :
  let r := call (convert_dds_to_quantum_circuit
                   FIX_DURATION_UNITARY INSTANT_UNITARY
                   fuel obj target_qubits gate_time pre_post_gate_parameters
                   add_measurement algorithm quantum_registers circuit_name) in
  (exists d a, r = (Raised (ArgumentsValueError InvalidParameterError d a), []))
  <-> (exists s, obj = PySequence s) /\
      (length (parameters pre_post_gate_parameters) <> 3%nat
       \/ gate_time <= 0
       \/ (algorithm <> FIX_DURATION_UNITARY /\ algorithm <> INSTANT_UNITARY)
       \/ (targets target_qubits <> [] /\
           exists registers,
             quantum_registers = Some registers /\
             (qr_size registers <= max_target (targets target_qubits))%Z)).
Proof.
  intros r. split.
  - intros (d & a & R). destruct obj as [| | s]; try discriminate R.
    split; [eauto |].
    destruct (sequence_call_raises _ _ _ _ _ _ _ _ _ _ _ s _ _ _ _ eq_refl R)
      as [(_ & _ & C) | [K | K]]; [exact C | discriminate K | discriminate K].
  - intros [[s ->] C]. unfold r. rewrite convert_unfold. cbv zeta.
    destruct (negb (length _ =? 3)%nat) eqn:P; [eauto |].
    apply negb_false_iff, Nat.eqb_eq in P.
    destruct (Qle_bool gate_time 0) eqn:G; [eauto |].
    assert (G' : ~ gate_time <= 0).
    { intros X. apply Qle_bool_iff in X. congruence. }
    destruct (negb (existsb _ _)) eqn:A; [eauto |].
    apply negb_false_iff in A.
    destruct C as [C | [C | [C | (T & registers & -> & S)]]];
      [contradiction | contradiction | |].
    + apply algorithm_unknown in C. congruence.
    + destruct (targets target_qubits) as [| q tq']; [congruence |].
      assert (S' : (qr_size registers <? max_target (q :: tq') + 1)%Z = true)
        by (apply Z.ltb_lt; lia).
      rewrite S'. eauto.
Qed.

Lemma invalid_parameter_iff_witness :
  exists d a,
    convert 5 (PySequence scenario_a) (Some [(-1)%Z]) 0 FIX_DURATION_UNITARY
    = (Raised (ArgumentsValueError InvalidParameterError d a), []).
Proof.
  apply (proj2 (@invalid_parameter_iff Taylor.numerics
                  FIX_DURATION_UNITARY INSTANT_UNITARY
                  5 (PySequence scenario_a) (Some [(-1)%Z]) 0 None true
                  FIX_DURATION_UNITARY None None)).
  split; [eexists; reflexivity |]. right. left.
  apply Qle_bool_imp_le. reflexivity.
Defined.

(** X7.  The conversion terminates on every input: whatever the arguments,
    from some amount of fuel on it returns or raises.  A gate time that is
    not positive, which would make the loop of the identity gates endless,
    is rejected before the builder runs. *)
Theorem conversion_terminates
        `{Np.Numerics} (FIX_DURATION_UNITARY INSTANT_UNITARY : string)
        (obj : py_object) (target_qubits : option (list Z))
        (gate_time : Q) (pre_post_gate_parameters : option (list Q))
        (add_measurement : bool) (algorithm : string)
        (quantum_registers : option QuantumRegister)
        (circuit_name : option string) :
  exists n0, forall fuel, (n0 <= fuel)%nat ->
    fst (call (convert_dds_to_quantum_circuit
                 FIX_DURATION_UNITARY INSTANT_UNITARY
                 fuel obj target_qubits gate_time pre_post_gate_parameters
                 add_measurement algorithm quantum_registers circuit_name))
    <> OutOfFuel.
Proof.
  destruct obj as [| | s].
  1, 2: exists 0%nat; intros fuel _; discriminate.
  destruct (Qle_bool gate_time 0) eqn:G.
  - exists 0%nat. intros fuel _. rewrite convert_unfold. cbv zeta.
    rewrite G. destruct (negb (length _ =? 3)%nat); discriminate.
  - assert (G' : 0 < gate_time).
    { apply Qnot_le_lt. intros C. apply Qle_bool_iff in C. congruence. }
    destruct (construction_fuel s (targets target_qubits) gate_time
                (if String.eqb algorithm FIX_DURATION_UNITARY
                 then gate_time else 0)
                (nth 0 (parameters pre_post_gate_parameters) 0)
                (nth 1 (parameters pre_post_gate_parameters) 0)
                (nth 2 (parameters pre_post_gate_parameters) 0)
                add_measurement
                (sized_register quantum_registers (targets target_qubits))
                circuit_name G') as [n0 C].
    exists n0. intros fuel F. rewrite convert_unfold. cbv zeta. rewrite G.
    destruct (negb (length _ =? 3)%nat); [discriminate |].
    destruct (negb (existsb _ _)); [discriminate |].
    destruct (targets target_qubits) as [| q tq']; [discriminate |].
    destruct (match quantum_registers with
              | Some registers => _
              | None => false
              end); [discriminate | apply (C fuel F)].
Qed.

Lemma invalid_sequence_iff_witness :
  @nil instruction = [] /\ (PyOther = PyNone \/ PyOther = PyOther).
Proof.
  apply (proj2 (@invalid_sequence_iff Taylor.numerics
                  FIX_DURATION_UNITARY INSTANT_UNITARY
                  0 PyOther (Some []) 0 (Some []) false "" None None)
               "Dynamical decoupling sequence is not recognized.Expected DynamicDecouplingSequence instance"
               arg_sequence_type []).
  reflexivity.
Defined.

(** * The instructions of the circuit *)

Section Blocks.

Context `{Np.Numerics}.

Variable s : DynamicDecouplingSequence.
Variable target_qubits : list Z.

(** With the count of its rotations, a pulse always selects a gate: the
    chain of tests of the assembler does not fall through. *)
Lemma emit_pulse_gate (x y z : Q) (qubit : Z) :
  appends (emit_pulse [x; y; z] (count_nonzero [x; y; z]) qubit)
          [rotation_gate [x; y; z] (count_nonzero [x; y; z]) qubit;
           barrier qubit].
Proof.
  intros c. unfold emit_pulse, rotation_gate.
  rewrite count_nonzero_triple. cbn [nth].
  destruct (Np.isclose x 0), (Np.isclose y 0), (Np.isclose z 0);
    cbn [Nat.add Nat.eqb negb]; unfold bind, emit;
    rewrite <- app_assoc; reflexivity.
Qed.

Lemma pulse_slot_block (i : nat) (op : list Q) :
  pulse_at s i = Some op ->
  (count_nonzero (_get_rotations op) <= 1)%nat ->
  appends (pulse_slot s target_qubits i)
          (flat_map (fun qubit =>
                       [rotation_gate (_get_rotations op)
                                      (count_nonzero (_get_rotations op)) qubit;
                        barrier qubit])
                    target_qubits).
Proof.
  intros P C c. rewrite (pulse_slot_unfold _ _ _ _ _ P).
  assert (L : (1 <? count_nonzero (_get_rotations op))%nat = false)
    by (apply Nat.ltb_ge, C).
  rewrite L. apply appends_for_each. intros q. apply emit_pulse_gate.
Qed.

Lemma rotation_gate_on (rotations : list Q) (count : nat) (qubit : Z) :
  (exists theta phi lam, rotation_gate rotations count qubit
                         = u3 theta phi lam qubit)
  \/ (exists lam, rotation_gate rotations count qubit = u1 lam qubit).
Proof.
  unfold rotation_gate.
  destruct (count =? 0)%nat; [left; eauto |].
  destruct (negb _); [left; eauto |].
  destruct (negb _); [left; eauto | right; eauto].
Qed.

(** A walk that returns has appended one block for every entry of the gate
    list. *)
Lemma walk_blocks (gl : list string) :
  forall offset_count c n c',
    walk s target_qubits gl offset_count c = (Returned n, c') ->
    exists blocks,
      Forall2 (block_of target_qubits) gl blocks /\
      c' = c ++ concat blocks.
Proof.
  induction gl as [| gate rest IH]; intros oc c n c' W; cbn [walk] in W.
  - injection W as _ <-. exists []. split; [constructor |].
    simpl. symmetry. apply app_nil_r.
  - destruct (String.eqb gate "id") eqn:G.
    + unfold bind in W. rewrite appends_id_slot in W. apply IH in W.
      destruct W as (blocks & B & ->).
      exists (id_instructions target_qubits :: blocks). split.
      * constructor; [| exact B]. unfold block_of. rewrite G. reflexivity.
      * simpl. symmetry. apply app_assoc.
    + unfold bind in W.
      destruct (pulse_slot_cases s target_qubits oc c)
        as [[P S] | [(op & P & C & S) | (op & l & P & C & _)]].
      * rewrite S in W. discriminate W.
      * rewrite S in W. discriminate W.
      * rewrite (pulse_slot_block _ _ P C) in W. apply IH in W.
        destruct W as (blocks & B & ->).
        eexists (_ :: blocks). split.
        -- constructor; [| exact B]. unfold block_of. rewrite G.
           do 2 eexists. reflexivity.
        -- simpl. symmetry. apply app_assoc.
Qed.

Lemma block_facts (gate : string) (block : list instruction) :
  block_of target_qubits gate block ->
  length block = (2 * length target_qubits)%nat /\
  Forall (on_targets target_qubits) block /\
  Forall (fun i => is_measure i = false) block.
Proof.
  unfold block_of.
  assert (F : forall (g : Z -> instruction),
             (forall q, In q target_qubits -> on_targets target_qubits (g q)) ->
             (forall q, is_measure (g q) = false) ->
             let b := flat_map (fun q => [g q; barrier q]) target_qubits in
             length b = (2 * length target_qubits)%nat /\
             Forall (on_targets target_qubits) b /\
             Forall (fun i => is_measure i = false) b).
  { intros g T M. cbv zeta.
    assert (S : forall l, incl l target_qubits ->
               length (flat_map (fun q => [g q; barrier q]) l)
               = (2 * length l)%nat /\
               Forall (on_targets target_qubits)
                      (flat_map (fun q => [g q; barrier q]) l) /\
               Forall (fun i => is_measure i = false)
                      (flat_map (fun q => [g q; barrier q]) l)).
    { induction l as [| q l IH]; intros I.
      - simpl. repeat split; constructor.
      - destruct IH as (L & A & B).
        { intros x X. apply I. right. exact X. }
        assert (Q : In q target_qubits) by (apply I; left; reflexivity).
        simpl. repeat split.
        + rewrite L. lia.
        + constructor; [apply T, Q |]. constructor; [exact Q | exact A].
        + constructor; [apply M |]. constructor; [reflexivity | exact B]. }
    apply S. apply incl_refl. }
  destruct (String.eqb gate "id").
  - intros ->. apply (F iden); [intros q Q; exact Q | reflexivity].
  - intros (rotations & count & ->).
    apply (F (rotation_gate rotations count)).
    + intros q Q.
      destruct (rotation_gate_on rotations count q)
        as [(t & p & l & ->) | (l & ->)]; exact Q.
    + intros q.
      destruct (rotation_gate_on rotations count q)
        as [(t & p & l & ->) | (l & ->)]; reflexivity.
Qed.

Lemma blocks_facts (gl : list string) (blocks : list (list instruction)) :
  Forall2 (block_of target_qubits) gl blocks ->
  length (concat blocks) = (2 * length target_qubits * length gl)%nat /\
  Forall (on_targets target_qubits) (concat blocks) /\
  Forall (fun i => is_measure i = false) (concat blocks).
Proof.
  induction 1 as [| gate block gl blocks B _ IH].
  - simpl. repeat split; [lia | constructor | constructor].
  - destruct IH as (L & A & M). apply block_facts in B.
    destruct B as (L1 & A1 & M1). simpl. repeat split.
    + rewrite length_app, L, L1. lia.
    + apply Forall_app. auto.
    + apply Forall_app. auto.
Qed.

End Blocks.

Lemma enumerate_spec {A} (l : list A) :
  forall start i x, In (i, x) (enumerate start l) ->
                    In x l /\ (start <= i < start + length l)%nat.
Proof.
  induction l as [| y l IH]; intros start i x I; simpl in I.
  - contradiction.
  - destruct I as [I | I].
    + injection I as <- <-. simpl. split; [auto | lia].
    + apply IH in I. simpl. split; [tauto | lia].
Qed.

Lemma enumerate_length {A} (l : list A) :
  forall start, length (enumerate start l) = length l.
Proof.
  induction l as [| y l IH]; intros start; simpl; [| rewrite IH]; reflexivity.
Qed.

Lemma calibration_facts (p0 p1 p2 : Q) (target_qubits : list Z) :
  length (pre_instructions p0 p1 p2 target_qubits)
  = (2 * length target_qubits)%nat /\
  length (post_instructions p0 p1 p2 target_qubits)
  = (2 * length target_qubits)%nat /\
  Forall (on_targets target_qubits) (pre_instructions p0 p1 p2 target_qubits) /\
  Forall (on_targets target_qubits) (post_instructions p0 p1 p2 target_qubits) /\
  Forall (fun i => is_measure i = false)
         (pre_instructions p0 p1 p2 target_qubits) /\
  Forall (fun i => is_measure i = false)
         (post_instructions p0 p1 p2 target_qubits).
Proof.
  unfold pre_instructions, post_instructions.
  assert (S : forall l, incl l target_qubits ->
             length (flat_map (fun q => [u3 p0 p1 p2 q; barrier q]) l)
             = (2 * length l)%nat /\
             length (flat_map (fun q => [u3 p0 p1 p2 q; barrier_all]) l)
             = (2 * length l)%nat /\
             Forall (on_targets target_qubits)
                    (flat_map (fun q => [u3 p0 p1 p2 q; barrier q]) l) /\
             Forall (on_targets target_qubits)
                    (flat_map (fun q => [u3 p0 p1 p2 q; barrier_all]) l) /\
             Forall (fun i => is_measure i = false)
                    (flat_map (fun q => [u3 p0 p1 p2 q; barrier q]) l) /\
             Forall (fun i => is_measure i = false)
                    (flat_map (fun q => [u3 p0 p1 p2 q; barrier_all]) l)).
  { induction l as [| q l IH]; intros I.
    - simpl. repeat split; constructor.
    - destruct IH as (L1 & L2 & A1 & A2 & M1 & M2).
      { intros x X. apply I. right. exact X. }
      assert (Q : In q target_qubits) by (apply I; left; reflexivity).
      simpl. repeat split; try lia;
        repeat (constructor; try exact Q; try exact I); assumption. }
  apply S, incl_refl.
Qed.

Lemma measure_facts (add_measurement : bool) (target_qubits : list Z) :
  length (measure_instructions add_measurement target_qubits)
  = (if add_measurement then length target_qubits else 0%nat) /\
  Forall (on_targets target_qubits)
         (measure_instructions add_measurement target_qubits).
Proof.
  unfold measure_instructions. destruct add_measurement.
  - split; [rewrite length_map; apply enumerate_length |].
    apply Forall_forall. intros i I. apply in_map_iff in I.
    destruct I as ([k q] & <- & I). apply enumerate_spec in I. apply I.
  - split; [reflexivity | constructor].
Qed.

Lemma max_target_spec (x : Z) (rest : list Z) :
  In (max_target (x :: rest)) (x :: rest) /\
  forall q, In q (x :: rest) -> (q <= max_target (x :: rest))%Z.
Proof.
  unfold max_target. cbn [hd tl]. revert x.
  induction rest as [| y rest IH]; intros x.
  - simpl. split; [auto |]. intros q [-> | []]. lia.
  - cbn [fold_left]. destruct (IH (Z.max x y)) as [I M]. split.
    + destruct I as [I | I].
      * rewrite <- I. destruct (Z.max_spec x y) as [[_ ->] | [_ ->]];
          [right; left | left]; reflexivity.
      * right. right. exact I.
    + intros q [-> | [-> | Q]].
      * specialize (M (Z.max q y) (or_introl eq_refl)). lia.
      * specialize (M (Z.max x q) (or_introl eq_refl)). lia.
      * apply M. right. exact Q.
Qed.

Section Accepted.

Context `{Np.Numerics}.
Variables FIX_DURATION_UNITARY INSTANT_UNITARY : string.

Variable fuel : nat.
Variable target_qubits : option (list Z).
Variable gate_time : Q.
Variable pre_post_gate_parameters : option (list Q).
Variable add_measurement : bool.
Variable algorithm : string.
Variable quantum_registers : option QuantumRegister.
Variable circuit_name : option string.

Local Abbreviation call_on obj :=
  (call (convert_dds_to_quantum_circuit FIX_DURATION_UNITARY INSTANT_UNITARY
           fuel obj target_qubits gate_time pre_post_gate_parameters
           add_measurement algorithm quantum_registers circuit_name)).

Local Abbreviation build s :=
  (construction fuel s (targets target_qubits) gate_time
     (if String.eqb algorithm FIX_DURATION_UNITARY then gate_time else 0)
     (nth 0 (parameters pre_post_gate_parameters) 0)
     (nth 1 (parameters pre_post_gate_parameters) 0)
     (nth 2 (parameters pre_post_gate_parameters) 0)
     add_measurement
     (sized_register quantum_registers (targets target_qubits))
     circuit_name).

Local Abbreviation accepted :=
  (accepted_parameters FIX_DURATION_UNITARY INSTANT_UNITARY target_qubits
     gate_time pre_post_gate_parameters algorithm quantum_registers).

(** With accepted parameters the call is the construction. *)
Lemma accepted_call (s : DynamicDecouplingSequence) :
  accepted -> call_on (PySequence s) = build s.
Proof.
  intros (P & G & A & T & R). rewrite convert_unfold. cbv zeta.
  rewrite P. cbn [Nat.eqb negb].
  assert (G' : Qle_bool gate_time 0 = false).
  { apply not_true_iff_false. intros C. apply Qle_bool_iff in C.
    apply (Qlt_not_le _ _ G C). }
  rewrite G'.
  assert (A' : existsb (String.eqb algorithm)
                       [FIX_DURATION_UNITARY; INSTANT_UNITARY] = true).
  { simpl. destruct A as [-> | ->]; rewrite String.eqb_refl;
      [reflexivity | apply orb_true_r]. }
  rewrite A'. cbn [negb].
  destruct (targets target_qubits) as [| q tq']; [congruence |].
  destruct quantum_registers as [registers |]; [| reflexivity].
  assert (S : (qr_size registers <? max_target (q :: tq') + 1)%Z = false).
  { apply Z.ltb_ge. specialize (R registers eq_refl). lia. }
  rewrite S. reflexivity.
Qed.

(** A call that returns had a sequence and accepted parameters. *)
Lemma returned_call (obj : py_object)
      (h : QuantumRegister * option ClassicalRegister * option string)
      (data : list instruction) :
  call_on obj = (Returned h, data) ->
  exists s, obj = PySequence s /\ accepted /\ build s = (Returned h, data).
Proof.
  intros R. destruct obj as [| | s]; try discriminate R.
  exists s. split; [reflexivity |].
  rewrite convert_unfold in R. cbv zeta in R.
  destruct (negb (length _ =? 3)%nat) eqn:P; [discriminate R |].
  apply negb_false_iff, Nat.eqb_eq in P.
  destruct (Qle_bool gate_time 0) eqn:G; [discriminate R |].
  destruct (negb (existsb _ _)) eqn:A; [discriminate R |].
  apply negb_false_iff in A.
  destruct (targets target_qubits) as [| q tq'] eqn:T; [discriminate R |].
  assert (X : forall registers,
             quantum_registers = Some registers ->
             (max_target (q :: tq') < qr_size registers)%Z).
  { intros registers ->.
    destruct (qr_size registers <? _)%Z eqn:S; [discriminate R |].
    apply Z.ltb_ge in S. lia. }
  split.
  - unfold accepted_parameters. rewrite T. repeat split.
    + exact P.
    + apply Qnot_le_lt. intros C. apply Qle_bool_iff in C. congruence.
    + simpl in A. rewrite orb_false_r in A. apply orb_true_iff in A.
      destruct A as [A | A]; apply String.eqb_eq in A; auto.
    + discriminate.
    + exact X.
  - destruct quantum_registers as [registers |]; [| exact R].
    destruct (qr_size registers <? _)%Z; [discriminate R | exact R].
Qed.

End Accepted.

(** X8.  At a pulse with at most one rotation not close to zero, the
    pulse slot appends, for every target qubit in turn, exactly one gate
    on that qubit, a [u3] or a [u1], and then its barrier: the same gate
    for all qubits, and never a barrier without a gate. *)
Theorem pulse_slot_one_gate
        `{Np.Numerics} (s : DynamicDecouplingSequence) (target_qubits : list Z)
        (i : nat) (op : list Q) (c : list instruction) :
  pulse_at s i = Some op ->
  (count_nonzero (_get_rotations op) <= 1)%nat ->
  exists gate : Z -> instruction,
    pulse_slot s target_qubits i c
    = (Returned tt,
       c ++ flat_map (fun qubit => [gate qubit; barrier qubit]) target_qubits)
    /\ ((exists theta phi lam, forall qubit, gate qubit = u3 theta phi lam qubit)
        \/ (exists lam, forall qubit, gate qubit = u1 lam qubit)).
Proof.
  intros P C.
  exists (rotation_gate (_get_rotations op) (count_nonzero (_get_rotations op))).
  split; [apply (pulse_slot_block _ _ _ _ P C) |].
  unfold rotation_gate.
  destruct (_ =? 0)%nat; [left; eauto |].
  destruct (negb _); [left; eauto |].
  destruct (negb _); [left; eauto | right; eauto].
Qed.

Lemma pulse_slot_one_gate_witness :
  exists gate : Z -> instruction,
    @pulse_slot Taylor.numerics two_pulses [0%Z; 3%Z] 1 []
    = (Returned tt,
       [] ++ flat_map (fun qubit => [gate qubit; barrier qubit]) [0%Z; 3%Z])
    /\ ((exists theta phi lam, forall qubit, gate qubit = u3 theta phi lam qubit)
        \/ (exists lam, forall qubit, gate qubit = u1 lam qubit)).
Proof.
  apply (@pulse_slot_one_gate Taylor.numerics two_pulses [0%Z; 3%Z] 1
                              [0; 0; Taylor.pi] []).
  - reflexivity.
  - vm_compute. lia.
Defined.

(** X10.  A returned circuit addresses only target qubits: every gate,
    barrier and measurement is on a qubit of [target_qubits], except the
    barriers over the whole register after the post-calibration gates. *)
Theorem only_target_qubits
        `{Np.Numerics} (FIX_DURATION_UNITARY INSTANT_UNITARY : string)
        (fuel : nat) (obj : py_object) (target_qubits : option (list Z))
        (gate_time : Q) (pre_post_gate_parameters : option (list Q))
        (add_measurement : bool) (algorithm : string)
        (quantum_registers : option QuantumRegister)
        (circuit_name : option string)
        (h : QuantumRegister * option ClassicalRegister * option string)
        (data : list instruction) :
  call (convert_dds_to_quantum_circuit
          FIX_DURATION_UNITARY INSTANT_UNITARY
          fuel obj target_qubits gate_time pre_post_gate_parameters
          add_measurement algorithm quantum_registers circuit_name)
  = (Returned h, data) ->
  Forall (on_targets (targets target_qubits)) data.
Proof.
  intros R. apply returned_call in R. destruct R as (s & -> & _ & R).
  apply construction_returned in R.
  destruct R as (gl & n & c & _ & W & _ & ->).
  apply walk_blocks in W. destruct W as (blocks & F & ->).
  destruct (blocks_facts _ _ _ F) as (_ & A & _).
  destruct (calibration_facts
              (nth 0 (parameters pre_post_gate_parameters) 0)
              (nth 1 (parameters pre_post_gate_parameters) 0)
              (nth 2 (parameters pre_post_gate_parameters) 0)
              (targets target_qubits)) as (_ & _ & A1 & A2 & _).
  destruct (measure_facts add_measurement (targets target_qubits)) as (_ & A3).
  repeat (apply Forall_app; split); assumption.
Qed.

Lemma only_target_qubits_witness :
  Forall (on_targets (targets (Some [2%Z; 5%Z])))
         (snd (convert 20 (PySequence two_pulses) (Some [2%Z; 5%Z]) 0.1
                       INSTANT_UNITARY)).
Proof.
  apply (@only_target_qubits Taylor.numerics
           FIX_DURATION_UNITARY INSTANT_UNITARY
           20 (PySequence two_pulses) (Some [2%Z; 5%Z]) 0.1 None true
           INSTANT_UNITARY None None
           ({| qr_size := 6 |}, Some {| cr_size := 2 |}, None)).
  reflexivity.
Defined.

(** X11.  The measurement stage.  With [add_measurement] the returned
    circuit ends with one measurement per target qubit, in the order of the
    target qubits, into the classical bits 0, 1, ... of a classical
    register of that many bits; nothing before them is a measurement.
    Without it the circuit has no measurement and no classical register. *)
Theorem measurement_stage
        `{Np.Numerics} (FIX_DURATION_UNITARY INSTANT_UNITARY : string)
        (fuel : nat) (obj : py_object) (target_qubits : option (list Z))
        (gate_time : Q) (pre_post_gate_parameters : option (list Q))
        (add_measurement : bool) (algorithm : string)
        (quantum_registers : option QuantumRegister)
        (circuit_name : option string)
        (h : QuantumRegister * option ClassicalRegister * option string)
        (data : list instruction) :
  call (convert_dds_to_quantum_circuit
          FIX_DURATION_UNITARY INSTANT_UNITARY
          fuel obj target_qubits gate_time pre_post_gate_parameters
          add_measurement algorithm quantum_registers circuit_name)
  = (Returned h, data) ->
  let tq := targets target_qubits in
  exists body,
    Forall (fun i => is_measure i = false) body /\
    if add_measurement
    then data = body ++ map (fun '(clbit, qubit) => measure qubit clbit)
                            (enumerate 0 tq)
         /\ snd (fst h) = Some {| cr_size := length tq |}
    else data = body /\ snd (fst h) = None.
Proof.
  intros R tq. apply returned_call in R. destruct R as (s & -> & _ & R).
  apply construction_returned in R.
  destruct R as (gl & n & c & _ & W & -> & ->).
  apply walk_blocks in W. destruct W as (blocks & F & ->). fold tq.
  destruct (blocks_facts _ _ _ F) as (_ & _ & M).
  destruct (calibration_facts
              (nth 0 (parameters pre_post_gate_parameters) 0)
              (nth 1 (parameters pre_post_gate_parameters) 0)
              (nth 2 (parameters pre_post_gate_parameters) 0) tq)
    as (_ & _ & _ & _ & M1 & M2).
  exists ((pre_instructions
             (nth 0 (parameters pre_post_gate_parameters) 0)
             (nth 1 (parameters pre_post_gate_parameters) 0)
             (nth 2 (parameters pre_post_gate_parameters) 0) tq
           ++ concat blocks)
          ++ post_instructions
               (nth 0 (parameters pre_post_gate_parameters) 0)
               (nth 1 (parameters pre_post_gate_parameters) 0)
               (nth 2 (parameters pre_post_gate_parameters) 0) tq).
  split.
  - apply Forall_app. split; [apply Forall_app; split |]; assumption.
  - unfold measure_instructions. destruct add_measurement; cbn [fst snd].
    + split; [apply app_assoc | reflexivity].
    + split; [rewrite app_nil_r; reflexivity | reflexivity].
Qed.

Lemma measurement_stage_witness :
  exists body,
    Forall (fun i => is_measure i = false) body /\
    snd (convert 20 (PySequence two_pulses) (Some [2%Z; 5%Z]) 0.1
                 INSTANT_UNITARY)
    = body ++ [measure 2 0; measure 5 1]
    /\ Some {| cr_size := 2 |} = Some {| cr_size := 2 |}.
Proof.
  apply (@measurement_stage Taylor.numerics
           FIX_DURATION_UNITARY INSTANT_UNITARY
           20 (PySequence two_pulses) (Some [2%Z; 5%Z]) 0.1 None true
           INSTANT_UNITARY None None
           ({| qr_size := 6 |}, Some {| cr_size := 2 |}, None)).
  reflexivity.
Defined.

(** X12.  The registers of a returned circuit.  Every target qubit is a
    position of the quantum register; a supplied register is kept as it
    is, and a fresh one ends exactly at the largest target qubit.  The
    circuit carries the name that was passed. *)
Theorem circuit_registers
        `{Np.Numerics} (FIX_DURATION_UNITARY INSTANT_UNITARY : string)
        (fuel : nat) (obj : py_object) (target_qubits : option (list Z))
        (gate_time : Q) (pre_post_gate_parameters : option (list Q))
        (add_measurement : bool) (algorithm : string)
        (quantum_registers : option QuantumRegister)
        (circuit_name : option string)
        (registers : QuantumRegister) (classical : option ClassicalRegister)
        (name' : option string) (data : list instruction) :
  call (convert_dds_to_quantum_circuit
          FIX_DURATION_UNITARY INSTANT_UNITARY
          fuel obj target_qubits gate_time pre_post_gate_parameters
          add_measurement algorithm quantum_registers circuit_name)
  = (Returned (registers, classical, name'), data) ->
  let tq := targets target_qubits in
  (forall q, In q tq -> (q < qr_size registers)%Z)
  /\ (forall supplied, quantum_registers = Some supplied ->
                       registers = supplied)
  /\ (quantum_registers = None ->
      exists q, In q tq /\ qr_size registers = (q + 1)%Z)
  /\ name' = circuit_name.
Proof.
  intros R tq. apply returned_call in R.
  destruct R as (s & -> & (_ & _ & _ & T & S) & R).
  apply construction_returned in R.
  destruct R as (gl & n & c & _ & _ & E & _). injection E as -> _ ->.
  fold tq in T, S |- *. destruct tq as [| x rest]; [congruence |].
  destruct (max_target_spec x rest) as [I M].
  repeat split.
  - intros q Q. specialize (M q Q).
    destruct quantum_registers as [supplied |]; cbn [sized_register qr_size].
    + specialize (S supplied eq_refl). lia.
    + lia.
  - intros supplied ->. reflexivity.
  - intros ->. exists (max_target (x :: rest)). split; [exact I | reflexivity].
Qed.

Lemma circuit_registers_witness :
  (forall q, In q (targets (Some [2%Z; 5%Z])) -> (q < 6)%Z)
  /\ (forall supplied, @None QuantumRegister = Some supplied ->
                       {| qr_size := 6 |} = supplied)
  /\ (@None QuantumRegister = None ->
      exists q, In q (targets (Some [2%Z; 5%Z])) /\ 6%Z = (q + 1)%Z)
  /\ @None string = None.
Proof.
  apply (@circuit_registers Taylor.numerics
           FIX_DURATION_UNITARY INSTANT_UNITARY
           20 (PySequence two_pulses) (Some [2%Z; 5%Z]) 0.1 None true
           INSTANT_UNITARY None None
           {| qr_size := 6 |} (Some {| cr_size := 2 |}) None
           (snd (convert 20 (PySequence two_pulses) (Some [2%Z; 5%Z]) 0.1
                         INSTANT_UNITARY))).
  reflexivity.
Defined.

(** X13.  A sufficient condition for a circuit.  With accepted parameters
    and target qubits that are not negative,
    a sequence whose four arrays have one length, whose first offset is not
    below [-atol], whose consecutive offsets are at least the unitary time
    of the algorithm apart (up to [atol]) and whose pulses have at most one
    rotation not close to zero is converted: given enough fuel the call
    returns a circuit. *)
Theorem conversion_succeeds
        `{Np.Numerics} (FIX_DURATION_UNITARY INSTANT_UNITARY : string)
        (s : DynamicDecouplingSequence) (target_qubits : option (list Z))
        (gate_time : Q) (pre_post_gate_parameters : option (list Q))
        (add_measurement : bool) (algorithm : string)
        (quantum_registers : option QuantumRegister)
        (circuit_name : option string) :
  let unitary_time :=
    if String.eqb algorithm FIX_DURATION_UNITARY then gate_time else 0 in
  accepted_parameters FIX_DURATION_UNITARY INSTANT_UNITARY target_qubits
    gate_time pre_post_gate_parameters algorithm quantum_registers ->
  (forall q, In q (targets target_qubits) -> (0 <= q)%Z) ->
  length (azimuthal_angles s) = length (rabi_rotations s) ->
  length (detuning_rotations s) = length (rabi_rotations s) ->
  length (offsets s) = length (rabi_rotations s) ->
  (forall o, nth_error (offsets s) 0 = Some o -> - Np.atol <= o) ->
  (forall i o o', nth_error (offsets s) i = Some o ->
                  nth_error (offsets s) (S i) = Some o' ->
                  o + unitary_time - Np.atol <= o') ->
  (forall i op, pulse_at s i = Some op ->
                (count_nonzero (_get_rotations op) <= 1)%nat) ->
  exists n0, forall fuel, (n0 <= fuel)%nat ->
    exists circuit,
      result_of (call (convert_dds_to_quantum_circuit
                         FIX_DURATION_UNITARY INSTANT_UNITARY
                         fuel (PySequence s) target_qubits gate_time
                         pre_post_gate_parameters add_measurement algorithm
                         quantum_registers circuit_name))
      = Returned circuit.
Proof.
  intros ut A _ E1 E2 E3 F D P.
  assert (G : 0 < gate_time) by apply A.
  assert (U : 0 <= ut).
  { unfold ut. destruct (String.eqb _ _); lra. }
  destruct (loop_accepts s gate_time ut
              [rabi_rotations s; azimuthal_angles s; detuning_rotations s]
              G U D (length (rabi_rotations s)) 0%nat 0 [])
    as [n0 L]; [lia | |].
  { intros o O. specialize (F o O). lra. }
  exists n0. intros fuel N. destruct (L fuel N) as [st X].
  rewrite (accepted_call _ _ _ _ _ _ _ _ _ _ s A). fold ut.
  unfold construction.
  rewrite (gate_list_unfold _ _ _ _ E1 E2).
  destruct (loop_shape _ _ _ _ _ _ _ _ X) as (ks & K & S).
  rewrite length_seq in K. rewrite X. cbn [obind]. simpl in S. rewrite S.
  rewrite walk_slots.
  destruct (walk_pulses_cases s (targets target_qubits) ks E1 E2 0
              (pre_instructions
                 (nth 0 (parameters pre_post_gate_parameters) 0)
                 (nth 1 (parameters pre_post_gate_parameters) 0)
                 (nth 2 (parameters pre_post_gate_parameters) 0)
                 (targets target_qubits)))
    as [(c & W & _) | (j & op & c & _ & Pj & C & _)]; [lia | |].
  - rewrite W. eexists. reflexivity.
  - specialize (P j op Pj). lia.
Qed.

Lemma conversion_succeeds_witness :
  exists n0, forall fuel, (n0 <= fuel)%nat ->
    exists circuit,
      result_of (convert fuel (PySequence three_pulses) None 0.1
                         FIX_DURATION_UNITARY)
      = Returned circuit.
Proof.
  apply (@conversion_succeeds Taylor.numerics
           FIX_DURATION_UNITARY INSTANT_UNITARY
           three_pulses None 0.1 None true FIX_DURATION_UNITARY None None).
  - repeat split.
    + left. reflexivity.
    + discriminate.
    + discriminate.
  - intros q [<- | []]. lia.
  - reflexivity.
  - reflexivity.
  - reflexivity.
  - intros o O. injection O as <-. apply Qle_bool_imp_le. reflexivity.
  - intros [| [| [| i]]] o o' O O'; simpl in O, O';
      try discriminate O'; injection O as <-; injection O' as <-;
      apply Qle_bool_imp_le; reflexivity.
  - intros [| [| [| i]]] op O; unfold pulse_at in O; simpl in O.
    + injection O as <-. vm_compute. lia.
    + injection O as <-. vm_compute. lia.
    + injection O as <-. vm_compute. lia.
    + destruct i; discriminate O.
Defined.

Lemma isclose_null (x : Q) : x == 0 -> Np.isclose x 0 = true.
Proof.
  intros E. apply isclose_zero. rewrite E. discriminate.
Qed.

(** X14.  A pulse of amplitude zero.  Whatever its phase and whatever the
    cosine and sine are, the pulse is emitted as the phase gate [u1] of its
    detuning when the detuning is not close to zero, and as the zero
    rotation [u3(0, 0, 0)] when it is. *)
Theorem zero_amplitude_pulse
        `{Np.Numerics} (s : DynamicDecouplingSequence) (target_qubits : list Z)
        (i : nat) (amplitude phase detuning : Q) (c : list instruction) :
  pulse_at s i = Some [amplitude; phase; detuning] ->
  amplitude == 0 ->
  pulse_slot s target_qubits i c
  = (Returned tt,
     c ++ flat_map (fun qubit =>
                      [if Np.isclose detuning 0
                       then u3 0 0 0 qubit else u1 detuning qubit;
                       barrier qubit])
                   target_qubits).
Proof.
  intros P Z.
  assert (X : Np.isclose (amplitude * Np.cos phase) 0 = true).
  { apply isclose_null. rewrite Z. ring. }
  assert (Y : Np.isclose (amplitude * Np.sin phase) 0 = true).
  { apply isclose_null. rewrite Z. ring. }
  assert (R : _get_rotations [amplitude; phase; detuning]
              = [amplitude * Np.cos phase; amplitude * Np.sin phase; detuning])
    by reflexivity.
  assert (C : count_nonzero (_get_rotations [amplitude; phase; detuning])
              = if Np.isclose detuning 0 then 0%nat else 1%nat).
  { rewrite R, count_nonzero_triple, X, Y. reflexivity. }
  rewrite (pulse_slot_block _ _ _ _ P)
    by (rewrite C; destruct (Np.isclose detuning 0); lia).
  rewrite C, R. f_equal. f_equal. apply flat_map_ext. intros q.
  unfold rotation_gate. cbn [nth]. rewrite X, Y.
  destruct (Np.isclose detuning 0); reflexivity.
Qed.

Lemma zero_amplitude_pulse_witness :
  @pulse_slot Taylor.numerics phase_only [0%Z] 0 []
  = (Returned tt,
     [] ++ flat_map (fun qubit =>
                       [if Np.isclose 0 0
                        then u3 0 0 0 qubit else u1 0 qubit;
                        barrier qubit]) [0%Z]).
Proof.
  apply (@zero_amplitude_pulse Taylor.numerics phase_only [0%Z] 0 0 1 0 []);
    reflexivity.
Defined.

(** X15.  A sequence without pulses.  With accepted parameters and target
    qubits that are not negative the call
    needs no fuel and returns a circuit that holds the pre-calibration
    gates, the post-calibration gates and the measurements, and nothing
    between them. *)
Theorem empty_sequence_circuit
        `{Np.Numerics} (FIX_DURATION_UNITARY INSTANT_UNITARY : string)
        (fuel : nat) (s : DynamicDecouplingSequence)
        (target_qubits : option (list Z))
        (gate_time : Q) (pre_post_gate_parameters : option (list Q))
        (add_measurement : bool) (algorithm : string)
        (quantum_registers : option QuantumRegister)
        (circuit_name : option string) :
  accepted_parameters FIX_DURATION_UNITARY INSTANT_UNITARY target_qubits
    gate_time pre_post_gate_parameters algorithm quantum_registers ->
  (forall q, In q (targets target_qubits) -> (0 <= q)%Z) ->
  rabi_rotations s = [] -> azimuthal_angles s = [] ->
  detuning_rotations s = [] ->
  let tq := targets target_qubits in
  exists h p0 p1 p2,
    parameters pre_post_gate_parameters = [p0; p1; p2] /\
    call (convert_dds_to_quantum_circuit
            FIX_DURATION_UNITARY INSTANT_UNITARY
            fuel (PySequence s) target_qubits gate_time
            pre_post_gate_parameters add_measurement algorithm
            quantum_registers circuit_name)
    = (Returned h,
       pre_instructions p0 p1 p2 tq ++ post_instructions p0 p1 p2 tq
         ++ measure_instructions add_measurement tq).
Proof.
  intros A _ E1 E2 E3 tq.
  rewrite (accepted_call _ _ _ _ _ _ _ _ _ _ s A). fold tq.
  destruct A as (P & _).
  destruct (parameters pre_post_gate_parameters)
    as [| p0 [| p1 [| p2 [| p3 rest]]]]; try discriminate P.
  eexists. exists p0, p1, p2. split; [reflexivity |].
  unfold construction, _get_circuit_gate_list. rewrite E1, E2, E3.
  reflexivity.
Qed.

Lemma empty_sequence_circuit_witness :
  exists h p0 p1 p2,
    @parameters Taylor.numerics None = [p0; p1; p2] /\
    convert 0 (PySequence no_pulse) (Some [1%Z]) 0.1 INSTANT_UNITARY
    = (Returned h,
       pre_instructions p0 p1 p2 [1%Z] ++ post_instructions p0 p1 p2 [1%Z]
         ++ measure_instructions true [1%Z]).
Proof.
  apply (@empty_sequence_circuit Taylor.numerics
           FIX_DURATION_UNITARY INSTANT_UNITARY
           0 no_pulse (Some [1%Z]) 0.1 None true INSTANT_UNITARY None None);
    try reflexivity.
  - repeat split.
    + right. reflexivity.
    + discriminate.
    + discriminate.
  - intros q [<- | []]. lia.
Defined.

(** * The delays on binary64 numbers *)

Section Binary64Delays.

Variable s : Binary64.DynamicDecouplingSequence.
Variables gate_time unitary_time : Binary64.float.


End Binary64Delays.




(** * The multi-axis error *)

Section Axes.

Context `{Np.Numerics}.

Lemma pulse_at_triple (s : DynamicDecouplingSequence) (i : nat) (op : list Q) :
  pulse_at s i = Some op ->
  op = [nth i (rabi_rotations s) 0; nth i (azimuthal_angles s) 0;
        nth i (detuning_rotations s) 0].
Proof.
  unfold pulse_at.
  destruct (nth_error (rabi_rotations s) i) as [r |] eqn:R; [| discriminate].
  destruct (nth_error (azimuthal_angles s) i) as [a |] eqn:A; [| discriminate].
  destruct (nth_error (detuning_rotations s) i) as [d |] eqn:D; [| discriminate].
  intros X. injection X as <-.
  rewrite (nth_error_nth _ _ 0 R), (nth_error_nth _ _ 0 A),
    (nth_error_nth _ _ 0 D).
  reflexivity.
Qed.

Lemma active_axes_count (amplitude phase detuning : Q) :
  count_nonzero (_get_rotations [amplitude; phase; detuning])
  = active_axes amplitude phase detuning.
Proof.
  unfold active_axes.
  change (_get_rotations [amplitude; phase; detuning])
    with [amplitude * Np.cos phase; amplitude * Np.sin phase; detuning].
  apply count_nonzero_triple.
Qed.

(** With at most one active axis, the gate that the assembler selects is
    the gate of the pulse. *)
Lemma rotation_gate_pulse (amplitude phase detuning : Q) (qubit : Z) :
  (active_axes amplitude phase detuning <= 1)%nat ->
  rotation_gate (_get_rotations [amplitude; phase; detuning])
                (count_nonzero (_get_rotations [amplitude; phase; detuning]))
                qubit
  = pulse_gate amplitude phase detuning qubit.
Proof.
  rewrite active_axes_count. unfold active_axes, rotation_gate, pulse_gate.
  change (_get_rotations [amplitude; phase; detuning])
    with [amplitude * Np.cos phase; amplitude * Np.sin phase; detuning].
  cbn [nth].
  destruct (Np.isclose (amplitude * Np.cos phase) 0),
           (Np.isclose (amplitude * Np.sin phase) 0),
           (Np.isclose detuning 0); cbn; intros L; try reflexivity; lia.
Qed.

End Axes.

Lemma pulse_at_in_range `{Np.Numerics} (s : DynamicDecouplingSequence)
      (i : nat) (op : list Q) :
  pulse_at s i = Some op -> (i < length (rabi_rotations s))%nat.
Proof.
  unfold pulse_at.
  destruct (nth_error (rabi_rotations s) i) as [r |] eqn:R; [| discriminate].
  intros _. apply nth_error_Some. congruence.
Qed.

(** A call that returns or raises the multi-axis error has walked the
    pulses of a sequence. *)
Lemma call_walks
      `{Np.Numerics} (FIX_DURATION_UNITARY INSTANT_UNITARY : string)
      (fuel : nat) (obj : py_object) (target_qubits : option (list Z))
      (gate_time : Q) (pre_post_gate_parameters : option (list Q))
      (add_measurement : bool) (algorithm : string)
      (quantum_registers : option QuantumRegister)
      (circuit_name : option string) :
  let r := call (convert_dds_to_quantum_circuit
                   FIX_DURATION_UNITARY INSTANT_UNITARY
                   fuel obj target_qubits gate_time pre_post_gate_parameters
                   add_measurement algorithm quantum_registers circuit_name) in
  ((forall h, fst r <> Returned h) /\
   (forall d a, fst r <> Raised (ArgumentsValueError
                                   MultiAxisRotationError d a)))
  \/ exists s ks c0,
      obj = PySequence s /\
      length (azimuthal_angles s) = length (rabi_rotations s) /\
      length (detuning_rotations s) = length (rabi_rotations s) /\
      length ks = length (rabi_rotations s) /\
      (forall h, fst r = Returned h ->
                 exists c', walk_pulses s (targets target_qubits) ks 0 c0
                            = (Returned (length ks), c')) /\
      (forall e, fst r = Raised e ->
                 exists c', walk_pulses s (targets target_qubits) ks 0 c0
                            = (Raised e, c')).
Proof.
  intros r.
  pose proof (convert_phases FIX_DURATION_UNITARY INSTANT_UNITARY
                fuel obj target_qubits gate_time pre_post_gate_parameters
                add_measurement algorithm quantum_registers circuit_name) as P.
  cbv zeta in P. fold r in P.
  destruct P as [[_ [P | (e & P & N)]] | P].
  - left. rewrite P. split; discriminate.
  - left. rewrite P. split; [discriminate |].
    intros d a E. injection E as ->. apply (N d a). reflexivity.
  - destruct P as (s & p0 & p1 & p2 & regs & gl & -> & _ & _ & B & W).
    right. apply gate_list_returned in B.
    destruct B as (E1 & E2 & ks & K & ->).
    exists s, ks, (pre_instructions p0 p1 p2 (targets target_qubits)).
    rewrite walk_slots in W.
    destruct (walk_pulses_cases s (targets target_qubits) ks E1 E2 0
                (pre_instructions p0 p1 p2 (targets target_qubits)))
      as [(c1 & W1 & _) | (j & op & c1 & _ & _ & _ & W1 & _)];
      [lia | |]; rewrite W1 in W; rewrite W; simpl fst;
      repeat split; try assumption; try discriminate.
    + intros h _. eauto.
    + intros e E. injection E as <-. eauto.
Qed.

(** C5.  With x = amplitude * cos(phase), y = amplitude * sin(phase) and
    z = detuning: a pulse with more than one of x, y, z not close to zero
    makes its pulse slot raise [MultiAxisRotationError], which carries the
    triple of the pulse; a pulse with at most one raises nothing.  For the
    whole conversion: when the parameters pass the validation (the target
    qubits being non-negative) and the builder returns its gate list, a
    sequence with such a pulse makes the conversion raise the error with
    the triple of the first such pulse; the error is raised for no other
    pulse, and a conversion that returns a circuit had no such pulse. *)
Theorem multi_axis_error
        `{Np.Numerics} (FIX_DURATION_UNITARY INSTANT_UNITARY : string)
        (fuel : nat) (obj : py_object) (target_qubits : option (list Z))
        (gate_time : Q) (pre_post_gate_parameters : option (list Q))
        (add_measurement : bool) (algorithm : string)
        (quantum_registers : option QuantumRegister)
        (circuit_name : option string) :
  let r := call (convert_dds_to_quantum_circuit
                   FIX_DURATION_UNITARY INSTANT_UNITARY
                   fuel obj target_qubits gate_time pre_post_gate_parameters
                   add_measurement algorithm quantum_registers circuit_name) in
  let single_axis s j :=
    exists a p d, pulse_at s j = Some [a; p; d] /\
                  (active_axes a p d <= 1)%nat in
  (forall s tq i a p d c,
      pulse_at s i = Some [a; p; d] ->
      ((1 < active_axes a p d)%nat ->
       pulse_slot s tq i c = (Raised (multi_axis_error_of [a; p; d]), c))
      /\ ((active_axes a p d <= 1)%nat ->
          exists c', pulse_slot s tq i c = (Returned tt, c')))
  /\ (forall s gl i a p d,
         obj = PySequence s ->
         accepted_parameters FIX_DURATION_UNITARY INSTANT_UNITARY
           target_qubits gate_time pre_post_gate_parameters algorithm
           quantum_registers ->
         (forall q, In q (targets target_qubits) -> (0 <= q)%Z) ->
         _get_circuit_gate_list fuel s gate_time
           (if String.eqb algorithm FIX_DURATION_UNITARY
            then gate_time else 0) = Returned gl ->
         pulse_at s i = Some [a; p; d] ->
         (1 < active_axes a p d)%nat ->
         (forall j, (j < i)%nat -> single_axis s j) ->
         fst r = Raised (multi_axis_error_of [a; p; d]))
  /\ (forall e a0,
         fst r = Raised (ArgumentsValueError MultiAxisRotationError e a0) ->
         exists s i a p d,
           obj = PySequence s /\ pulse_at s i = Some [a; p; d] /\
           (1 < active_axes a p d)%nat /\
           fst r = Raised (multi_axis_error_of [a; p; d]) /\
           forall j, (j < i)%nat -> single_axis s j)
  /\ (forall h,
         fst r = Returned h ->
         exists s,
           obj = PySequence s /\
           forall j, (j < length (rabi_rotations s))%nat -> single_axis s j).
Proof.
  intros r single_axis.
  assert (T : forall s j op,
             pulse_at s j = Some op ->
             (count_nonzero (_get_rotations op) <= 1)%nat ->
             single_axis s j).
  { intros s j op P C. pose proof (pulse_at_triple s j op P) as E.
    rewrite E in P, C. rewrite active_axes_count in C.
    do 3 eexists. split; [exact P | exact C]. }
  split; [| split; [| split]].
  - intros s tq i a p d c P. split; intros C.
    + apply (pulse_slot_multi _ _ _ _ _ P).
      rewrite active_axes_count. exact C.
    + eexists. apply (pulse_slot_single _ _ _ _ P).
      rewrite active_axes_count. exact C.
  - intros s gl i a p d -> A _ B P C E.
    unfold r. rewrite (accepted_call _ _ _ _ _ _ _ _ _ _ s A).
    unfold construction. rewrite B.
    apply gate_list_returned in B. destruct B as (E1 & E2 & ks & K & ->).
    rewrite walk_slots.
    pose proof (pulse_at_in_range s i _ P) as I.
    destruct (walk_pulses_cases s (targets target_qubits) ks E1 E2 0
                (pre_instructions
                   (nth 0 (parameters pre_post_gate_parameters) 0)
                   (nth 1 (parameters pre_post_gate_parameters) 0)
                   (nth 2 (parameters pre_post_gate_parameters) 0)
                   (targets target_qubits)))
      as [(c & W & All) | (j & op & c & J & Pj & Cj & W & Aj)]; [lia | |].
    + exfalso. destruct (All i) as (op & P' & C'); [lia |].
      rewrite P in P'. injection P' as <-.
      rewrite active_axes_count in C'. lia.
    + rewrite W. cbn [fst].
      destruct (Nat.lt_trichotomy j i) as [L | [-> | L]].
      * exfalso. destruct (E j L) as (a' & p' & d' & P' & C').
        rewrite P' in Pj. injection Pj as <-.
        rewrite active_axes_count in Cj. lia.
      * rewrite P in Pj. injection Pj as <-. reflexivity.
      * exfalso. destruct (Aj i) as (op' & P' & C'); [lia |].
        rewrite P in P'. injection P' as <-.
        rewrite active_axes_count in C'. lia.
  - intros e a0 R.
    destruct (call_walks FIX_DURATION_UNITARY INSTANT_UNITARY
                fuel obj target_qubits gate_time pre_post_gate_parameters
                add_measurement algorithm quantum_registers circuit_name)
      as [[_ X] | X]; [destruct (X e a0 R) |].
    destruct X as (s & ks & c0 & -> & E1 & E2 & K & _ & X).
    fold r in X. destruct (X _ R) as [c' W].
    destruct (walk_pulses_cases s (targets target_qubits) ks E1 E2 0 c0)
      as [(c1 & W1 & _) | (j & op & c1 & J & Pj & C & W1 & A)];
      [lia | |]; rewrite W1 in W; [discriminate W |].
    pose proof (pulse_at_triple s j op Pj) as Eop.
    injection W as <- <- _. rewrite Eop in Pj, C, R.
    rewrite active_axes_count in C.
    do 5 eexists. split; [reflexivity |]. split; [exact Pj |].
    split; [exact C |]. split.
    + exact R.
    + intros j' J'. destruct (A j') as (op' & P' & C'); [lia |].
      apply (T _ _ _ P' C').
  - intros h R.
    destruct (call_walks FIX_DURATION_UNITARY INSTANT_UNITARY
                fuel obj target_qubits gate_time pre_post_gate_parameters
                add_measurement algorithm quantum_registers circuit_name)
      as [[X _] | X]; [destruct (X h R) |].
    destruct X as (s & ks & c0 & -> & E1 & E2 & K & X & _).
    fold r in X. destruct (X _ R) as [c' W].
    destruct (walk_pulses_cases s (targets target_qubits) ks E1 E2 0 c0)
      as [(c1 & W1 & A) | (j & op & c1 & J & Pj & C & W1 & A)];
      [lia | |]; rewrite W1 in W; [| discriminate W].
    exists s. split; [reflexivity |]. intros j J.
    destruct (A j) as (op & P & C); [lia |]. apply (T _ _ _ P C).
Qed.

Lemma multi_axis_error_witness :
  @pulse_slot Taylor.numerics two_axes [0%Z] 0 []
  = (Raised (multi_axis_error_of [1; 0; 1]), [])
  /\ (exists c', @pulse_slot Taylor.numerics scenario_a [0%Z] 0 []
                 = (Returned tt, c'))
  /\ fst (convert 10 (PySequence two_axes) None 0.1 FIX_DURATION_UNITARY)
     = Raised (multi_axis_error_of [1; 0; 1])
  /\ (exists s,
         PySequence two_pulses = PySequence s /\
         forall j, (j < length (rabi_rotations s))%nat ->
                   exists a p d,
                     pulse_at s j = Some [a; p; d] /\
                     (@active_axes Taylor.numerics a p d <= 1)%nat).
Proof.
  pose proof (@multi_axis_error Taylor.numerics
                FIX_DURATION_UNITARY INSTANT_UNITARY
                10 (PySequence two_axes) None 0.1 None true
                FIX_DURATION_UNITARY None None) as M.
  pose proof (@multi_axis_error Taylor.numerics
                FIX_DURATION_UNITARY INSTANT_UNITARY
                20 (PySequence two_pulses) None 0.1 None true
                FIX_DURATION_UNITARY None None) as N.
  cbv zeta in M, N. destruct M as (M1 & M2 & _). destruct N as (_ & _ & _ & N4).
  split; [| split; [| split]].
  - apply (proj1 (M1 two_axes [0%Z] 0%nat 1 0 1 [] eq_refl)).
    vm_compute. lia.
  - apply (proj2 (M1 scenario_a [0%Z] 0%nat Taylor.pi 0 0 [] eq_refl)).
    vm_compute. lia.
  - apply (M2 two_axes ["offset"] 0%nat 1 0 1).
    + reflexivity.
    + repeat split.
      * left. reflexivity.
      * discriminate.
      * discriminate.
    + intros q [<- | []]. lia.
    + reflexivity.
    + reflexivity.
    + vm_compute. lia.
    + intros j J. lia.
  - apply (N4 ({| qr_size := 1 |}, Some {| cr_size := 1 |}, None)).
    reflexivity.
Defined.

(** * The layout of the circuit *)

Section Layout.

Context `{Np.Numerics}.

Variable s : DynamicDecouplingSequence.
Variable target_qubits : list Z.

Lemma id_slots_concat (k : nat) :
  flat_map (fun _ : unit => id_instructions target_qubits) (repeat tt k)
  = concat (repeat (id_instructions target_qubits) k).
Proof.
  induction k as [| k IH]; [reflexivity |]. simpl. rewrite IH. reflexivity.
Qed.

(** A walk over the pulses that returns has appended, for every pulse in
    turn, its delays and then the gate of that pulse. *)
Lemma walk_pulses_body (ks : list nat) :
  forall offset_count c n c',
    walk_pulses s target_qubits ks offset_count c = (Returned n, c') ->
    c' = c ++ body_instructions s target_qubits ks offset_count.
Proof.
  induction ks as [| k ks IH]; intros oc c n c' W.
  - cbn in W. injection W as _ <-. simpl. symmetry. apply app_nil_r.
  - rewrite walk_pulses_step in W.
    destruct (pulse_slot_cases s target_qubits oc
                (c ++ flat_map (fun _ => id_instructions target_qubits)
                               (repeat tt k)))
      as [[P S] | [(op & P & C & S) | (op & l & P & C & _)]].
    + rewrite S in W. discriminate W.
    + rewrite S in W. discriminate W.
    + rewrite (pulse_slot_block _ _ _ _ P C) in W.
      replace (oc + 1)%nat with (S oc) in W by lia.
      apply IH in W. rewrite W. cbn [body_instructions].
      rewrite id_slots_concat, <- !app_assoc. do 2 f_equal.
      apply (f_equal (fun l => l ++ body_instructions s target_qubits ks (S oc))).
      unfold pulse_instructions. apply flat_map_ext. intros q.
      pose proof (pulse_at_triple s oc op P) as E. rewrite E in C |- *.
      rewrite rotation_gate_pulse; [reflexivity |].
      rewrite <- active_axes_count. exact C.
Qed.

End Layout.

(** X9.  The layout of a returned circuit: the pre-calibration gates; then
    for every pulse of the sequence in turn its delays, an identity gate
    and a barrier per target qubit each, followed by the gate of that
    pulse (chosen from its own amplitude, phase and detuning) and a
    barrier per target qubit; then the post-calibration gates and the
    measurements.  With [t] target qubits and a gate list of [g] entries it
    has [t * (2 * g + 4)] instructions, and [t] more with the
    measurement. *)
Theorem circuit_layout
        `{Np.Numerics} (FIX_DURATION_UNITARY INSTANT_UNITARY : string)
        (fuel : nat) (obj : py_object) (target_qubits : option (list Z))
        (gate_time : Q) (pre_post_gate_parameters : option (list Q))
        (add_measurement : bool) (algorithm : string)
        (quantum_registers : option QuantumRegister)
        (circuit_name : option string)
        (h : QuantumRegister * option ClassicalRegister * option string)
        (data : list instruction) :
  call (convert_dds_to_quantum_circuit
          FIX_DURATION_UNITARY INSTANT_UNITARY
          fuel obj target_qubits gate_time pre_post_gate_parameters
          add_measurement algorithm quantum_registers circuit_name)
  = (Returned h, data) ->
  let tq := targets target_qubits in
  exists s p0 p1 p2 gl ks,
    obj = PySequence s /\
    parameters pre_post_gate_parameters = [p0; p1; p2] /\
    _get_circuit_gate_list fuel s gate_time
      (if String.eqb algorithm FIX_DURATION_UNITARY then gate_time else 0)
    = Returned gl /\
    gl = slots ks /\
    length ks = length (rabi_rotations s) /\
    data = pre_instructions p0 p1 p2 tq
             ++ body_instructions s tq ks 0
             ++ post_instructions p0 p1 p2 tq
             ++ measure_instructions add_measurement tq /\
    length data
    = (length tq * (2 * length gl + 4)
       + if add_measurement then length tq else 0)%nat.
Proof.
  intros R tq. apply returned_call in R.
  destruct R as (s & -> & (P & _) & R).
  apply construction_returned in R.
  destruct R as (gl & n & c & B & W & _ & ->).
  destruct (gate_list_returned _ _ _ _ _ B) as (_ & _ & ks & K & G).
  destruct (walk_blocks _ _ _ _ _ _ _ W) as (blocks & F & Eb).
  rewrite G, walk_slots in W. apply walk_pulses_body in W.
  destruct (parameters pre_post_gate_parameters)
    as [| p0 [| p1 [| p2 [| p3 rest]]]]; try discriminate P.
  exists s, p0, p1, p2, gl, ks. cbn [nth] in *. fold tq in W, Eb, F |- *.
  repeat split; try assumption.
  - rewrite W, <- app_assoc. reflexivity.
  - destruct (blocks_facts tq gl blocks F) as (L & _).
    destruct (calibration_facts p0 p1 p2 tq) as (L1 & L2 & _).
    destruct (measure_facts add_measurement tq) as (L3 & _).
    rewrite Eb, !length_app, L, L1, L2, L3. lia.
Qed.

Lemma circuit_layout_witness :
  exists s p0 p1 p2 gl ks,
    PySequence two_pulses = PySequence s /\
    @parameters Taylor.numerics None = [p0; p1; p2] /\
    _get_circuit_gate_list 20 s 0.1 0.1 = Returned gl /\
    gl = slots ks /\
    length ks = length (rabi_rotations s) /\
    snd (convert 20 (PySequence two_pulses) (Some [0%Z; 1%Z]) 0.1
                 FIX_DURATION_UNITARY)
    = pre_instructions p0 p1 p2 [0%Z; 1%Z]
        ++ @body_instructions Taylor.numerics s [0%Z; 1%Z] ks 0
        ++ post_instructions p0 p1 p2 [0%Z; 1%Z]
        ++ measure_instructions true [0%Z; 1%Z] /\
    length (snd (convert 20 (PySequence two_pulses) (Some [0%Z; 1%Z]) 0.1
                         FIX_DURATION_UNITARY))
    = (2 * (2 * length gl + 4) + 2)%nat.
Proof.
  apply (@circuit_layout Taylor.numerics FIX_DURATION_UNITARY INSTANT_UNITARY
           20 (PySequence two_pulses) (Some [0%Z; 1%Z]) 0.1 None true
           FIX_DURATION_UNITARY None None
           ({| qr_size := 2 |}, Some {| cr_size := 2 |}, None)).
  reflexivity.
Defined.
